(** * Cortex Hybrid Architecture: tiered reference / body lookup

    A shallow embedding of the JavaScript sources

      - [src/core/L0Bootstrap.js]   (reference catalog and access tracker),
      - [src/core/L1Repository.js]  (backing store client),
      - [src/core/CortexManager.js] (tiered orchestrator),

    followed by the properties established about them.

    Conventions of the embedding.
      - A JavaScript [Map] used as a dictionary is a [gmap]; the bounded
        cache, whose order matters, is a list.
      - A thrown [Error] is the result [Throw msg], with [msg] the error's
        message; state mutated before the throw stays mutated.
      - [async]/[await] is sequential composition: every request runs to
        completion before the next one starts.
      - Every [Date.now()] and [new Date()] consumes one reading of a clock
        oracle.  A timestamp kept as an ISO string in the source is kept as the
        instant (in milliseconds) the string denotes.
      - Counters are natural numbers.  The average response time is a
        JavaScript number, that is an IEEE 754 binary64 value, computed with
        the kernel's binary64 operations (round to nearest, ties to even).
      - A string is a sequence of 8-bit characters and stands for the
        JavaScript string made of the same ASCII characters.  [length] and
        [substring] of the source count UTF-16 code units, one per ASCII
        character, so the two agree on ASCII text; a property that depends on
        a length is stated for ASCII text. *)

From Stdlib Require Import ZArith QArith Qround String Ascii List Lia.
From Stdlib Require PrimFloat SpecFloat FloatOps.
From stdpp Require Import gmap strings list.

Local Open Scope string_scope.
Local Open Scope list_scope.

(** ** JavaScript string primitives used by the sources *)

Module JsString.

(** [hay.startsWith(needle)] *)
Fixpoint startsWith (needle hay : string) : bool :=
  match needle, hay with
  | EmptyString, _ => true
  | String _ _, EmptyString => false
  | String a needle', String b hay' =>
      if Ascii.eqb a b then startsWith needle' hay' else false
  end.

(** [hay.includes(needle)] *)
Fixpoint includes (needle hay : string) : bool :=
  if startsWith needle hay then true
  else match hay with
       | EmptyString => false
       | String _ hay' => includes needle hay'
       end.

(** [s.split(sep).pop()] for a one-character separator: the text after the
    last separator, the whole string when there is none. *)
Fixpoint lastSegmentFrom (sep : ascii) (acc s : string) : string :=
  match s with
  | EmptyString => acc
  | String c s' =>
      if Ascii.eqb c sep then lastSegmentFrom sep EmptyString s'
      else lastSegmentFrom sep (acc +:+ String c EmptyString) s'
  end.

Definition splitPop (sep : ascii) (s : string) : string :=
  lastSegmentFrom sep EmptyString s.

Fixpoint drop (n : nat) (s : string) : string :=
  match n, s with
  | O, _ => s
  | S _, EmptyString => EmptyString
  | S n', String _ s' => drop n' s'
  end.

(** [s.replace(pat, '')] for a string pattern: the first occurrence of
    [pat] is removed. *)
Fixpoint removeFirst (pat s : string) : string :=
  if startsWith pat s then drop (String.length pat) s
  else match s with
       | EmptyString => EmptyString
       | String c s' => String c (removeFirst pat s')
       end.

Definition isUpper (c : ascii) : bool :=
  let n := nat_of_ascii c in (65 <=? n)%nat && (n <=? 90)%nat.

Definition lowerChar (c : ascii) : ascii :=
  if isUpper c then ascii_of_nat (nat_of_ascii c + 32) else c.

(** [s.toLowerCase()] on ASCII text *)
Fixpoint toLowerCase (s : string) : string :=
  match s with
  | EmptyString => EmptyString
  | String c s' => String (lowerChar c) (toLowerCase s')
  end.

Definition underscore : ascii := "_"%char.

(** the character class [[a-z0-9_]] *)
Definition isFileChar (c : ascii) : bool :=
  let n := nat_of_ascii c in
  ((97 <=? n)%nat && (n <=? 122)%nat)
  || ((48 <=? n)%nat && (n <=? 57)%nat)
  || Ascii.eqb c underscore.

(** [s.replace(/[^a-z0-9_]/g, '_')] *)
Fixpoint replaceUnsafe (s : string) : string :=
  match s with
  | EmptyString => EmptyString
  | String c s' =>
      String (if isFileChar c then c else underscore) (replaceUnsafe s')
  end.

(** [s.replace(/_+/g, '_')] *)
Fixpoint collapseUnderscores (s : string) : string :=
  match s with
  | EmptyString => EmptyString
  | String c s' =>
      if Ascii.eqb c underscore
      then match s' with
           | String d _ =>
               if Ascii.eqb d underscore then collapseUnderscores s'
               else String c (collapseUnderscores s')
           | EmptyString => String c EmptyString
           end
      else String c (collapseUnderscores s')
  end.

Fixpoint dropLastUnderscore (s : string) : string :=
  match s with
  | EmptyString => EmptyString
  | String c EmptyString =>
      if Ascii.eqb c underscore then EmptyString else s
  | String c s' => String c (dropLastUnderscore s')
  end.

(** [s.replace(/^_|_$/g, '')]: one leading and one trailing underscore are
    removed. *)
Definition stripEnds (s : string) : string :=
  match s with
  | String c s' =>
      if Ascii.eqb c underscore then dropLastUnderscore s'
      else dropLastUnderscore s
  | EmptyString => EmptyString
  end.

(** [s.substring(0, n)] *)
Definition substring0 (n : nat) (s : string) : string := String.substring 0 n s.

(** rendering of a natural number, as string interpolation does *)
Definition digit (n : nat) : string :=
  String (ascii_of_nat (48 + n mod 10)) EmptyString.

Fixpoint ofNatFuel (fuel n : nat) : string :=
  match fuel with
  | O => digit n
  | S fuel' =>
      if (n <? 10)%nat then digit n
      else ofNatFuel fuel' (n / 10) +:+ digit n
  end.

Definition ofNat (n : nat) : string := ofNatFuel n n.

End JsString.

(** ** Data model *)

(** An entity as the sources read it.  [None] in a field stands for a field
    that is absent; a present [name] or [entityType] is a string and a present
    [observations] is an array of strings.  An absent [metadata] object is the
    empty map. *)
Record Entity := mkEntity {
  name : option string;
  entityType : option string;
  observations : option (list string);
  metadata : gmap string string
}.

Inductive Priority := critical | high | medium | low.
Inductive Quality := T1 | T2 | T3.
Inductive Frequency := freq_new | very_high | freq_high | freq_medium | freq_low.

(** A catalog entry ([lightweightReferences] value in [L0Bootstrap]). *)
Record LightweightRef := mkRef {
  entityName : string;
  fileReference : string;
  summary : string;
  priority : Priority;
  sizeText : string;                (* field [size] *)
  evidenceQuality : Quality;
  createdAt : Z;
  lastAccessed : Z;
  accessCount : nat;
  transferredAt : option Z
}.

(** The object returned by [getLightweightReference]. *)
Record RefView := mkView {
  v_entityName : string;
  v_fileReference : string;
  v_summary : string;
  v_priority : Priority;
  v_size : string;
  v_evidenceQuality : Quality;
  v_lastAccessed : Z;
  v_accessCount : nat
}.

(** An [accessPatterns] value.  The default object
    [{ count: 0, lastAccess: null }] has no [frequency]. *)
Record AccessRecord := mkAccess {
  count : nat;
  lastAccess : option Z;
  frequency : option Frequency
}.

(** [L0Bootstrap.metrics]; the derived display figures [memoryReduction] and
    [compressionRatio] are not represented. *)
Record L0Metrics := mkL0Metrics {
  entitiesTransferred : nat;
  m_accessCount : nat
}.

Record L0State := mkL0 {
  lightweightReferences : gmap string LightweightRef;
  accessPatterns : gmap string AccessRecord;
  l0_initialized : bool;
  metrics : L0Metrics
}.

Record ConnectionMetrics := mkMetrics {
  totalRequests : nat;
  successfulRequests : nat;
  failedRequests : nat;
  averageResponseTime : PrimFloat.float;
  lastConnectionTime : option Z
}.

Record L1State := mkL1 {
  basePath : string;                (* [config.basePath] *)
  compression : string;             (* [config.compression] *)
  connected : bool;
  entityCache : gmap string Entity;
  connectionMetrics : ConnectionMetrics
}.

(** ** Bounded cache *)

Module LRUCache.

Section Cache.
Context {V : Type}.

(** Modelled from the spec: [src/cache/LRUCache.js] is not among the
    sources; this is the bounded cache of the specification.  A fixed
    capacity set at construction; entries kept from least to most recently
    used. *)
Record t := mk {
  capacity : nat;
  entries : list (string * V)
}.

(** Modelled from the spec: [new LRUCache(capacity)], an empty cache. *)
Definition new (c : nat) : t := {| capacity := c; entries := [] |}.

(** The keys held, from least to most recently used. *)
Definition keys (c : t) : list string := map fst (entries c).

(** Modelled from the spec: the current size reported by [stats()]. *)
Definition size (c : t) : nat := length (entries c).

(** The value held under a key, if any. *)
Fixpoint find (k : string) (l : list (string * V)) : option V :=
  match l with
  | [] => None
  | (k', v) :: l' => if String.eqb k k' then Some v else find k l'
  end.

(** The entries without the one of a key. *)
Fixpoint without (k : string) (l : list (string * V)) : list (string * V) :=
  match l with
  | [] => []
  | (k', v) :: l' =>
      if String.eqb k k' then without k l' else (k', v) :: without k l'
  end.

(** Modelled from the spec: [has(key)], a membership test without
    promotion. *)
Definition has (k : string) (c : t) : bool :=
  match find k (entries c) with Some _ => true | None => false end.

(** Modelled from the spec: [get(key)] returns the value or a miss, and on
    a hit promotes the key to most recently used. *)
Definition get (k : string) (c : t) : option V * t :=
  match find k (entries c) with
  | Some v =>
      (Some v, {| capacity := capacity c;
                  entries := without k (entries c) ++ [(k, v)] |})
  | None => (None, c)
  end.

(** Modelled from the spec: [set(key, value)] inserts or overwrites and
    promotes to most recently used; if the insertion pushes the size above
    the capacity, the least recently used entry is evicted. *)
Definition set (k : string) (v : V) (c : t) : t :=
  let inserted := without k (entries c) ++ [(k, v)] in
  {| capacity := capacity c;
     entries := if (capacity c <? length inserted)%nat
                then tail inserted else inserted |}.

(** A call on the cache, and the cache after a sequence of calls. *)
Inductive op :=
| OpGet (k : string)
| OpSet (k : string) (v : V)
| OpHas (k : string).

Definition step (c : t) (o : op) : t :=
  match o with
  | OpGet k => snd (get k c)
  | OpSet k v => set k v c
  | OpHas _ => c
  end.

Definition run (ops : list op) (c : t) : t := fold_left step ops c.

(** [set] of each key in turn, with the value [val k]. *)
Definition setAll (val : string -> V) (ks : list string) (c : t) : t :=
  fold_left (fun c k => set k (val k) c) ks c.

End Cache.

Arguments t : clear implicits.
Arguments op : clear implicits.

End LRUCache.

(** Modelled from the spec: [src/utils/HealthMonitor.js] is not among the
    sources; the health "cache hit" and "cache miss" counters. *)
Record HealthMonitor := mkHealth {
  cacheHits : nat;
  cacheMisses : nat
}.

(** ** Results *)

(** The outcome of a call: a value, or a thrown [Error] with its message. *)
Inductive Res (A : Type) :=
| Ok (a : A)
| Throw (msg : string).
Arguments Ok {A} a.
Arguments Throw {A} msg.

(** ** The JavaScript runtime and the collaborators the sources rely on *)

Class Runtime := {
  (** the [n]-th reading of the wall clock, in milliseconds *)
  clock : nat -> Z;
  (** [Date.prototype.toISOString] *)
  toISOString : Z -> string;
  (** [JSON.stringify(entity).length] *)
  jsonLength : Entity -> nat;
  (** [EntityManager.initialize(l0Bootstrap, l1Repository)] and
      [HealthMonitor.start()], of [src/core/EntityManager.js] and
      [src/utils/HealthMonitor.js], which are not among the sources: each may
      throw, and may change the objects it is given. *)
  entityManagerInitialize : L0State * L1State -> Res unit * (L0State * L1State);
  healthMonitorStart : HealthMonitor -> Res unit * HealthMonitor
}.

(** ** Computations: mutable state, exceptions and the clock *)

(** A computation over a state [S]: from the state and the number of clock
    readings consumed so far to a result, the new state and the new number of
    readings. *)
Definition M (S A : Type) : Type := S -> nat -> Res A * S * nat.

Definition ret {S A} (a : A) : M S A := fun s n => (Ok a, s, n).

Definition bind {S A B} (m : M S A) (k : A -> M S B) : M S B :=
  fun s n =>
    match m s n with
    | (Ok a, s', n') => k a s' n'
    | (Throw e, s', n') => (Throw e, s', n')
    end.

Declare Scope js_scope.
Delimit Scope js_scope with js.
Notation "x <- m ;; k" := (bind m (fun x => k))
  (at level 100, m at next level, right associativity) : js_scope.
Notation "m ;; k" := (bind m (fun _ => k))
  (at level 100, right associativity) : js_scope.
Local Open Scope js_scope.

(** [throw new Error(msg)] *)
Definition throw {S A} (msg : string) : M S A := fun s n => (Throw msg, s, n).

(** [try { body } catch (error) { handler(error.message) }] *)
Definition tryCatch {S A} (body : M S A) (handler : string -> M S A) : M S A :=
  fun s n =>
    match body s n with
    | (Throw e, s', n') => handler e s' n'
    | r => r
    end.

Definition read {S} : M S S := fun s n => (Ok s, s, n).

Definition modify {S} (f : S -> S) : M S unit := fun s n => (Ok tt, f s, n).

(** [Date.now()], and the instant of [new Date()] *)
Definition Date_now `{Runtime} {S} : M S Z :=
  fun s n => (Ok (clock n), s, (n + 1)%nat).

(** Running a computation of a component inside a larger state. *)
Definition lift {W S A} (proj : W -> S) (upd : S -> W -> W) (m : M S A) : M W A :=
  fun w n =>
    match m (proj w) n with
    | (r, s', n') => (r, upd s' w, n')
    end.

Definition result {S A} (o : Res A * S * nat) : Res A := fst (fst o).
Definition state {S A} (o : Res A * S * nat) : S := snd (fst o).
Definition readings {S A} (o : Res A * S * nat) : nat := snd o.

Definition Qltb (x y : Q) : bool := negb (Qle_bool y x).

(** The JavaScript number of an integer: the binary64 value nearest to it,
    which is the integer itself up to [2^53] in absolute value. *)
Definition toNumber (z : Z) : PrimFloat.float :=
  FloatOps.SF2Prim (SpecFloat.binary_normalize FloatOps.prec FloatOps.emax z 0%Z false).

(** ** [src/core/L0Bootstrap.js] *)

Module L0Bootstrap.

Definition with_references (f : gmap string LightweightRef -> gmap string LightweightRef)
    (s : L0State) : L0State :=
  {| lightweightReferences := f (lightweightReferences s);
     accessPatterns := accessPatterns s;
     l0_initialized := l0_initialized s;
     metrics := metrics s |}.

Definition with_accessPatterns (f : gmap string AccessRecord -> gmap string AccessRecord)
    (s : L0State) : L0State :=
  {| lightweightReferences := lightweightReferences s;
     accessPatterns := f (accessPatterns s);
     l0_initialized := l0_initialized s;
     metrics := metrics s |}.

Definition with_initialized (b : bool) (s : L0State) : L0State :=
  {| lightweightReferences := lightweightReferences s;
     accessPatterns := accessPatterns s;
     l0_initialized := b;
     metrics := metrics s |}.

Definition with_metrics (f : L0Metrics -> L0Metrics) (s : L0State) : L0State :=
  {| lightweightReferences := lightweightReferences s;
     accessPatterns := accessPatterns s;
     l0_initialized := l0_initialized s;
     metrics := f (metrics s) |}.

(** the state built by the constructor *)
Definition new : L0State :=
  {| lightweightReferences := ∅;
     accessPatterns := ∅;
     l0_initialized := false;
     metrics := {| entitiesTransferred := 0; m_accessCount := 0 |} |}.

(** what [initialize] returns *)
Record InitResult := mkInit { referencesLoaded : nat }.

Section Methods.
Context `{Runtime}.

Definition generateSummary (fullEntity : Entity) : string :=
  match observations fullEntity with
  | Some (firstObs :: _) =>
      JsString.substring0 100 firstObs
      +:+ (if (100 <? String.length firstObs)%nat then "..." else "")
  | _ =>
      match entityType fullEntity with
      | Some ty => ty
      | None => "undefined"
      end +:+ " entity"
  end.

Definition calculatePriority (fullEntity : Entity) : Priority :=
  if bool_decide (entityType fullEntity = Some "System_Bootstrap_Protocol")
  then critical
  else match observations fullEntity with
       | Some obs =>
           if (10 <? length obs)%nat then high
           else if (5 <? length obs)%nat then medium
           else low
       | None => low
       end.

(** [Math.round(sizeBytes / 1024 * 10) / 10] rendered with its one
    decimal; the rounding is done on integers,
    [round(10 b / 1024) = floor((20 b + 1024) / 2048)]. *)
Definition calculateSize (fullEntity : Entity) : string :=
  let sizeBytes := jsonLength fullEntity in
  if (1024 <? sizeBytes)%nat then
    let tenths := ((20 * sizeBytes + 1024) / 2048)%nat in
    JsString.ofNat (tenths / 10)
    +:+ (if (tenths mod 10 =? 0)%nat then ""
         else "." +:+ JsString.digit (tenths mod 10))
    +:+ "KB"
  else JsString.ofNat sizeBytes +:+ "B".

(** the [for ... of] loop of [extractEvidenceQuality], with the
    [return 'T3'] that follows it *)
Fixpoint scanObservations (obs : list string) : Quality :=
  match obs with
  | [] => T3
  | o :: rest =>
      if JsString.includes "T1" o then T1
      else if JsString.includes "T2" o then T2
      else if JsString.includes "T3" o then T3
      else scanObservations rest
  end.

Definition extractEvidenceQuality (fullEntity : Entity) : Quality :=
  match observations fullEntity with
  | Some obs => scanObservations obs
  | None => T3
  end.

Definition calculateAccessFrequency (accessData : AccessRecord)
    : M L0State Frequency :=
  match lastAccess accessData with
  | None => ret freq_new
  | Some last =>
      now <- Date_now ;;
      let timeDiff := (now - last)%Z in
      let hoursDiff := (inject_Z timeDiff / inject_Z (1000 * 60 * 60))%Q in
      ret (if Qltb hoursDiff 1 then very_high
           else if Qltb hoursDiff 24 then freq_high
           else if Qltb hoursDiff 168 then freq_medium
           else freq_low)
  end.

Definition recordAccess (entityName : string) : M L0State unit :=
  s <- read ;;
  let current :=
    match accessPatterns s !! entityName with
    | Some r => r
    | None => {| count := 0; lastAccess := None; frequency := None |}
    end in
  stamp <- Date_now ;;
  freq <- calculateAccessFrequency current ;;
  modify (with_accessPatterns
            (insert entityName {| count := count current + 1;
                                  lastAccess := Some stamp;
                                  frequency := Some freq |})) ;;
  modify (with_metrics (fun m =>
            {| entitiesTransferred := entitiesTransferred m;
               m_accessCount := m_accessCount m + 1 |})).

Definition sampleReferences : list (string * (Z -> Z -> LightweightRef)) :=
  [ ("Cortex_Access_Protocol_v3_0",
     fun created accessed =>
       {| entityName := "Cortex_Access_Protocol_v3_0";
          fileReference := "cortex/entities/cortex_access_protocol_v3_0.json";
          summary := "Revolutionary AGI Memory Bootstrap Protocol";
          priority := critical;
          sizeText := "2.1KB";
          evidenceQuality := T1;
          createdAt := created;
          lastAccessed := accessed;
          accessCount := 0;
          transferredAt := None |}) ].

Fixpoint forEachSample (l : list (string * (Z -> Z -> LightweightRef)))
    : M L0State unit :=
  match l with
  | [] => ret tt
  | (key, mk) :: rest =>
      created <- Date_now ;;
      accessed <- Date_now ;;
      modify (with_references (insert key (mk created accessed))) ;;
      forEachSample rest
  end.

Definition loadLightweightReferences : M L0State unit :=
  forEachSample sampleReferences.

Definition initializeAccessPatterns : M L0State unit := ret tt.

(** [calculateMetrics] only writes the two display figures that are not
    represented. *)
Definition calculateMetrics : M L0State unit := ret tt.

Definition initialize : M L0State InitResult :=
  tryCatch
    (loadLightweightReferences ;;
     initializeAccessPatterns ;;
     calculateMetrics ;;
     modify (with_initialized true) ;;
     s <- read ;;
     ret {| referencesLoaded := size (lightweightReferences s) |})
    (fun message =>
       throw ("L0 Bootstrap initialization failed: " +:+ message)).

(** the two assignments [reference.lastAccessed = ...] and
    [reference.accessCount = (reference.accessCount || 0) + 1] *)
Definition touch (reference : LightweightRef) (accessed : Z) : LightweightRef :=
  {| entityName := entityName reference;
     fileReference := fileReference reference;
     summary := summary reference;
     priority := priority reference;
     sizeText := sizeText reference;
     evidenceQuality := evidenceQuality reference;
     createdAt := createdAt reference;
     lastAccessed := accessed;
     accessCount := accessCount reference + 1;
     transferredAt := transferredAt reference |}.

(** the object literal returned by [getLightweightReference] *)
Definition view (reference : LightweightRef) : RefView :=
  {| v_entityName := entityName reference;
     v_fileReference := fileReference reference;
     v_summary := summary reference;
     v_priority := priority reference;
     v_size := sizeText reference;
     v_evidenceQuality := evidenceQuality reference;
     v_lastAccessed := lastAccessed reference;
     v_accessCount := accessCount reference |}.

Definition getLightweightReference (entityName : string)
    : M L0State (option RefView) :=
  s <- read ;;
  if negb (l0_initialized s)
  then throw "L0 Bootstrap not initialized. Call initialize() first."
  else
    recordAccess entityName ;;
    s <- read ;;
    match lightweightReferences s !! entityName with
    | None => ret None
    | Some reference =>
        accessed <- Date_now ;;
        modify (with_references (insert entityName (touch reference accessed))) ;;
        ret (Some (view (touch reference accessed)))
    end.

Definition createLightweightReference (entityName : string)
    (fullEntity : Entity) (fileReference : string)
    : M L0State LightweightRef :=
  s <- read ;;
  if negb (l0_initialized s)
  then throw "L0 Bootstrap not initialized."
  else
    tryCatch
      (created <- Date_now ;;
       accessed <- Date_now ;;
       transferred <- Date_now ;;
       let lightweightRef :=
         {| entityName := entityName;
            fileReference := fileReference;
            summary := generateSummary fullEntity;
            priority := calculatePriority fullEntity;
            sizeText := calculateSize fullEntity;
            evidenceQuality := extractEvidenceQuality fullEntity;
            createdAt := created;
            lastAccessed := accessed;
            accessCount := 0;
            transferredAt := Some transferred |} in
       modify (with_references (insert entityName lightweightRef)) ;;
       modify (with_metrics (fun m =>
                 {| entitiesTransferred := entitiesTransferred m + 1;
                    m_accessCount := m_accessCount m |})) ;;
       ret lightweightRef)
      (fun message => throw message).

(** [getSize().referencesCount] *)
Definition referencesCount (s : L0State) : nat :=
  size (lightweightReferences s).

(** What [getAccessPatternStats] returns. *)
Record AccessStats := mkStats {
  totalAccesses : nat;
  uniqueEntities : nat;
  averageAccess : nat
}.

(** [[...this.accessPatterns.values()]]; the figures computed from it do not
    depend on the order of the values. *)
Definition patternValues (s : L0State) : list AccessRecord :=
  map snd (map_to_list (accessPatterns s)).

(** [patterns.reduce((sum, p) => sum + p.count, 0)] *)
Definition sumCounts (patterns : list AccessRecord) : nat :=
  fold_left (fun sum p => sum + count p) patterns 0.

(** [Math.round] of the quotient of two counts, the rounding done on
    integers: [round(a / b) = floor((2 a + b) / (2 b))]. *)
Definition roundDiv (a b : nat) : nat := (2 * a + b) / (2 * b).

Definition getAccessPatternStats (s : L0State) : AccessStats :=
  let patterns := patternValues s in
  {| totalAccesses := sumCounts patterns;
     uniqueEntities := length patterns;
     averageAccess :=
       if (0 <? length patterns)%nat
       then roundDiv (sumCounts patterns) (length patterns)
       else 0 |}.

End Methods.

End L0Bootstrap.

(** ** [src/core/L1Repository.js] *)

Module L1Repository.

Definition with_connected (b : bool) (s : L1State) : L1State :=
  {| basePath := basePath s;
     compression := compression s;
     connected := b;
     entityCache := entityCache s;
     connectionMetrics := connectionMetrics s |}.

Definition with_entityCache (f : gmap string Entity -> gmap string Entity)
    (s : L1State) : L1State :=
  {| basePath := basePath s;
     compression := compression s;
     connected := connected s;
     entityCache := f (entityCache s);
     connectionMetrics := connectionMetrics s |}.

Definition with_connectionMetrics (f : ConnectionMetrics -> ConnectionMetrics)
    (s : L1State) : L1State :=
  {| basePath := basePath s;
     compression := compression s;
     connected := connected s;
     entityCache := entityCache s;
     connectionMetrics := f (connectionMetrics s) |}.

(** the state built by the constructor; an option that the configuration
    does not give takes its default *)
Definition new (config_basePath config_compression : option string) : L1State :=
  {| basePath := default "cortex/entities" config_basePath;
     compression := default "gzip" config_compression;
     connected := false;
     entityCache := ∅;
     connectionMetrics :=
       {| totalRequests := 0;
          successfulRequests := 0;
          failedRequests := 0;
          averageResponseTime := toNumber 0;
          lastConnectionTime := None |} |}.

(** what [connect] returns *)
Record ConnectResult := mkConnect { connectionTime : Z }.

(** what [storeEntity] returns; the [compressionRatio] figure is not
    represented *)
Record StoreResult := mkStore {
  stored_fileReference : string;
  stored_size : nat;
  responseTime : Z
}.

Definition countRequest (m : ConnectionMetrics) : ConnectionMetrics :=
  {| totalRequests := totalRequests m + 1;
     successfulRequests := successfulRequests m;
     failedRequests := failedRequests m;
     averageResponseTime := averageResponseTime m;
     lastConnectionTime := lastConnectionTime m |}.

Definition updateMetrics (responseTime : Z) (success : bool)
    (m : ConnectionMetrics) : ConnectionMetrics :=
  let successful := if success then successfulRequests m + 1
                    else successfulRequests m in
  let failed := if success then failedRequests m
                else failedRequests m + 1 in
  let totalRequests' := successful + failed in
  {| totalRequests := totalRequests m;
     successfulRequests := successful;
     failedRequests := failed;
     averageResponseTime :=
       PrimFloat.div
         (PrimFloat.add
            (PrimFloat.mul (averageResponseTime m)
                           (toNumber (Z.of_nat totalRequests' - 1)))
            (toNumber responseTime))
         (toNumber (Z.of_nat totalRequests'));
     lastConnectionTime := lastConnectionTime m |}.

Definition generateFileReference (s : L1State) (entityName : string) : string :=
  let sanitizedName :=
    JsString.stripEnds
      (JsString.collapseUnderscores
         (JsString.replaceUnsafe (JsString.toLowerCase entityName))) in
  basePath s +:+ "/" +:+ sanitizedName +:+ ".json".

Section Methods.
Context `{Runtime}.

Definition validateRepositoryAccess : M L1State bool := ret true.

(** [entitySchema] is written here and never read. *)
Definition initializeSchemaValidation : M L1State unit := ret tt.

(** [metadata] is written here and never read; its [lastUpdate] takes a
    clock reading. *)
Definition loadRepositoryMetadata : M L1State unit :=
  _ <- Date_now ;; ret tt.

Definition connect : M L1State ConnectResult :=
  tryCatch
    (startTime <- Date_now ;;
     validateRepositoryAccess ;;
     initializeSchemaValidation ;;
     loadRepositoryMetadata ;;
     finished <- Date_now ;;
     let connectionTime := (finished - startTime)%Z in
     stamp <- Date_now ;;
     modify (with_connectionMetrics (fun m =>
               {| totalRequests := totalRequests m;
                  successfulRequests := successfulRequests m;
                  failedRequests := failedRequests m;
                  averageResponseTime := toNumber connectionTime;
                  lastConnectionTime := Some stamp |})) ;;
     modify (with_connected true) ;;
     ret {| connectionTime := connectionTime |})
    (fun message =>
       throw ("L1 Repository connection failed: " +:+ message)).

(** the simulated read of the repository *)
Definition loadEntityFromRepository (fileReference : string) : M L1State Entity :=
  stamp <- Date_now ;;
  loadedAt <- Date_now ;;
  ret {| name := Some (JsString.removeFirst ".json"
                         (JsString.splitPop "/"%char fileReference));
         entityType := Some "loaded_entity";
         observations :=
           Some [ "Entity loaded from L1 Repository: " +:+ fileReference;
                  "Timestamp: " +:+ toISOString stamp;
                  "Evidence Quality: T2" ];
         metadata :=
           <["fileReference" := fileReference]>
             (<["loadedAt" := toISOString loadedAt]>
                (<["source" := "L1Repository"]> ∅)) |}.

(** the simulated write to the repository *)
Definition storeEntityInRepository (fileReference : string)
    (entityData : Entity) : M L1State bool := ret true.

Definition validateEntitySchema (entity : Entity) : M L1State bool :=
  match name entity with
  | None | Some "" => throw "Entity must have a valid name"
  | Some _ =>
      match entityType entity with
      | None | Some "" => throw "Entity must have a valid entityType"
      | Some _ =>
          match observations entity with
          | None => throw "Entity must have observations array"
          | Some _ => ret true
          end
      end
  end.

Definition processEntityForStorage (entityData : Entity) : M L1State Entity :=
  s <- read ;;
  storedAt <- Date_now ;;
  ret {| name := name entityData;
         entityType := entityType entityData;
         observations := observations entityData;
         metadata :=
           <["compression" := compression s]>
             (<["version" := "3.0.0"]>
                (<["storedAt" := toISOString storedAt]>
                   (metadata entityData))) |}.

Definition getEntity (fileReference : string) : M L1State Entity :=
  s <- read ;;
  if negb (connected s)
  then throw "L1 Repository not connected. Call connect() first."
  else
    startTime <- Date_now ;;
    modify (with_connectionMetrics countRequest) ;;
    tryCatch
      (s <- read ;;
       match entityCache s !! fileReference with
       | Some cached => ret cached
       | None =>
           entity <- loadEntityFromRepository fileReference ;;
           validateEntitySchema entity ;;
           modify (with_entityCache (insert fileReference entity)) ;;
           finished <- Date_now ;;
           modify (with_connectionMetrics
                     (updateMetrics (finished - startTime) true)) ;;
           ret entity
       end)
      (fun message =>
         finished <- Date_now ;;
         modify (with_connectionMetrics
                   (updateMetrics (finished - startTime) false)) ;;
         throw ("Failed to load entity from L1: " +:+ message)).

Definition storeEntity (entityName : string) (entityData : Entity)
    : M L1State StoreResult :=
  s <- read ;;
  if negb (connected s)
  then throw "L1 Repository not connected."
  else
    startTime <- Date_now ;;
    modify (with_connectionMetrics countRequest) ;;
    tryCatch
      (let fileReference := generateFileReference s entityName in
       validateEntitySchema entityData ;;
       processedData <- processEntityForStorage entityData ;;
       storeEntityInRepository fileReference processedData ;;
       modify (with_entityCache (insert fileReference entityData)) ;;
       finished <- Date_now ;;
       let responseTime := (finished - startTime)%Z in
       modify (with_connectionMetrics (updateMetrics responseTime true)) ;;
       ret {| stored_fileReference := fileReference;
              stored_size := jsonLength processedData;
              responseTime := responseTime |})
      (fun message =>
         finished <- Date_now ;;
         modify (with_connectionMetrics
                   (updateMetrics (finished - startTime) false)) ;;
         throw ("Failed to store entity in L1: " +:+ message)).

(** [getSize().cachedEntities] *)
Definition cachedEntities (s : L1State) : nat := size (entityCache s).

End Methods.

End L1Repository.

(** ** [src/core/CortexManager.js] *)

Module CortexManager.

Record State := mkState {
  l0Bootstrap : L0State;
  l1Repository : L1State;
  cache : LRUCache.t Entity;
  healthMonitor : HealthMonitor;
  initialized : bool
}.

(** the part of the constructor's [config] that the embedding reads; [None]
    is an option the caller did not give *)
Record Config := mkConfig {
  cacheSize : option nat;
  config_basePath : option string;
  config_compression : option string
}.

Definition with_l0 (s : L0State) (w : State) : State :=
  {| l0Bootstrap := s;
     l1Repository := l1Repository w;
     cache := cache w;
     healthMonitor := healthMonitor w;
     initialized := initialized w |}.

Definition with_l1 (s : L1State) (w : State) : State :=
  {| l0Bootstrap := l0Bootstrap w;
     l1Repository := s;
     cache := cache w;
     healthMonitor := healthMonitor w;
     initialized := initialized w |}.

Definition with_cache (c : LRUCache.t Entity) (w : State) : State :=
  {| l0Bootstrap := l0Bootstrap w;
     l1Repository := l1Repository w;
     cache := c;
     healthMonitor := healthMonitor w;
     initialized := initialized w |}.

Definition with_health (h : HealthMonitor) (w : State) : State :=
  {| l0Bootstrap := l0Bootstrap w;
     l1Repository := l1Repository w;
     cache := cache w;
     healthMonitor := h;
     initialized := initialized w |}.

Definition with_initialized (b : bool) (w : State) : State :=
  {| l0Bootstrap := l0Bootstrap w;
     l1Repository := l1Repository w;
     cache := cache w;
     healthMonitor := healthMonitor w;
     initialized := b |}.

(** the state built by the constructor *)
Definition new (config : Config) : State :=
  {| l0Bootstrap := L0Bootstrap.new;
     l1Repository :=
       L1Repository.new (config_basePath config) (config_compression config);
     cache := LRUCache.new (default 100 (cacheSize config));
     healthMonitor := {| cacheHits := 0; cacheMisses := 0 |};
     initialized := false |}.

(** what [initialize] returns; the [performance] figures are not
    represented *)
Record InitResult := mkInit { initializationTime : Z }.

(** Modelled from the spec: [HealthMonitor.recordCacheHit] increments the
    health "cache hit" counter. *)
Definition recordCacheHit (h : HealthMonitor) : HealthMonitor :=
  {| cacheHits := cacheHits h + 1; cacheMisses := cacheMisses h |}.

(** Modelled from the spec: [HealthMonitor.recordCacheMiss] increments the
    health "cache miss" counter. *)
Definition recordCacheMiss (h : HealthMonitor) : HealthMonitor :=
  {| cacheHits := cacheHits h; cacheMisses := cacheMisses h + 1 |}.

Section Methods.
Context `{Runtime}.

Definition onL0 {A} (m : M L0State A) : M State A := lift l0Bootstrap with_l0 m.
Definition onL1 {A} (m : M L1State A) : M State A := lift l1Repository with_l1 m.

(** [this.cache.get(key)]; [None] is [undefined] *)
Definition cacheGet (key : string) : M State (option Entity) :=
  fun w n =>
    let (found, c) := LRUCache.get key (cache w) in
    (Ok found, with_cache c w, n).

Definition initialize : M State InitResult :=
  startTime <- Date_now ;;
  tryCatch
    (onL0 L0Bootstrap.initialize ;;
     onL1 L1Repository.connect ;;
     lift (fun w => (l0Bootstrap w, l1Repository w))
          (fun p w => with_l1 (snd p) (with_l0 (fst p) w))
          (fun p n => (entityManagerInitialize p, n)) ;;
     lift healthMonitor with_health
          (fun h n => (healthMonitorStart h, n)) ;;
     finished <- Date_now ;;
     let initTime := (finished - startTime)%Z in
     modify (with_initialized true) ;;
     ret {| initializationTime := initTime |})
    (fun message =>
       throw ("Cortex initialization failed: " +:+ message)).

Definition getEntity (entityName : string) : M State (option Entity) :=
  w <- read ;;
  if negb (initialized w)
  then throw "Cortex not initialized. Call initialize() first."
  else
    lightweightRef <- onL0 (L0Bootstrap.getLightweightReference entityName) ;;
    match lightweightRef with
    | None =>
        throw ("Entity '" +:+ entityName +:+ "' not found in L0 Bootstrap")
    | Some lightweightRef =>
        let cacheKey := "entity:" +:+ entityName in
        w <- read ;;
        if LRUCache.has cacheKey (cache w)
        then
          modify (fun w => with_health (recordCacheHit (healthMonitor w)) w) ;;
          cacheGet cacheKey
        else
          fullEntity <- onL1 (L1Repository.getEntity
                                (v_fileReference lightweightRef)) ;;
          modify (fun w => with_cache
                             (LRUCache.set cacheKey fullEntity (cache w)) w) ;;
          modify (fun w => with_health (recordCacheMiss (healthMonitor w)) w) ;;
          ret (Some fullEntity)
    end.

(** Modelled from the spec: the write path [putEntity(name, entity)], which
    is not among the sources: persist the body through the backing store
    client, on success put the catalog reference with the returned
    locator, then insert the entity into the bounded cache under the key
    of the read path; a failure is propagated. *)
Definition putEntity (entityName : string) (entity : Entity) : M State string :=
  stored <- onL1 (L1Repository.storeEntity entityName entity) ;;
  let locator := L1Repository.stored_fileReference stored in
  onL0 (L0Bootstrap.createLightweightReference entityName entity locator) ;;
  modify (fun w => with_cache
                     (LRUCache.set ("entity:" +:+ entityName) entity (cache w)) w) ;;
  ret locator.

End Methods.

End CortexManager.

(** ** Sequences of calls and reference definitions *)

(** A call on the backing store client, and a sequence of them issued by a
    caller that carries on after a call throws. *)
Inductive L1Call :=
| CallConnect
| CallGetEntity (fileReference : string)
| CallStoreEntity (entityName : string) (entityData : Entity).

Definition forget {S A} (m : M S A) : S * nat -> S * nat :=
  fun sn => let out := m (fst sn) (snd sn) in (state out, readings out).

Definition l1Call `{Runtime} (c : L1Call) : L1State * nat -> L1State * nat :=
  match c with
  | CallConnect => forget L1Repository.connect
  | CallGetEntity fileReference => forget (L1Repository.getEntity fileReference)
  | CallStoreEntity entityName entityData =>
      forget (L1Repository.storeEntity entityName entityData)
  end.

Definition l1Calls `{Runtime} (cs : list L1Call) (sn : L1State * nat) : L1State * nat :=
  fold_left (fun sn c => l1Call c sn) cs sn.


(** The frequency class in the words of the specification: from the time
    elapsed, in milliseconds, since the previous access. *)
Definition hour : Z := 3600000.

Definition frequencyClass (previous : option Z) (now : Z) : Frequency :=
  match previous with
  | None => freq_new
  | Some last =>
      let elapsed := (now - last)%Z in
      if (elapsed <? 1 * hour)%Z then very_high
      else if (elapsed <? 24 * hour)%Z then freq_high
      else if (elapsed <? 168 * hour)%Z then freq_medium
      else freq_low
  end.

(** The tier markers of an observation. *)
Definition hasMarker (o : string) : bool :=
  JsString.includes "T1" o || JsString.includes "T2" o || JsString.includes "T3" o.

Definition tierOf (o : string) : Quality :=
  if JsString.includes "T1" o then T1
  else if JsString.includes "T2" o then T2
  else T3.

(** The quality tag as the first observation that carries a marker decides
    it. *)
Definition firstMarkedTier (obs : list string) : Quality :=
  match List.find hasMarker obs with
  | Some o => tierOf o
  | None => T3
  end.




(** Text made of ASCII characters only: there a character of the model, a
    byte and a UTF-16 code unit of the source are the same thing. *)
Definition asciiChar (c : ascii) : bool := (nat_of_ascii c <? 128)%nat.

Fixpoint asciiText (s : string) : bool :=
  match s with
  | EmptyString => true
  | String c rest => asciiChar c && asciiText rest
  end.

(** A runtime to evaluate the embedding with: the clock advances by one
    second per reading. *)
Definition demoRuntime : Runtime :=
  {| clock := fun n => (1000 * Z.of_nat n)%Z;
     toISOString := fun _ => "2025-01-01T00:00:00.000Z";
     jsonLength := fun e =>
       match observations e with
       | Some obs => 64 + 16 * length obs
       | None => 64
       end;
     entityManagerInitialize := fun p => (Ok tt, p);
     healthMonitorStart := fun h => (Ok tt, h) |}.

(** The minimal entity shape that [validateEntitySchema] accepts. *)
Definition validShape (e : Entity) : bool :=
  match name e, entityType e, observations e with
  | Some (String _ _), Some (String _ _), Some _ => true
  | _, _, _ => false
  end.

(** The message of the first check of [validateEntitySchema] that fails. *)
Definition shapeError (e : Entity) : string :=
  match name e with
  | Some (String _ _) =>
      match entityType e with
      | Some (String _ _) => "Entity must have observations array"
      | _ => "Entity must have a valid entityType"
      end
  | _ => "Entity must have a valid name"
  end.

(** The name that the simulated repository gives to the entity at a file
    reference. *)
Definition loadedName (fileReference : string) : string :=
  JsString.removeFirst ".json" (JsString.splitPop "/"%char fileReference).

(** Entities to evaluate the embedding on. *)
Definition entityT2thenT1 : Entity :=
  {| name := Some "Study";
     entityType := Some "Fact";
     observations := Some ["Replicated once (T2)"; "Peer reviewed (T1)"];
     metadata := ∅ |}.

Definition entityT1thenT2 : Entity :=
  {| name := Some "Study";
     entityType := Some "Fact";
     observations := Some ["No tier here"; "Peer reviewed (T1)"; "Replicated once (T2)"];
     metadata := ∅ |}.

(** A call on the manager, and a sequence of them issued by a caller that
    carries on after a call throws. *)
Inductive ManagerCall :=
| CallRead (entityName : string)
| CallWrite (entityName : string) (entity : Entity).

Definition managerCall `{Runtime} (c : ManagerCall)
    : CortexManager.State * nat -> CortexManager.State * nat :=
  match c with
  | CallRead entityName => forget (CortexManager.getEntity entityName)
  | CallWrite entityName entity => forget (CortexManager.putEntity entityName entity)
  end.

Definition managerCalls `{Runtime} (cs : list ManagerCall)
    (sn : CortexManager.State * nat) : CortexManager.State * nat :=
  fold_left (fun sn c => managerCall c sn) cs sn.

(** The key under which the read path caches an entity. *)
Definition cacheKey (entityName : string) : string := "entity:" +:+ entityName.

(** No eviction of the entry of [key]: the bounded cache holds the key now and
    after each call of the sequence. *)
Fixpoint keptThroughout `{Runtime} (key : string) (cs : list ManagerCall)
    (sn : CortexManager.State * nat) : bool :=
  LRUCache.has key (CortexManager.cache (fst sn))
  && match cs with
     | [] => true
     | c :: cs' => keptThroughout key cs' (managerCall c sn)
     end.

(** No call of the sequence writes under [entityName]. *)
Definition noRewrite (entityName : string) (cs : list ManagerCall) : bool :=
  forallb (fun c => match c with
                    | CallRead _ => true
                    | CallWrite x _ => negb (String.eqb x entityName)
                    end) cs.

(** A call on the manager's life cycle: an attempt to initialize, a read or a
    write. *)
Inductive LifecycleCall :=
| TryInitialize
| TryRead (entityName : string)
| TryWrite (entityName : string) (entity : Entity).

Definition lifecycleCall `{Runtime} (c : LifecycleCall)
    : CortexManager.State * nat -> CortexManager.State * nat :=
  match c with
  | TryInitialize => forget CortexManager.initialize
  | TryRead entityName => forget (CortexManager.getEntity entityName)
  | TryWrite entityName entity => forget (CortexManager.putEntity entityName entity)
  end.

Definition lifecycleCalls `{Runtime} (cs : list LifecycleCall)
    (sn : CortexManager.State * nat) : CortexManager.State * nat :=
  fold_left (fun sn c => lifecycleCall c sn) cs sn.

(** The call is an [initialize] that runs to its end. *)
Definition completesInitialize `{Runtime} (c : LifecycleCall)
    (sn : CortexManager.State * nat) : bool :=
  match c with
  | TryInitialize =>
      match result (CortexManager.initialize (fst sn) (snd sn)) with
      | Ok _ => true
      | Throw _ => false
      end
  | _ => false
  end.

(** No [initialize] of the sequence has completed successfully. *)
Fixpoint noInitializeCompleted `{Runtime} (cs : list LifecycleCall)
    (sn : CortexManager.State * nat) : bool :=
  match cs with
  | [] => true
  | c :: cs' =>
      negb (completesInitialize c sn)
      && noInitializeCompleted cs' (lifecycleCall c sn)
  end.

(** A runtime whose health monitor fails to start. *)
Definition failingRuntime : Runtime :=
  {| clock := fun n => (1000 * Z.of_nat n)%Z;
     toISOString := fun _ => "2025-01-01T00:00:00.000Z";
     jsonLength := fun _ => 64;
     entityManagerInitialize := fun p => (Ok tt, p);
     healthMonitorStart := fun h => (Throw "monitor unavailable", h) |}.

(** A runtime that measures every entity at 2150 bytes. *)
Definition fixedSizeRuntime : Runtime :=
  {| clock := fun n => (1000 * Z.of_nat n)%Z;
     toISOString := fun _ => "2025-01-01T00:00:00.000Z";
     jsonLength := fun _ => 2150;
     entityManagerInitialize := fun p => (Ok tt, p);
     healthMonitorStart := fun h => (Ok tt, h) |}.

(** [s.repeat(n)] *)
Fixpoint repeatString (n : nat) (s : string) : string :=
  match n with
  | O => ""
  | S n' => s +:+ repeatString n' s
  end.

Definition entityWith (ty : string) (obs : list string) : Entity :=
  {| name := Some "E"; entityType := Some ty; observations := Some obs; metadata := ∅ |}.

(** A manager to evaluate the embedding on: constructed with a cache of two
    entries and initialized. *)
Definition demoConfig : CortexManager.Config :=
  {| CortexManager.cacheSize := Some 2;
     CortexManager.config_basePath := None;
     CortexManager.config_compression := None |}.

Definition readyManager : CortexManager.State * nat :=
  forget (@CortexManager.initialize demoRuntime) (CortexManager.new demoConfig, 0).

(** The same manager after a catalog reference was created for an entity
    whose body the repository does not hold under a usable name. *)
Definition ghostManager : CortexManager.State * nat :=
  forget (@CortexManager.onL0 _
            (@L0Bootstrap.createLightweightReference demoRuntime
               "Ghost" entityT2thenT1 "cortex/entities/.json"))
         readyManager.

(** A write of "Alpha" on the ready manager, and calls that follow it. *)
Definition alphaWritten : Res string * CortexManager.State * nat :=
  @CortexManager.putEntity demoRuntime "Alpha" entityT1thenT2
    (fst readyManager) (snd readyManager).

Definition callsAfterAlpha : list ManagerCall :=
  [ CallRead "Cortex_Access_Protocol_v3_0";
    CallRead "Alpha";
    CallWrite "Beta" entityT2thenT1;
    CallRead "Nobody" ].

(** ** Further call sequences and predicates *)

(** A call on the catalog, and a sequence of them issued by a caller that
    carries on after a call throws. *)
Inductive L0Call :=
| CatalogInitialize
| CatalogLookup (entityName : string)
| CatalogCreate (entityName : string) (fullEntity : Entity) (fileReference : string)
| CatalogRecord (entityName : string).

Definition l0Call `{Runtime} (c : L0Call) : L0State * nat -> L0State * nat :=
  match c with
  | CatalogInitialize => forget L0Bootstrap.initialize
  | CatalogLookup entityName => forget (L0Bootstrap.getLightweightReference entityName)
  | CatalogCreate entityName fullEntity fileReference =>
      forget (L0Bootstrap.createLightweightReference entityName fullEntity fileReference)
  | CatalogRecord entityName => forget (L0Bootstrap.recordAccess entityName)
  end.

Definition l0Calls `{Runtime} (cs : list L0Call) (sn : L0State * nat) : L0State * nat :=
  fold_left (fun sn c => l0Call c sn) cs sn.


(** The entity that the simulated repository returns for a file reference,
    when the load starts at clock reading [n]. *)
Definition loadedEntity `{Runtime} (fileReference : string) (n : nat) : Entity :=
  {| name := Some (loadedName fileReference);
     entityType := Some "loaded_entity";
     observations :=
       Some [ "Entity loaded from L1 Repository: " +:+ fileReference;
              "Timestamp: " +:+ toISOString (clock n);
              "Evidence Quality: T2" ];
     metadata :=
       <["fileReference" := fileReference]>
         (<["loadedAt" := toISOString (clock (n + 1))]>
            (<["source" := "L1Repository"]> ∅)) |}.

(** The reference that [createLightweightReference] builds, when its first
    timestamp is clock reading [n]. *)
Definition createdReference `{Runtime} (entityName : string) (fullEntity : Entity)
    (fileReference : string) (n : nat) : LightweightRef :=
  {| entityName := entityName;
     fileReference := fileReference;
     summary := L0Bootstrap.generateSummary fullEntity;
     priority := L0Bootstrap.calculatePriority fullEntity;
     sizeText := L0Bootstrap.calculateSize fullEntity;
     evidenceQuality := L0Bootstrap.extractEvidenceQuality fullEntity;
     createdAt := clock n;
     lastAccessed := clock (n + 1);
     accessCount := 0;
     transferredAt := Some (clock (n + 2)) |}.

(** The sanitized name inside the file reference of an entity name. *)
Definition sanitizedName (entityName : string) : string :=
  JsString.stripEnds
    (JsString.collapseUnderscores
       (JsString.replaceUnsafe (JsString.toLowerCase entityName))).

(** Every character is in [[a-z0-9_]]. *)
Fixpoint allFileChars (s : string) : bool :=
  match s with
  | EmptyString => true
  | String c s' => JsString.isFileChar c && allFileChars s'
  end.

Definition headIsUnderscore (s : string) : bool :=
  match s with
  | String c _ => Ascii.eqb c JsString.underscore
  | EmptyString => false
  end.

(** No two underscores in a row. *)
Fixpoint noDoubleUnderscore (s : string) : bool :=
  match s with
  | EmptyString => true
  | String c s' =>
      negb (Ascii.eqb c JsString.underscore && headIsUnderscore s')
      && noDoubleUnderscore s'
  end.

Fixpoint lastIsUnderscore (s : string) : bool :=
  match s with
  | EmptyString => false
  | String c EmptyString => Ascii.eqb c JsString.underscore
  | String _ s' => lastIsUnderscore s'
  end.

(** A name in the normal form of file references: lower-case letters, digits
    and single underscores, none of them leading or trailing. *)
Definition pathSafe (s : string) : bool :=
  allFileChars s && noDoubleUnderscore s
  && negb (headIsUnderscore s) && negb (lastIsUnderscore s).

(** Every entity held by the client's cache has the minimal shape. *)
Definition allValid (cache : gmap string Entity) : Prop :=
  forall fileReference e, cache !! fileReference = Some e -> validShape e = true.

(** The tracker's count for a name, zero when it has no record. *)
Definition trackedCount (s : L0State) (entityName : string) : nat :=
  from_option count 0 (accessPatterns s !! entityName).

(** The sum of the counts kept by the access tracker. *)
Definition trackedTotal (patterns : gmap string AccessRecord) : nat :=
  sum_list_with count (map snd (map_to_list patterns)).

(** What the catalog and its tracker keep in step: the metrics count as many
    accesses as the tracker's records add up to, and no reference has been
    looked up more often than its name was accessed. *)
Definition inStep (s : L0State) : Prop :=
  trackedTotal (accessPatterns s) = m_accessCount (metrics s)
  /\ forall entityName r,
       lightweightReferences s !! entityName = Some r ->
       accessCount r <= trackedCount s entityName.

(** The order of priorities, [critical] highest. *)
Definition priorityRank (p : Priority) : nat :=
  match p with
  | critical => 3
  | high => 2
  | medium => 1
  | low => 0
  end.

(** [observations.length], zero when the entity has no observations. *)
Definition observationCount (e : Entity) : nat :=
  from_option (fun obs => length obs) 0 (observations e).

(** A connected client, an initialized catalog and an entity without a name,
    to evaluate the embedding on. *)
Definition connectedClient : L1State * nat :=
  @l1Call demoRuntime CallConnect (L1Repository.new None None, 0).


Definition readyCatalog : L0State * nat :=
  @l0Call demoRuntime CatalogInitialize (L0Bootstrap.new, 0).

Definition entityNoName : Entity :=
  {| name := None;
     entityType := Some "Fact";
     observations := Some ["o1"];
     metadata := ∅ |}.

(** ** Predicates used by the properties *)


Definition keysOf {V : Type} (l : list (string * V)) : list string := map fst l.

(** A cache as the operations keep it: no key twice, and no more entries
    than the capacity. *)
Definition wellFormed {V : Type} (c : LRUCache.t V) : Prop :=
  NoDup (LRUCache.keys c) /\ LRUCache.size c <= LRUCache.capacity c.

Definition removeKey (k : string) (ks : list string) : list string :=
  List.filter (fun x => negb (String.eqb k x)) ks.

(** The key [first] is either gone, or still followed, towards the most
    recently used end, by exactly the keys [later]. *)
Definition behind {V : Type} (first : string) (later : list string)
    (c : LRUCache.t V) : Prop :=
  ~ In first (LRUCache.keys c)
  \/ exists earlier, LRUCache.keys c = earlier ++ first :: later.

(** What a read and a write may do to the parts of the state that the
    round trip depends on. *)
Definition cacheStep (x : string) (w w' : CortexManager.State) : Prop :=
  CortexManager.cache w' = CortexManager.cache w
  \/ CortexManager.cache w'
     = snd (LRUCache.get (cacheKey x) (CortexManager.cache w))
  \/ exists v, CortexManager.cache w'
               = LRUCache.set (cacheKey x) v (CortexManager.cache w).

Definition framed (w w' : CortexManager.State) : Prop :=
  CortexManager.initialized w' = CortexManager.initialized w
  /\ (l0_initialized (CortexManager.l0Bootstrap w) = true ->
      l0_initialized (CortexManager.l0Bootstrap w') = true)
  /\ (forall y,
        is_Some (lightweightReferences (CortexManager.l0Bootstrap w) !! y) ->
        is_Some (lightweightReferences (CortexManager.l0Bootstrap w') !! y)).

(** What the round trip maintains: the manager and its catalog are
    initialized, the catalog holds the name, and the bounded cache, well
    formed, holds the entity under the name's key. *)
Definition holds (entityName : string) (e : Entity) (w : CortexManager.State) : Prop :=
  CortexManager.initialized w = true
  /\ l0_initialized (CortexManager.l0Bootstrap w) = true
  /\ is_Some (lightweightReferences (CortexManager.l0Bootstrap w) !! entityName)
  /\ wellFormed (CortexManager.cache w)
  /\ LRUCache.find (cacheKey entityName) (LRUCache.entries (CortexManager.cache w))
     = Some e.

(** Unfolds the operations of a computation. *)
Ltac js_unfold :=
  unfold bind, ret, throw, read, modify, tryCatch, lift, Date_now,
    result, state, readings.

(** * Properties *)

(** ** The embedding on concrete inputs *)

Example generateFileReference_ex :
  L1Repository.generateFileReference (L1Repository.new None None)
    "  Michael Wegener (ref) "
  = "cortex/entities/michael_wegener_ref.json".
Proof. reflexivity. Qed.

Example loadedName_ex :
  loadedName "cortex/entities/cortex_access_protocol_v3_0.json"
  = "cortex_access_protocol_v3_0"
  /\ loadedName "cortex/entities/.json" = "".
Proof. split; reflexivity. Qed.

Example calculateSize_ex :
  @L0Bootstrap.calculateSize fixedSizeRuntime entityT1thenT2 = "2.1KB"
  /\ @L0Bootstrap.calculateSize demoRuntime entityT1thenT2 = "112B".
Proof. split; reflexivity. Qed.

Example calculatePriority_ex :
  L0Bootstrap.calculatePriority (entityWith "System_Bootstrap_Protocol" []) = critical
  /\ L0Bootstrap.calculatePriority (entityWith "Fact" (repeat "o" 11)) = high
  /\ L0Bootstrap.calculatePriority (entityWith "Fact" (repeat "o" 6)) = medium
  /\ L0Bootstrap.calculatePriority (entityWith "Fact" []) = low.
Proof. repeat split; reflexivity. Qed.

Example generateSummary_ex :
  L0Bootstrap.generateSummary (entityWith "Fact" [repeatString 150 "x"])
  = repeatString 100 "x" +:+ "..."
  /\ L0Bootstrap.generateSummary (entityWith "Fact" [repeatString 50 "x"])
     = repeatString 50 "x"
  /\ L0Bootstrap.generateSummary (entityWith "Fact" []) = "Fact entity".
Proof. repeat split; reflexivity. Qed.

(** ** Quality tag *)

Section QualityTag.
Context `{Runtime}.

Lemma scanObservations_find (obs : list string) :
  L0Bootstrap.scanObservations obs = firstMarkedTier obs.
Proof.
  unfold firstMarkedTier.
  induction obs as [|o rest IH]; [reflexivity|].
  cbn [L0Bootstrap.scanObservations List.find].
  unfold hasMarker.
  destruct (JsString.includes "T1" o) eqn:E1;
    [cbn [orb]; unfold tierOf; now rewrite E1|].
  destruct (JsString.includes "T2" o) eqn:E2;
    [cbn [orb]; unfold tierOf; now rewrite E1, E2|].
  destruct (JsString.includes "T3" o) eqn:E3;
    [cbn [orb]; unfold tierOf; now rewrite E1, E2|].
  exact IH.
Qed.

Lemma find_unmarked_prefix (before after : list string) (o : string) :
  Forall (fun x => hasMarker x = false) before ->
  hasMarker o = true ->
  List.find hasMarker (before ++ o :: after) = Some o.
Proof.
  intros Hb Ho.
  induction Hb as [|x before Hx _ IH]; cbn [app List.find].
  - now rewrite Ho.
  - now rewrite Hx.
Qed.

Lemma find_unmarked (obs : list string) :
  Forall (fun x => hasMarker x = false) obs ->
  List.find hasMarker obs = None.
Proof.
  intros Hb.
  induction Hb as [|x obs Hx _ IH]; cbn [List.find]; [reflexivity|].
  now rewrite Hx.
Qed.

(** C6, as the code has it.  The quality tag is decided by the first
    observation, in order, that contains one of the markers "T1", "T2",
    "T3": it is T1 if that observation contains "T1", else T2 if it contains
    "T2", else T3; it is T3 when the observations are absent or none
    contains a marker.  In particular the tag is T1 when the first
    observation that contains a marker contains "T1", whatever the later
    observations contain. *)
Theorem extractEvidenceQuality_first_marked (e : Entity) :
  L0Bootstrap.extractEvidenceQuality e
    = match observations e with
      | Some obs => firstMarkedTier obs
      | None => T3
      end
  /\ (forall before o after,
        observations e = Some (before ++ o :: after) ->
        Forall (fun x => hasMarker x = false) before ->
        JsString.includes "T1" o = true ->
        L0Bootstrap.extractEvidenceQuality e = T1)
  /\ (forall obs,
        observations e = Some obs ->
        Forall (fun x => hasMarker x = false) obs ->
        L0Bootstrap.extractEvidenceQuality e = T3).
Proof.
  unfold L0Bootstrap.extractEvidenceQuality.
  split; [|split].
  - destruct (observations e); [apply scanObservations_find | reflexivity].
  - intros before o after -> Hb Ho.
    rewrite scanObservations_find. unfold firstMarkedTier.
    rewrite find_unmarked_prefix; [| assumption | unfold hasMarker; now rewrite Ho].
    unfold tierOf. now rewrite Ho.
  - intros obs -> Hb.
    rewrite scanObservations_find. unfold firstMarkedTier.
    now rewrite find_unmarked.
Qed.

End QualityTag.

Lemma extractEvidenceQuality_first_marked_witness :
  L0Bootstrap.extractEvidenceQuality entityT1thenT2 = T1
  /\ L0Bootstrap.extractEvidenceQuality
       {| name := None; entityType := None;
          observations := Some ["plain"]; metadata := ∅ |} = T3.
Proof.
  split.
  - apply (proj1 (proj2 (extractEvidenceQuality_first_marked entityT1thenT2))
             ["No tier here"] "Peer reviewed (T1)" ["Replicated once (T2)"]).
    + reflexivity.
    + repeat constructor.
    + reflexivity.
  - apply (proj2 (proj2 (extractEvidenceQuality_first_marked _)) ["plain"]).
    + reflexivity.
    + repeat constructor.
Defined.

(** C6, as stated, fails: an observation contains "T1", and the tag is T2
    because an earlier observation contains "T2". *)
Lemma extractEvidenceQuality_not_best_tier :
  ~ (forall e obs o,
       observations e = Some obs -> In o obs ->
       JsString.includes "T1" o = true ->
       L0Bootstrap.extractEvidenceQuality e = T1).
Proof.
  intros claim.
  specialize (claim entityT2thenT1 _ "Peer reviewed (T1)" eq_refl).
  simpl in claim. specialize (claim (or_intror (or_introl eq_refl)) eq_refl).
  discriminate claim.
Qed.

(** ** Access tracker *)

Section AccessTracker.
Context `{Runtime}.

Lemma hoursDiff_lt (timeDiff k : Z) :
  Qltb (inject_Z timeDiff / inject_Z (1000 * 60 * 60)) (inject_Z k)
  = (timeDiff <? k * hour)%Z.
Proof.
  change (1000 * 60 * 60)%Z with 3600000%Z.
  unfold Qltb, Qle_bool, Qdiv, Qinv, Qmult, inject_Z, hour.
  cbn [Qnum Qden]. rewrite Pos.mul_1_l.
  destruct (Z.leb_spec (k * 3600000) (timeDiff * 1 * 1));
    destruct (Z.ltb_spec timeDiff (k * 3600000)); cbn [negb]; lia.
Qed.

Lemma calculateAccessFrequency_class (a : AccessRecord) (s : L0State) (n : nat) :
  result (L0Bootstrap.calculateAccessFrequency a s n)
  = Ok (frequencyClass (lastAccess a) (clock n))
  /\ state (L0Bootstrap.calculateAccessFrequency a s n) = s.
Proof.
  unfold L0Bootstrap.calculateAccessFrequency, frequencyClass.
  destruct (lastAccess a) as [last|]; js_unfold; cbn [fst snd]; [|easy].
  split; [|reflexivity].
  change 1%Q with (inject_Z 1). change 24%Q with (inject_Z 24).
  change 168%Q with (inject_Z 168).
  now rewrite !hoursDiff_lt.
Qed.

(** C7.  Each call of [recordAccess] for an entity name writes, for that
    name only, a record whose count is the previous count plus one (one when
    there was no record), whose last-access timestamp is the current time,
    and whose frequency class is computed from the previous record's
    timestamp, not from the one just written: new when there was no previous
    access, and otherwise by the time elapsed since the previous timestamp,
    under 1 hour very-high, under 24 hours high, under 168 hours medium,
    else low.  The call also counts one access in the metrics and leaves the
    catalog alone. *)
Theorem recordAccess_spec (entityName : string) (s : L0State) (n : nat) :
  let previous := accessPatterns s !! entityName in
  let out := L0Bootstrap.recordAccess entityName s n in
  result out = Ok tt
  /\ accessPatterns (state out)
     = <[entityName :=
           {| count := from_option count 0 previous + 1;
              lastAccess := Some (clock n);
              frequency :=
                Some (frequencyClass (previous ≫= lastAccess)
                                     (clock (n + 1))) |}]>
         (accessPatterns s)
  /\ m_accessCount (metrics (state out)) = m_accessCount (metrics s) + 1
  /\ lightweightReferences (state out) = lightweightReferences s.
Proof.
  cbv zeta. unfold L0Bootstrap.recordAccess.
  js_unfold. cbn beta iota.
  destruct (accessPatterns s !! entityName) as [r|] eqn:Hprev.
  - pose proof (calculateAccessFrequency_class r s (n + 1)) as [Hr Hs].
    destruct (L0Bootstrap.calculateAccessFrequency r s (n + 1))
      as [[res s'] n'].
    unfold result, state in Hr, Hs. cbn [fst snd] in Hr, Hs. subst res s'.
    cbn. now destruct r.
  - cbn. easy.
Qed.

End AccessTracker.

(** The class comes from the previous timestamp: a second access two seconds
    after the first is very-high, where the timestamp just written would make
    the elapsed time negative. *)
Example recordAccess_twice :
  let once := @L0Bootstrap.recordAccess demoRuntime "Alpha" L0Bootstrap.new 0 in
  let twice := @L0Bootstrap.recordAccess demoRuntime "Alpha" (state once) (readings once) in
  accessPatterns (state once) !! "Alpha"
    = Some {| count := 1; lastAccess := Some 0%Z; frequency := Some freq_new |}
  /\ accessPatterns (state twice) !! "Alpha"
    = Some {| count := 2; lastAccess := Some 1000%Z; frequency := Some very_high |}.
Proof. split; reflexivity. Qed.

(** ** Backing store client: metrics *)

Section RunningAverage.




End RunningAverage.

(** ** Backing store client: the outcomes of a request *)

Section Requests.
Context `{Runtime}.

Lemma validateEntitySchema_valid (e : Entity) (s : L1State) (n : nat) :
  validShape e = true ->
  L1Repository.validateEntitySchema e s n = (Ok true, s, n).
Proof.
  unfold validShape, L1Repository.validateEntitySchema.
  destruct (name e) as [[|? ?]|]; try discriminate.
  destruct (entityType e) as [[|? ?]|]; try discriminate.
  destruct (observations e); try discriminate.
  reflexivity.
Qed.

Lemma validateEntitySchema_invalid (e : Entity) (s : L1State) (n : nat) :
  validShape e = false ->
  L1Repository.validateEntitySchema e s n = (Throw (shapeError e), s, n).
Proof.
  unfold validShape, shapeError, L1Repository.validateEntitySchema.
  destruct (name e) as [[|? ?]|]; try reflexivity.
  destruct (entityType e) as [[|? ?]|]; try reflexivity.
  destruct (observations e); [discriminate | reflexivity].
Qed.

Lemma getEntity_disconnected (fileReference : string) (s : L1State) (n : nat) :
  connected s = false ->
  L1Repository.getEntity fileReference s n
  = (Throw "L1 Repository not connected. Call connect() first.", s, n).
Proof.
  intros Hc. unfold L1Repository.getEntity. js_unfold. now rewrite Hc.
Qed.

(** A fetch served from the client's own per-locator cache: the request is
    counted and nothing else changes. *)
Lemma getEntity_cached (fileReference : string) (e : Entity) (s : L1State) (n : nat) :
  connected s = true ->
  entityCache s !! fileReference = Some e ->
  L1Repository.getEntity fileReference s n
  = (Ok e,
     L1Repository.with_connectionMetrics L1Repository.countRequest s,
     n + 1).
Proof.
  intros Hc He. unfold L1Repository.getEntity. js_unfold.
  rewrite Hc. cbn. now rewrite He.
Qed.


Lemma storeEntity_disconnected (entityName : string) (e : Entity)
    (s : L1State) (n : nat) :
  connected s = false ->
  L1Repository.storeEntity entityName e s n
  = (Throw "L1 Repository not connected.", s, n).
Proof.
  intros Hc. unfold L1Repository.storeEntity. js_unfold. now rewrite Hc.
Qed.

Lemma storeEntity_valid (entityName : string) (e : Entity) (s : L1State) (n : nat) :
  connected s = true ->
  validShape e = true ->
  exists stored,
    L1Repository.stored_fileReference stored
    = L1Repository.generateFileReference s entityName
    /\ L1Repository.storeEntity entityName e s n
       = (Ok stored,
          L1Repository.with_connectionMetrics
            (L1Repository.updateMetrics (clock (n + 2) - clock n) true)
            (L1Repository.with_entityCache
               (insert (L1Repository.generateFileReference s entityName) e)
               (L1Repository.with_connectionMetrics L1Repository.countRequest s)),
          n + 3).
Proof.
  intros Hc Hv. unfold L1Repository.storeEntity.
  unfold bind at 1, read at 1. rewrite Hc. cbn [negb].
  unfold bind at 1, Date_now at 1.
  unfold bind at 1, modify at 1.
  unfold tryCatch, bind at 1.
  rewrite (validateEntitySchema_valid e _ _ Hv).
  js_unfold. cbn.
  replace (n + 1 + 1 + 1) with (n + 3) by lia.
  replace (n + 1 + 1) with (n + 2) by lia.
  eexists. split; [|reflexivity]. reflexivity.
Qed.

Lemma storeEntity_invalid (entityName : string) (e : Entity) (s : L1State) (n : nat) :
  connected s = true ->
  validShape e = false ->
  L1Repository.storeEntity entityName e s n
  = (Throw ("Failed to store entity in L1: " +:+ shapeError e),
     L1Repository.with_connectionMetrics
       (L1Repository.updateMetrics (clock (n + 1) - clock n) false)
       (L1Repository.with_connectionMetrics L1Repository.countRequest s),
     n + 2).
Proof.
  intros Hc Hv. unfold L1Repository.storeEntity.
  unfold bind at 1, read at 1. rewrite Hc. cbn [negb].
  unfold bind at 1, Date_now at 1.
  unfold bind at 1, modify at 1.
  unfold tryCatch, bind at 1.
  rewrite (validateEntitySchema_invalid e _ _ Hv).
  js_unfold. cbn.
  replace (n + 1 + 1) with (n + 2) by lia. reflexivity.
Qed.

End Requests.

(** ** Backing store client: request counters *)

Section RequestCounters.
Context `{Runtime}.









End RequestCounters.



(** ** Bounded cache *)

Section BoundedCache.
Context {V : Type}.
Implicit Type l : list (string * V).
Implicit Type c : LRUCache.t V.
Implicit Types k x : string.

Lemma in_keys_without k x l :
  In x (keysOf (LRUCache.without k l)) <-> In x (keysOf l) /\ x <> k.
Proof.
  induction l as [|[k' v] l IH]; cbn [LRUCache.without keysOf map fst In].
  - tauto.
  - fold (keysOf l).
    destruct (String.eqb k k') eqn:E.
    + apply String.eqb_eq in E. rewrite IH.
      split; [tauto|]. intros [[Heq|Hin] Hx]; [congruence | tauto].
    + apply String.eqb_neq in E. cbn [keysOf map fst In].
      fold (keysOf (LRUCache.without k l)). rewrite IH.
      split; [intros [Heq|?]; [split; [tauto|congruence] | tauto] | tauto].
Qed.

Lemma NoDup_without k l : NoDup (keysOf l) -> NoDup (keysOf (LRUCache.without k l)).
Proof.
  induction l as [|[k' v] l IH]; cbn [LRUCache.without keysOf map fst];
    [trivial|].
  fold (keysOf l). intros Hnd. apply NoDup_cons in Hnd as [Hk Hnd].
  destruct (String.eqb k k'); [auto|].
  cbn [keysOf map fst]. fold (keysOf (LRUCache.without k l)).
  apply NoDup_cons. split; [|auto].
  rewrite list_elem_of_In in *. rewrite in_keys_without. tauto.
Qed.

Lemma length_without k l : length (LRUCache.without k l) <= length l.
Proof.
  induction l as [|[k' v] l IH]; cbn [LRUCache.without length]; [lia|].
  destruct (String.eqb k k'); cbn [length]; lia.
Qed.

Lemma find_Some_shorter k v l :
  LRUCache.find k l = Some v -> length (LRUCache.without k l) < length l.
Proof.
  induction l as [|[k' v'] l IH]; cbn [LRUCache.find LRUCache.without length];
    [discriminate|].
  destruct (String.eqb k k').
  - intros _. pose proof (length_without k l). lia.
  - intros Hf. specialize (IH Hf). cbn [length]. lia.
Qed.

Lemma find_None_iff k l : LRUCache.find k l = None <-> ~ In k (keysOf l).
Proof.
  induction l as [|[k' v'] l IH]; cbn [LRUCache.find keysOf map fst In].
  - tauto.
  - fold (keysOf l).
    destruct (String.eqb_spec k k') as [->|Hne].
    + split; [discriminate | tauto].
    + rewrite IH. split; [intros Hn [Heq|Hin]; [congruence|tauto] | tauto].
Qed.

Lemma keysOf_app l1 l2 : keysOf (l1 ++ l2) = keysOf l1 ++ keysOf l2.
Proof. apply map_app. Qed.

Lemma without_app k l1 l2 :
  LRUCache.without k (l1 ++ l2) = LRUCache.without k l1 ++ LRUCache.without k l2.
Proof.
  induction l1 as [|[k' v] l1 IH]; cbn [LRUCache.without app]; [reflexivity|].
  destruct (String.eqb k k'); [exact IH | cbn [app]; now rewrite IH].
Qed.

Lemma without_absent k l : ~ In k (keysOf l) -> LRUCache.without k l = l.
Proof.
  induction l as [|[k' v] l IH]; cbn [LRUCache.without keysOf map fst In];
    [reflexivity|].
  fold (keysOf l). intros Hn.
  destruct (String.eqb_spec k k') as [->|Hne]; [tauto|].
  rewrite IH; tauto.
Qed.

Lemma NoDup_tail (A : Type) (l : list A) : NoDup l -> NoDup (tail l).
Proof.
  destruct l; cbn [tail]; [trivial|].
  intros Hnd. now apply NoDup_cons in Hnd.
Qed.

Lemma keysOf_tail l : keysOf (tail l) = tail (keysOf l).
Proof. now destruct l. Qed.

Lemma length_tail (A : Type) (l : list A) : length (tail l) = length l - 1.
Proof. destruct l; cbn [tail length]; lia. Qed.

Lemma NoDup_keys_snoc k v l :
  NoDup (keysOf l) -> NoDup (keysOf (LRUCache.without k l ++ [(k, v)])).
Proof.
  intros Hnd. rewrite keysOf_app. cbn [keysOf map fst].
  fold (keysOf (LRUCache.without k l)).
  apply NoDup_app. split; [now apply NoDup_without|].
  split; [|apply NoDup_singleton].
  intros x Hx%list_elem_of_In Hk%list_elem_of_In.
  apply in_keys_without in Hx. destruct Hk as [Hk|[]].
  destruct Hx as [_ Hx]. congruence.
Qed.

Lemma set_wellFormed k v c : wellFormed c -> wellFormed (LRUCache.set k v c).
Proof.
  unfold wellFormed, LRUCache.set, LRUCache.keys, LRUCache.size.
  cbn [LRUCache.entries LRUCache.capacity].
  intros [Hnd Hsz]. fold (keysOf (LRUCache.entries c)) in Hnd.
  pose proof (NoDup_keys_snoc k v _ Hnd) as Hnd'.
  pose proof (length_without k (LRUCache.entries c)) as Hlen.
  destruct (Nat.ltb_spec (LRUCache.capacity c)
              (length (LRUCache.without k (LRUCache.entries c) ++ [(k, v)])))
    as [Hover|Hfit].
  - split.
    + change (NoDup (keysOf (tail (LRUCache.without k (LRUCache.entries c) ++ [(k, v)])))).
      rewrite keysOf_tail. now apply NoDup_tail.
    + rewrite length_tail. rewrite length_app in *. cbn [length] in *. lia.
  - split; [exact Hnd' | exact Hfit].
Qed.

Lemma get_wellFormed k c : wellFormed c -> wellFormed (snd (LRUCache.get k c)).
Proof.
  unfold LRUCache.get. destruct (LRUCache.find k (LRUCache.entries c)) as [v|] eqn:Hf;
    cbn [snd]; [|trivial].
  unfold wellFormed, LRUCache.keys, LRUCache.size.
  cbn [LRUCache.entries LRUCache.capacity].
  intros [Hnd Hsz]. split.
  - now apply NoDup_keys_snoc.
  - pose proof (find_Some_shorter _ _ _ Hf).
    rewrite length_app. cbn [length]. lia.
Qed.

Lemma step_wellFormed c (o : LRUCache.op V) :
  wellFormed c -> wellFormed (LRUCache.step c o).
Proof.
  destruct o; cbn [LRUCache.step];
    [apply get_wellFormed | apply set_wellFormed | trivial].
Qed.

Lemma step_capacity c (o : LRUCache.op V) :
  LRUCache.capacity (LRUCache.step c o) = LRUCache.capacity c.
Proof.
  destruct o as [k|k v|k]; cbn [LRUCache.step]; try reflexivity.
  unfold LRUCache.get. now destruct (LRUCache.find k (LRUCache.entries c)).
Qed.

Lemma run_invariant (ops : list (LRUCache.op V)) c :
  wellFormed c ->
  wellFormed (LRUCache.run ops c)
  /\ LRUCache.capacity (LRUCache.run ops c) = LRUCache.capacity c.
Proof.
  revert c. induction ops as [|o ops IH]; intros c Hwf;
    cbn [LRUCache.run fold_left]; [auto|].
  fold (LRUCache.run ops (LRUCache.step c o)).
  destruct (IH _ (step_wellFormed c o Hwf)) as [Hw Hc].
  split; [exact Hw | now rewrite Hc, step_capacity].
Qed.

Lemma new_wellFormed (C : nat) : wellFormed (LRUCache.new (V := V) C).
Proof. split; cbn; [constructor | lia]. Qed.

End BoundedCache.

Section Eviction.
Context {V : Type}.
Implicit Type l : list (string * V).
Implicit Type c : LRUCache.t V.
Implicit Types k x : string.

Lemma keysOf_without k l : keysOf (LRUCache.without k l) = removeKey k (keysOf l).
Proof.
  induction l as [|[k' v] l IH]; cbn [LRUCache.without keysOf map fst removeKey List.filter];
    [reflexivity|].
  fold (keysOf l). fold (removeKey k (keysOf l)).
  destruct (String.eqb k k'); cbn [negb]; [exact IH|].
  cbn [keysOf map fst]. fold (keysOf (LRUCache.without k l)). now rewrite IH.
Qed.

Lemma removeKey_absent k (ks : list string) : ~ In k ks -> removeKey k ks = ks.
Proof.
  induction ks as [|x ks IH]; cbn [removeKey List.filter In]; [reflexivity|].
  fold (removeKey k ks). intros Hn.
  destruct (String.eqb k x) eqn:E.
  - apply String.eqb_eq in E. subst x. tauto.
  - cbn [negb]. rewrite IH; tauto.
Qed.

Lemma keys_set k v c :
  LRUCache.keys (LRUCache.set k v c)
  = (let inserted := removeKey k (LRUCache.keys c) ++ [k] in
     if (LRUCache.capacity c <? length inserted)%nat
     then tail inserted else inserted).
Proof.
  unfold LRUCache.set, LRUCache.keys. cbn [LRUCache.entries LRUCache.capacity].
  fold (keysOf (LRUCache.entries c)). cbv zeta.
  rewrite <- keysOf_without.
  assert (Hk : keysOf (LRUCache.without k (LRUCache.entries c) ++ [(k, v)])
               = keysOf (LRUCache.without k (LRUCache.entries c)) ++ [k])
    by apply keysOf_app.
  assert (Hl : length (LRUCache.without k (LRUCache.entries c) ++ [(k, v)])
               = length (keysOf (LRUCache.without k (LRUCache.entries c)) ++ [k])).
  { rewrite <- Hk. unfold keysOf. now rewrite length_map. }
  rewrite Hl.
  destruct (_ <? _)%nat.
  - fold (keysOf (tail (LRUCache.without k (LRUCache.entries c) ++ [(k, v)]))).
    now rewrite keysOf_tail, Hk.
  - exact Hk.
Qed.

Lemma in_tail (A : Type) (a : A) (ks : list A) : In a (tail ks) -> In a ks.
Proof. destruct ks; cbn [tail In]; tauto. Qed.

Lemma in_keys_set x k v c :
  In x (LRUCache.keys (LRUCache.set k v c)) -> In x (LRUCache.keys c) \/ x = k.
Proof.
  rewrite keys_set. cbv zeta. intros Hin.
  assert (Hin' : In x (removeKey k (LRUCache.keys c) ++ [k])).
  { destruct (_ <? _)%nat; [now apply in_tail | exact Hin]. }
  apply in_app_or in Hin' as [Hin'|[->|[]]]; [|tauto].
  left. unfold removeKey in Hin'. now apply filter_In in Hin'.
Qed.

Lemma behind_first (first : string) v c : behind first [] (LRUCache.set first v c).
Proof.
  unfold behind. rewrite keys_set. cbv zeta.
  destruct (_ <? _)%nat.
  - destruct (removeKey first (LRUCache.keys c)) as [|p q] eqn:E; cbn [app tail].
    + left. cbn [In]. tauto.
    + right. now exists q.
  - right. now exists (removeKey first (LRUCache.keys c)).
Qed.

Lemma behind_set (first : string) (later : list string) k v c :
  k <> first -> ~ In k later -> ~ In first later ->
  behind first later c ->
  behind first (later ++ [k]) (LRUCache.set k v c).
Proof.
  intros Hk Hlater Hfirst [Hgone|[earlier Hkeys]].
  - left. intros Hin. apply in_keys_set in Hin. intuition congruence.
  - unfold behind. rewrite keys_set, Hkeys. cbv zeta.
    unfold removeKey. rewrite List.filter_app. cbn [List.filter].
    fold (removeKey k earlier). fold (removeKey k later).
    assert (E : String.eqb k first = false) by now apply String.eqb_neq.
    rewrite E. cbn [negb]. rewrite (removeKey_absent k later Hlater).
    rewrite <- app_assoc. cbn [app].
    destruct (_ <? _)%nat.
    + destruct (removeKey k earlier) as [|p q]; cbn [app tail].
      * left. intros Hin. apply in_app_or in Hin as [Hin|[Hin|[]]];
          [tauto | congruence].
      * right. now exists q.
    + right. now exists (removeKey k earlier).
Qed.

Lemma setAll_behind (val : string -> V) (first : string) (rest later : list string) c :
  wellFormed c ->
  ~ In first (later ++ rest) ->
  NoDup (later ++ rest) ->
  behind first later c ->
  wellFormed (LRUCache.setAll val rest c)
  /\ LRUCache.capacity (LRUCache.setAll val rest c) = LRUCache.capacity c
  /\ behind first (later ++ rest) (LRUCache.setAll val rest c).
Proof.
  revert later c. induction rest as [|k rest IH]; intros later c Hwf Hfirst Hnd Hb;
    cbn [LRUCache.setAll fold_left].
  - rewrite app_nil_r. auto.
  - fold (LRUCache.setAll val rest (LRUCache.set k (val k) c)).
    replace (later ++ k :: rest) with ((later ++ [k]) ++ rest) in *
      by now rewrite <- app_assoc.
    destruct (IH (later ++ [k]) (LRUCache.set k (val k) c)) as (Hw & Hc & Hb');
      try assumption.
    + now apply set_wellFormed.
    + apply NoDup_app in Hnd as (Hnd & _ & _).
      apply NoDup_app in Hnd as (_ & Hdisj & _).
      apply behind_set; try assumption.
      * intros ->. apply Hfirst. apply in_or_app. left. apply in_or_app.
        right. now left.
      * intros Hin. apply (Hdisj k); apply list_elem_of_In; [exact Hin | now left].
      * intros Hin. apply Hfirst. apply in_or_app. left. apply in_or_app. now left.
    + split; [exact Hw|]. split; [now rewrite Hc | exact Hb'].
Qed.

Lemma behind_full (first : string) (later : list string) c :
  wellFormed c -> length later = LRUCache.capacity c ->
  behind first later c -> ~ In first (LRUCache.keys c).
Proof.
  intros [_ Hsz] Hlen [Hgone|[earlier Hkeys]]; [exact Hgone|].
  exfalso. unfold LRUCache.size in Hsz.
  assert (Hl : length (LRUCache.keys c) = length (LRUCache.entries c))
    by (unfold LRUCache.keys; apply length_map).
  rewrite Hkeys, length_app in Hl. cbn [length] in Hl. lia.
Qed.

(** C3.  A cache built with capacity [C] never holds more than [C] entries,
    whatever [get], [set] and [has] calls it has served; and after [set] of
    [C + 1] distinct keys in order, the first of them has been evicted: it
    is no longer a member and a lookup of it is a miss. *)
Theorem cache_bounded_and_evicts_first
    (C : nat) (ops : list (LRUCache.op V)) (ks : list string) (val : string -> V) :
  let c := LRUCache.run ops (LRUCache.new C) in
  LRUCache.size c <= C
  /\ (NoDup ks -> length ks = C + 1 ->
      let c' := LRUCache.setAll val ks c in
      LRUCache.size c' <= C
      /\ LRUCache.has (hd "" ks) c' = false
      /\ fst (LRUCache.get (hd "" ks) c') = None).
Proof.
  cbv zeta.
  destruct (run_invariant ops (LRUCache.new C) (new_wellFormed C)) as [Hwf Hcap].
  cbn [LRUCache.new LRUCache.capacity] in Hcap.
  set (c := LRUCache.run ops (LRUCache.new C)) in *.
  split; [destruct Hwf as [_ Hsz]; lia|].
  intros Hnd Hlen. destruct ks as [|first rest]; [cbn in Hlen; lia|].
  cbn [hd length] in *. cbn [LRUCache.setAll fold_left].
  fold (LRUCache.setAll val rest (LRUCache.set first (val first) c)).
  apply NoDup_cons in Hnd as [Hfirst Hrest]. rewrite list_elem_of_In in Hfirst.
  destruct (setAll_behind val first rest [] (LRUCache.set first (val first) c))
    as (Hw & Hc & Hb); cbn [app]; try assumption.
  - now apply set_wellFormed.
  - apply behind_first.
  - cbn [app] in Hb.
    assert (Hgone : ~ In first (LRUCache.keys
              (LRUCache.setAll val rest (LRUCache.set first (val first) c)))).
    { apply (behind_full first rest); [exact Hw | | exact Hb].
      rewrite Hc. cbn [LRUCache.set LRUCache.capacity]. lia. }
    apply find_None_iff in Hgone.
    split; [destruct Hw as [_ Hsz]; rewrite Hc in Hsz;
            cbn [LRUCache.set LRUCache.capacity] in Hsz; lia|].
    unfold LRUCache.has, LRUCache.get. now rewrite Hgone.
Qed.

End Eviction.

Lemma cache_bounded_and_evicts_first_witness :
  let c := LRUCache.setAll (fun k => String.length k) ["a"; "b"; "c"]
             (LRUCache.run [LRUCache.OpSet "z" 0; LRUCache.OpGet "z"]
                (LRUCache.new 2)) in
  LRUCache.size c <= 2
  /\ LRUCache.has "a" c = false
  /\ fst (LRUCache.get "a" c) = None.
Proof.
  apply (proj2 (cache_bounded_and_evicts_first 2
                  [LRUCache.OpSet "z" 0; LRUCache.OpGet "z"] ["a"; "b"; "c"]
                  (fun k => String.length k))).
  - apply NoDup_ListNoDup. repeat constructor; cbn; intuition discriminate.
  - reflexivity.
Defined.

(** ** Reference catalog *)

Section Catalog.
Context `{Runtime}.

Lemma recordAccess_frame (entityName : string) (s : L0State) (n : nat) :
  L0Bootstrap.recordAccess entityName s n
  = (Ok tt, state (L0Bootstrap.recordAccess entityName s n),
     readings (L0Bootstrap.recordAccess entityName s n))
  /\ lightweightReferences (state (L0Bootstrap.recordAccess entityName s n))
     = lightweightReferences s
  /\ l0_initialized (state (L0Bootstrap.recordAccess entityName s n))
     = l0_initialized s.
Proof.
  unfold L0Bootstrap.recordAccess. js_unfold. cbn beta iota.
  destruct (accessPatterns s !! entityName) as [r|].
  - pose proof (calculateAccessFrequency_class r s (n + 1)) as [Hr Hs].
    destruct (L0Bootstrap.calculateAccessFrequency r s (n + 1))
      as [[res s'] n'].
    unfold result, state in Hr, Hs. cbn [fst snd] in Hr, Hs. subst res s'.
    cbn. easy.
  - cbn. easy.
Qed.

(** The state after [recordAccess]. *)
Lemma recordAccess_state (entityName : string) (s : L0State) (n : nat) :
  result (L0Bootstrap.recordAccess entityName s n) = Ok tt
  /\ state (L0Bootstrap.recordAccess entityName s n)
     = L0Bootstrap.with_metrics
         (fun m => {| entitiesTransferred := entitiesTransferred m;
                      m_accessCount := m_accessCount m + 1 |})
         (L0Bootstrap.with_accessPatterns
            (insert entityName
               {| count := trackedCount s entityName + 1;
                  lastAccess := Some (clock n);
                  frequency :=
                    Some (frequencyClass
                            (accessPatterns s !! entityName ≫= lastAccess)
                            (clock (n + 1))) |})
            s).
Proof.
  unfold L0Bootstrap.recordAccess, trackedCount. js_unfold. cbn beta iota.
  destruct (accessPatterns s !! entityName) as [r|] eqn:Hprev.
  - pose proof (calculateAccessFrequency_class r s (n + 1)) as [Hr Hs].
    destruct (L0Bootstrap.calculateAccessFrequency r s (n + 1))
      as [[res s'] n'].
    unfold result, state in Hr, Hs. cbn [fst snd] in Hr, Hs. subst res s'.
    cbn. now destruct r.
  - cbn. easy.
Qed.

(** The clock readings [recordAccess] takes: one for its stamp, and one more
    to compute the frequency class when the tracker holds a previous stamp
    for the name. *)
Lemma recordAccess_readings (entityName : string) (s : L0State) (n : nat) :
  readings (L0Bootstrap.recordAccess entityName s n)
  = n + match accessPatterns s !! entityName ≫= lastAccess with
        | Some _ => 2
        | None => 1
        end.
Proof.
  unfold L0Bootstrap.recordAccess, L0Bootstrap.calculateAccessFrequency.
  js_unfold. cbn beta iota.
  destruct (accessPatterns s !! entityName) as [a|]; cbn [mbind option_bind lastAccess].
  - destruct (lastAccess a); cbn; lia.
  - cbn. lia.
Qed.

Lemma getLightweightReference_uninitialized (entityName : string)
    (s : L0State) (n : nat) :
  l0_initialized s = false ->
  L0Bootstrap.getLightweightReference entityName s n
  = (Throw "L0 Bootstrap not initialized. Call initialize() first.", s, n).
Proof.
  intros Hi. unfold L0Bootstrap.getLightweightReference.
  unfold bind at 1, read at 1. now rewrite Hi.
Qed.

Lemma getLightweightReference_absent (entityName : string)
    (s : L0State) (n : nat) :
  l0_initialized s = true ->
  lightweightReferences s !! entityName = None ->
  L0Bootstrap.getLightweightReference entityName s n
  = (Ok None, state (L0Bootstrap.recordAccess entityName s n),
     readings (L0Bootstrap.recordAccess entityName s n)).
Proof.
  intros Hi Hr. unfold L0Bootstrap.getLightweightReference.
  unfold bind at 1, read at 1. rewrite Hi. cbn [negb].
  destruct (recordAccess_frame entityName s n) as (Hrun & Hrefs & _).
  unfold bind at 1. rewrite Hrun.
  unfold bind at 1, read at 1. rewrite Hrefs, Hr. reflexivity.
Qed.

Lemma getLightweightReference_present (entityName : string)
    (r : LightweightRef) (s : L0State) (n : nat) :
  l0_initialized s = true ->
  lightweightReferences s !! entityName = Some r ->
  let s1 := state (L0Bootstrap.recordAccess entityName s n) in
  let n1 := readings (L0Bootstrap.recordAccess entityName s n) in
  L0Bootstrap.getLightweightReference entityName s n
  = (Ok (Some (L0Bootstrap.view (L0Bootstrap.touch r (clock n1)))),
     L0Bootstrap.with_references
       (insert entityName (L0Bootstrap.touch r (clock n1))) s1,
     n1 + 1).
Proof.
  intros Hi Hr. cbv zeta. unfold L0Bootstrap.getLightweightReference.
  unfold bind at 1, read at 1. rewrite Hi. cbn [negb].
  destruct (recordAccess_frame entityName s n) as (Hrun & Hrefs & _).
  unfold bind at 1. rewrite Hrun.
  unfold bind at 1, read at 1. rewrite Hrefs, Hr. reflexivity.
Qed.

(** C2, on the code.  [initialize] on a freshly constructed catalog, for
    which nothing was ever persisted, reports one loaded reference and
    leaves the catalog with exactly one entry, the sample reference
    "Cortex_Access_Protocol_v3_0": the catalog does not start empty. *)
Theorem initialize_loads_sample_reference (n : nat) :
  let out := L0Bootstrap.initialize L0Bootstrap.new n in
  result out = Ok {| L0Bootstrap.referencesLoaded := 1 |}
  /\ L0Bootstrap.referencesCount (state out) = 1
  /\ is_Some (lightweightReferences (state out) !! "Cortex_Access_Protocol_v3_0")
  /\ l0_initialized (state out) = true.
Proof.
  cbv zeta. unfold L0Bootstrap.initialize, L0Bootstrap.loadLightweightReferences,
    L0Bootstrap.initializeAccessPatterns, L0Bootstrap.calculateMetrics,
    L0Bootstrap.referencesCount.
  cbn [L0Bootstrap.sampleReferences L0Bootstrap.forEachSample].
  js_unfold. cbn.
  rewrite insert_empty, map_size_singleton, lookup_singleton_eq.
  repeat split. now eexists.
Qed.

(** Whatever the catalog held before, it holds at least the sample
    reference after [initialize]. *)
Lemma initialize_never_empty (s : L0State) (n : nat) :
  L0Bootstrap.referencesCount (state (L0Bootstrap.initialize s n)) <> 0.
Proof.
  unfold L0Bootstrap.initialize, L0Bootstrap.loadLightweightReferences,
    L0Bootstrap.initializeAccessPatterns, L0Bootstrap.calculateMetrics,
    L0Bootstrap.referencesCount.
  cbn [L0Bootstrap.sampleReferences L0Bootstrap.forEachSample].
  js_unfold. cbn.
  intros Hz. apply map_size_empty_iff in Hz.
  now apply insert_non_empty in Hz.
Qed.

End Catalog.

(** ** Tiered orchestrator *)

Section Orchestrator.
Context `{Runtime}.

Lemma lookup_present (entityName : string) (r : LightweightRef)
    (s : L0State) (n : nat) :
  l0_initialized s = true ->
  lightweightReferences s !! entityName = Some r ->
  exists t,
    L0Bootstrap.getLightweightReference entityName s n
    = (Ok (Some (L0Bootstrap.view (L0Bootstrap.touch r t))),
       state (L0Bootstrap.getLightweightReference entityName s n),
       readings (L0Bootstrap.getLightweightReference entityName s n))
    /\ lightweightReferences (state (L0Bootstrap.getLightweightReference entityName s n))
       = <[entityName := L0Bootstrap.touch r t]> (lightweightReferences s)
    /\ l0_initialized (state (L0Bootstrap.getLightweightReference entityName s n)) = true.
Proof.
  intros Hi Hr.
  rewrite (getLightweightReference_present _ r _ _ Hi Hr).
  destruct (recordAccess_frame entityName s n) as (_ & Hrefs & Hinit).
  eexists. split; [reflexivity|].
  unfold state at 1 3. cbn [fst snd L0Bootstrap.with_references
    lightweightReferences l0_initialized].
  now rewrite Hrefs, Hinit.
Qed.

Lemma lookup_absent (entityName : string) (s : L0State) (n : nat) :
  l0_initialized s = true ->
  lightweightReferences s !! entityName = None ->
  L0Bootstrap.getLightweightReference entityName s n
  = (Ok None,
     state (L0Bootstrap.getLightweightReference entityName s n),
     readings (L0Bootstrap.getLightweightReference entityName s n))
  /\ lightweightReferences (state (L0Bootstrap.getLightweightReference entityName s n))
     = lightweightReferences s
  /\ l0_initialized (state (L0Bootstrap.getLightweightReference entityName s n)) = true.
Proof.
  intros Hi Hr.
  rewrite (getLightweightReference_absent _ _ _ Hi Hr).
  destruct (recordAccess_frame entityName s n) as (_ & Hrefs & Hinit).
  split; [reflexivity|]. split; [exact Hrefs|].
  unfold state at 1. cbn [fst snd]. now rewrite Hinit.
Qed.

Lemma with_l0_same (w : CortexManager.State) :
  CortexManager.with_l0 (CortexManager.l0Bootstrap w) w = w.
Proof. now destruct w. Qed.

Lemma getEntity_uninitialized (entityName : string)
    (w : CortexManager.State) (n : nat) :
  CortexManager.initialized w = false ->
  CortexManager.getEntity entityName w n
  = (Throw "Cortex not initialized. Call initialize() first.", w, n).
Proof.
  intros Hi. unfold CortexManager.getEntity.
  unfold bind at 1, read at 1. now rewrite Hi.
Qed.

Lemma getEntity_catalog_uninitialized (entityName : string)
    (w : CortexManager.State) (n : nat) :
  CortexManager.initialized w = true ->
  l0_initialized (CortexManager.l0Bootstrap w) = false ->
  CortexManager.getEntity entityName w n
  = (Throw "L0 Bootstrap not initialized. Call initialize() first.", w, n).
Proof.
  intros Hi Hl0. unfold CortexManager.getEntity.
  unfold bind at 1, read at 1. rewrite Hi. cbn [negb].
  unfold bind at 1, CortexManager.onL0, lift.
  rewrite (getLightweightReference_uninitialized _ _ _ Hl0).
  now rewrite with_l0_same.
Qed.

Lemma getEntity_unknown (entityName : string) (w : CortexManager.State) (n : nat) :
  CortexManager.initialized w = true ->
  l0_initialized (CortexManager.l0Bootstrap w) = true ->
  lightweightReferences (CortexManager.l0Bootstrap w) !! entityName = None ->
  let lookup :=
    L0Bootstrap.getLightweightReference entityName (CortexManager.l0Bootstrap w) n in
  CortexManager.getEntity entityName w n
  = (Throw ("Entity '" +:+ entityName +:+ "' not found in L0 Bootstrap"),
     CortexManager.with_l0 (state lookup) w, readings lookup).
Proof.
  intros Hi Hl0 Hr. cbv zeta. unfold CortexManager.getEntity.
  unfold bind at 1, read at 1. rewrite Hi. cbn [negb].
  unfold bind at 1, CortexManager.onL0, lift.
  destruct (lookup_absent entityName _ n Hl0 Hr) as (Hrun & _ & _).
  destruct (L0Bootstrap.getLightweightReference entityName
              (CortexManager.l0Bootstrap w) n) as [[res s0] n0].
  unfold state, readings in *. cbn [fst snd] in *.
  injection Hrun as ->. reflexivity.
Qed.

Lemma getEntity_hit (entityName : string) (r : LightweightRef) (e : Entity)
    (w : CortexManager.State) (n : nat) :
  CortexManager.initialized w = true ->
  l0_initialized (CortexManager.l0Bootstrap w) = true ->
  lightweightReferences (CortexManager.l0Bootstrap w) !! entityName = Some r ->
  LRUCache.find (cacheKey entityName) (LRUCache.entries (CortexManager.cache w))
  = Some e ->
  let lookup :=
    L0Bootstrap.getLightweightReference entityName (CortexManager.l0Bootstrap w) n in
  CortexManager.getEntity entityName w n
  = (Ok (Some e),
     CortexManager.with_cache
       (snd (LRUCache.get (cacheKey entityName) (CortexManager.cache w)))
       (CortexManager.with_health
          (CortexManager.recordCacheHit (CortexManager.healthMonitor w))
          (CortexManager.with_l0 (state lookup) w)),
     readings lookup).
Proof.
  intros Hi Hl0 Hr Hf. cbv zeta. unfold CortexManager.getEntity.
  unfold bind at 1, read at 1. rewrite Hi. cbn [negb].
  unfold bind at 1, CortexManager.onL0, lift.
  destruct (lookup_present entityName r _ n Hl0 Hr) as (t & Hrun & _).
  destruct (L0Bootstrap.getLightweightReference entityName
              (CortexManager.l0Bootstrap w) n) as [[res s0] n0].
  unfold state, readings in *. cbn [fst snd] in *.
  injection Hrun as ->.
  fold (cacheKey entityName).
  unfold bind at 1, read at 1.
  cbn [CortexManager.with_l0 CortexManager.cache].
  unfold LRUCache.has. rewrite Hf.
  unfold bind, modify, CortexManager.cacheGet.
  cbn [CortexManager.with_health CortexManager.with_l0 CortexManager.cache
       CortexManager.healthMonitor].
  unfold LRUCache.get. rewrite Hf. reflexivity.
Qed.

Lemma getEntity_miss (entityName : string) (r : LightweightRef)
    (w : CortexManager.State) (n : nat) :
  CortexManager.initialized w = true ->
  l0_initialized (CortexManager.l0Bootstrap w) = true ->
  lightweightReferences (CortexManager.l0Bootstrap w) !! entityName = Some r ->
  LRUCache.has (cacheKey entityName) (CortexManager.cache w) = false ->
  let lookup :=
    L0Bootstrap.getLightweightReference entityName (CortexManager.l0Bootstrap w) n in
  let fetch :=
    L1Repository.getEntity (fileReference r) (CortexManager.l1Repository w)
      (readings lookup) in
  let w1 := CortexManager.with_l1 (state fetch)
              (CortexManager.with_l0 (state lookup) w) in
  CortexManager.getEntity entityName w n
  = match result fetch with
    | Ok e =>
        (Ok (Some e),
         CortexManager.with_health
           (CortexManager.recordCacheMiss (CortexManager.healthMonitor w))
           (CortexManager.with_cache
              (LRUCache.set (cacheKey entityName) e (CortexManager.cache w)) w1),
         readings fetch)
    | Throw message => (Throw message, w1, readings fetch)
    end.
Proof.
  intros Hi Hl0 Hr Hmiss. cbv zeta. unfold CortexManager.getEntity.
  unfold bind at 1, read at 1. rewrite Hi. cbn [negb].
  unfold bind at 1, CortexManager.onL0, lift.
  destruct (lookup_present entityName r _ n Hl0 Hr) as (t & Hrun & _).
  destruct (L0Bootstrap.getLightweightReference entityName
              (CortexManager.l0Bootstrap w) n) as [[res s0] n0].
  unfold state, readings in *. cbn [fst snd] in *.
  injection Hrun as ->.
  fold (cacheKey entityName).
  unfold bind at 1, read at 1.
  cbn [CortexManager.with_l0 CortexManager.cache].
  rewrite Hmiss.
  unfold bind at 1, CortexManager.onL1, lift.
  cbn [CortexManager.with_l0 CortexManager.l1Repository L0Bootstrap.view
       v_fileReference L0Bootstrap.touch fileReference].
  destruct (L1Repository.getEntity (fileReference r)
              (CortexManager.l1Repository w) n0) as [[res s1] n1].
  unfold result. cbn [fst snd].
  destruct res; reflexivity.
Qed.

End Orchestrator.

Section ReadPath.
Context `{Runtime}.

(** C4.  For a name that the catalog does not hold, [getEntity] throws, and
    the bounded cache, the backing store client (its request counters
    included), the health counters and the catalog's references are those
    of before the call; on an initialized manager the error is the
    entity-not-found one. *)
Theorem getEntity_unknown_name (entityName : string)
    (w : CortexManager.State) (n : nat) :
  lightweightReferences (CortexManager.l0Bootstrap w) !! entityName = None ->
  let out := CortexManager.getEntity entityName w n in
  (exists message, result out = Throw message)
  /\ CortexManager.cache (state out) = CortexManager.cache w
  /\ CortexManager.l1Repository (state out) = CortexManager.l1Repository w
  /\ CortexManager.healthMonitor (state out) = CortexManager.healthMonitor w
  /\ lightweightReferences (CortexManager.l0Bootstrap (state out))
     = lightweightReferences (CortexManager.l0Bootstrap w)
  /\ (CortexManager.initialized w = true ->
      l0_initialized (CortexManager.l0Bootstrap w) = true ->
      result out
      = Throw ("Entity '" +:+ entityName +:+ "' not found in L0 Bootstrap")).
Proof.
  intros Hr. cbv zeta.
  destruct (CortexManager.initialized w) eqn:Hi.
  - destruct (l0_initialized (CortexManager.l0Bootstrap w)) eqn:Hl0.
    + rewrite (getEntity_unknown _ _ _ Hi Hl0 Hr).
      destruct (lookup_absent entityName _ n Hl0 Hr) as (_ & Hrefs & _).
      unfold result, state at 1 2 3 4. cbn [fst snd].
      repeat split; eauto.
    + rewrite (getEntity_catalog_uninitialized _ _ _ Hi Hl0).
      repeat split; eauto. discriminate.
  - rewrite (getEntity_uninitialized _ _ _ Hi).
    repeat split; eauto. discriminate.
Qed.

(** C5, as the code has it.  On a read that misses the bounded cache and
    whose backing-store fetch throws, [getEntity] throws the client's error,
    the bounded cache and the health counters are those of before the call,
    and in the catalog only the access statistics of the entity's reference
    have changed: its [lastAccessed] is the current time, that is the clock
    reading [now] that the lookup takes once the access tracker has recorded
    the access (the tracker reads the clock once, or twice when it holds a
    previous stamp for the name) and before the fetch starts, and its
    [accessCount] is one more; every other field and every other reference
    are as before.  The access tracker has recorded the access. *)
Theorem getEntity_failed_fetch (entityName : string) (r : LightweightRef)
    (message : string) (w : CortexManager.State) (n : nat) :
  CortexManager.initialized w = true ->
  l0_initialized (CortexManager.l0Bootstrap w) = true ->
  lightweightReferences (CortexManager.l0Bootstrap w) !! entityName = Some r ->
  LRUCache.has (cacheKey entityName) (CortexManager.cache w) = false ->
  let catalog := CortexManager.l0Bootstrap w in
  let now := n + match accessPatterns catalog !! entityName ≫= lastAccess with
                 | Some _ => 2
                 | None => 1
                 end in
  result (L1Repository.getEntity (fileReference r) (CortexManager.l1Repository w)
            (now + 1)) = Throw message ->
  let out := CortexManager.getEntity entityName w n in
  result out = Throw message
  /\ CortexManager.cache (state out) = CortexManager.cache w
  /\ CortexManager.healthMonitor (state out) = CortexManager.healthMonitor w
  /\ lightweightReferences (CortexManager.l0Bootstrap (state out))
     = <[entityName := L0Bootstrap.touch r (clock now)]>
         (lightweightReferences catalog)
  /\ accessPatterns (CortexManager.l0Bootstrap (state out))
     = accessPatterns (state (L0Bootstrap.recordAccess entityName catalog n))
  /\ m_accessCount (metrics (CortexManager.l0Bootstrap (state out)))
     = m_accessCount (metrics catalog) + 1.
Proof.
  intros Hi Hl0 Hr Hmiss. cbv zeta. intros Hfetch.
  rewrite (getEntity_miss _ r _ _ Hi Hl0 Hr Hmiss). cbv zeta.
  rewrite (getLightweightReference_present _ r _ _ Hl0 Hr). cbv zeta.
  pose proof (recordAccess_readings entityName (CortexManager.l0Bootstrap w) n) as Hn.
  pose proof (recordAccess_frame entityName (CortexManager.l0Bootstrap w) n)
    as (_ & Hrefs & _).
  pose proof (recordAccess_state entityName (CortexManager.l0Bootstrap w) n)
    as (_ & Hstate).
  change (readings (?r, ?s, ?k)) with k. change (state (?r, ?s, ?k)) with s.
  rewrite Hn.
  remember (state (L0Bootstrap.recordAccess entityName (CortexManager.l0Bootstrap w) n))
    as tracked eqn:Htracked.
  destruct (L1Repository.getEntity (fileReference r) (CortexManager.l1Repository w) _)
    as [[res l1'] n'].
  unfold result in Hfetch. cbn [fst snd] in Hfetch. subst res.
  unfold result, state. cbn [fst snd].
  cbn [CortexManager.with_l1 CortexManager.with_l0 CortexManager.cache
       CortexManager.healthMonitor CortexManager.l0Bootstrap
       L0Bootstrap.with_references lightweightReferences accessPatterns metrics].
  rewrite Hrefs.
  repeat split; try reflexivity.
  rewrite Hstate. reflexivity.
Qed.

End ReadPath.

Lemma getEntity_unknown_name_witness :
  result (@CortexManager.getEntity demoRuntime "Nobody" (fst readyManager) (snd readyManager))
  = Throw "Entity 'Nobody' not found in L0 Bootstrap"
  /\ CortexManager.cache
       (state (@CortexManager.getEntity demoRuntime "Nobody" (fst readyManager)
                 (snd readyManager)))
     = CortexManager.cache (fst readyManager).
Proof.
  pose proof (@getEntity_unknown_name demoRuntime "Nobody" (fst readyManager)
                (snd readyManager) eq_refl) as (_ & Hcache & _ & _ & _ & Herr).
  split; [apply Herr; reflexivity | exact Hcache].
Defined.

Lemma getEntity_failed_fetch_witness :
  let out := @CortexManager.getEntity demoRuntime "Ghost" (fst ghostManager)
               (snd ghostManager) in
  result out = Throw "Failed to load entity from L1: Entity must have a valid name"
  /\ CortexManager.cache (state out) = CortexManager.cache (fst ghostManager)
  /\ snd ghostManager = 11
  /\ lastAccessed
       <$> lightweightReferences (CortexManager.l0Bootstrap (state out)) !! "Ghost"
     = Some (@clock demoRuntime 12)
  /\ accessCount
       <$> lightweightReferences (CortexManager.l0Bootstrap (state out)) !! "Ghost"
     = Some 1.
Proof.
  pose proof (@getEntity_failed_fetch demoRuntime "Ghost"
                {| entityName := "Ghost";
                   fileReference := "cortex/entities/.json";
                   summary := "Replicated once (T2)";
                   priority := low;
                   sizeText := "96B";
                   evidenceQuality := T2;
                   createdAt := 8000;
                   lastAccessed := 9000;
                   accessCount := 0;
                   transferredAt := Some 10000%Z |}
                "Failed to load entity from L1: Entity must have a valid name"
                (fst ghostManager) (snd ghostManager)
                eq_refl eq_refl eq_refl eq_refl eq_refl)
    as (Hres & Hcache & _ & Hrefs & _).
  cbv zeta.
  split; [exact Hres|]. split; [exact Hcache|]. split; [reflexivity|].
  rewrite Hrefs, lookup_insert_eq. split; reflexivity.
Defined.

(** C5, as stated, fails: this read misses the cache and its fetch throws, the
    bounded cache is left as it was, and the catalog is not: the reference of
    the entity has a new access count. *)
Lemma failed_read_changes_catalog :
  let w := fst ghostManager in
  let out := @CortexManager.getEntity demoRuntime "Ghost" w (snd ghostManager) in
  CortexManager.initialized w = true
  /\ LRUCache.has (cacheKey "Ghost") (CortexManager.cache w) = false
  /\ result out = Throw "Failed to load entity from L1: Entity must have a valid name"
  /\ CortexManager.cache (state out) = CortexManager.cache w
  /\ lightweightReferences (CortexManager.l0Bootstrap (state out))
     <> lightweightReferences (CortexManager.l0Bootstrap w).
Proof.
  cbv zeta. repeat split; try reflexivity.
  intros Heq.
  apply (f_equal (fun m => accessCount <$> m !! "Ghost")) in Heq.
  vm_compute in Heq. discriminate Heq.
Qed.

(** ** Write path and round trip *)

Section WritePath.
Context `{Runtime}.

Lemma createLightweightReference_uninitialized (entityName : string)
    (e : Entity) (locator : string) (s : L0State) (n : nat) :
  l0_initialized s = false ->
  L0Bootstrap.createLightweightReference entityName e locator s n
  = (Throw "L0 Bootstrap not initialized.", s, n).
Proof.
  intros Hi. unfold L0Bootstrap.createLightweightReference.
  unfold bind at 1, read at 1. now rewrite Hi.
Qed.

Lemma createLightweightReference_initialized (entityName : string)
    (e : Entity) (locator : string) (s : L0State) (n : nat) :
  l0_initialized s = true ->
  exists ref s',
    L0Bootstrap.createLightweightReference entityName e locator s n
    = (Ok ref, s', n + 3)
    /\ fileReference ref = locator
    /\ lightweightReferences s' = <[entityName := ref]> (lightweightReferences s)
    /\ l0_initialized s' = true.
Proof.
  intros Hi. unfold L0Bootstrap.createLightweightReference.
  unfold bind at 1, read at 1. rewrite Hi. cbn [negb].
  js_unfold. cbn beta iota.
  replace (n + 1 + 1 + 1) with (n + 3) by lia.
  eexists _, _. split; [reflexivity|].
  cbn. auto.
Qed.

Lemma find_snoc_absent {V : Type} (k : string) (v : V) (l : list (string * V)) :
  ~ In k (keysOf l) -> LRUCache.find k (l ++ [(k, v)]) = Some v.
Proof.
  induction l as [|[k' v'] l IH]; cbn [app LRUCache.find keysOf map fst In].
  - intros _. now rewrite String.eqb_refl.
  - fold (keysOf l). intros Hn.
    destruct (String.eqb k k') eqn:E.
    + apply String.eqb_eq in E. subst k'. tauto.
    + apply IH. tauto.
Qed.

(** Right after [set k v], the key holds [v], unless the cache evicted the
    entry at once (a cache of capacity zero). *)
Lemma find_after_set {V : Type} (k : string) (v : V) (c : LRUCache.t V) :
  LRUCache.find k (LRUCache.entries (LRUCache.set k v c)) = Some v
  \/ LRUCache.find k (LRUCache.entries (LRUCache.set k v c)) = None.
Proof.
  unfold LRUCache.set. cbn [LRUCache.entries].
  assert (Hout : ~ In k (keysOf (LRUCache.without k (LRUCache.entries c))))
    by (rewrite in_keys_without; tauto).
  destruct (_ <? _)%nat.
  - destruct (LRUCache.without k (LRUCache.entries c)) as [|[k' v'] q];
      cbn [app tail].
    + now right.
    + left. apply find_snoc_absent.
      cbn [keysOf map fst In] in Hout. fold (keysOf q) in Hout. tauto.
  - left. now apply find_snoc_absent.
Qed.

(** What a successful write has done. *)
Lemma putEntity_success (entityName : string) (e : Entity) (locator : string)
    (w w1 : CortexManager.State) (n n1 : nat) :
  CortexManager.putEntity entityName e w n = (Ok locator, w1, n1) ->
  validShape e = true
  /\ (exists ref,
        lightweightReferences (CortexManager.l0Bootstrap w1) !! entityName = Some ref
        /\ fileReference ref = locator)
  /\ l0_initialized (CortexManager.l0Bootstrap w1) = true
  /\ connected (CortexManager.l1Repository w1) = true
  /\ entityCache (CortexManager.l1Repository w1) !! locator = Some e
  /\ CortexManager.cache w1
     = LRUCache.set (cacheKey entityName) e (CortexManager.cache w)
  /\ CortexManager.initialized w1 = CortexManager.initialized w.
Proof.
  unfold CortexManager.putEntity.
  unfold bind at 1, CortexManager.onL1, lift at 1.
  destruct (connected (CortexManager.l1Repository w)) eqn:Hc;
    [|rewrite (storeEntity_disconnected _ _ _ _ Hc); discriminate].
  destruct (validShape e) eqn:Hv;
    [|rewrite (storeEntity_invalid _ _ _ _ Hc Hv); discriminate].
  destruct (storeEntity_valid entityName e _ n Hc Hv) as (stored & Hloc & ->).
  unfold bind at 1, CortexManager.onL0, lift at 1.
  cbn [CortexManager.with_l1 CortexManager.l0Bootstrap].
  destruct (l0_initialized (CortexManager.l0Bootstrap w)) eqn:Hl0;
    [|rewrite (createLightweightReference_uninitialized _ _ _ _ _ Hl0);
      discriminate].
  destruct (createLightweightReference_initialized entityName e
              (L1Repository.stored_fileReference stored)
              (CortexManager.l0Bootstrap w) (n + 3) Hl0)
    as (ref & s' & -> & Hfile & Hrefs & Hinit).
  js_unfold. cbn [CortexManager.with_l0 CortexManager.with_l1
    CortexManager.with_cache CortexManager.cache].
  intros Heq. injection Heq as <- <- <-.
  cbn [CortexManager.with_cache CortexManager.with_l0 CortexManager.with_l1
       CortexManager.l0Bootstrap CortexManager.l1Repository
       CortexManager.cache CortexManager.initialized].
  split; [reflexivity|].
  split; [exists ref; split; [rewrite Hrefs; apply lookup_insert_eq | exact Hfile]|].
  split; [exact Hinit|].
  split; [exact Hc|].
  split; [|split; reflexivity].
  rewrite Hloc. cbn [L1Repository.with_connectionMetrics
    L1Repository.with_entityCache entityCache].
  apply lookup_insert_eq.
Qed.

(** A read issued right after a successful write returns the entity
    written, also when the cache evicted the entry at once: the fetch is then
    served by the client's own copy. *)
Lemma read_after_write (entityName : string) (e : Entity)
    (locator : string) (w w1 : CortexManager.State) (n n1 : nat) :
  CortexManager.initialized w = true ->
  CortexManager.putEntity entityName e w n = (Ok locator, w1, n1) ->
  result (CortexManager.getEntity entityName w1 n1) = Ok (Some e).
Proof.
  intros Hi Hput.
  destruct (putEntity_success _ _ _ _ _ _ _ Hput)
    as (Hv & (ref & Href & Hfile) & Hl0 & Hc & Hbody & Hcache & Hinit).
  rewrite Hi in Hinit.
  destruct (find_after_set (cacheKey entityName) e (CortexManager.cache w))
    as [Hfound|Hevicted]; rewrite <- Hcache in *.
  - now rewrite (getEntity_hit _ ref e _ _ Hinit Hl0 Href Hfound).
  - assert (Hmiss : LRUCache.has (cacheKey entityName) (CortexManager.cache w1) = false)
      by (unfold LRUCache.has; now rewrite Hevicted).
    rewrite (getEntity_miss _ ref _ _ Hinit Hl0 Href Hmiss). cbv zeta.
    rewrite Hfile.
    rewrite (getEntity_cached locator e _ _ Hc Hbody).
    reflexivity.
Qed.

End WritePath.

Section RoundTrip.
Context `{Runtime}.

Lemma cacheKey_inj (a b : string) : cacheKey a = cacheKey b -> a = b.
Proof. unfold cacheKey. cbn. intros Heq. now injection Heq. Qed.

Lemma find_app {V : Type} (k : string) (l1 l2 : list (string * V)) :
  LRUCache.find k (l1 ++ l2)
  = match LRUCache.find k l1 with
    | Some v => Some v
    | None => LRUCache.find k l2
    end.
Proof.
  induction l1 as [|[k' v'] l1 IH]; cbn [app LRUCache.find]; [reflexivity|].
  now destruct (String.eqb k k').
Qed.

Lemma find_without_other {V : Type} (k k' : string) (l : list (string * V)) :
  k <> k' -> LRUCache.find k (LRUCache.without k' l) = LRUCache.find k l.
Proof.
  intros Hne. induction l as [|[k0 v0] l IH];
    cbn [LRUCache.without LRUCache.find]; [reflexivity|].
  destruct (String.eqb k' k0) eqn:E'.
  - apply String.eqb_eq in E'. subst k0.
    apply String.eqb_neq in Hne. now rewrite Hne.
  - cbn [LRUCache.find]. now rewrite IH.
Qed.

Lemma find_Some_in {V : Type} (k : string) (v : V) (l : list (string * V)) :
  LRUCache.find k l = Some v -> In k (keysOf l).
Proof.
  induction l as [|[k' v'] l IH]; cbn [LRUCache.find keysOf map fst In];
    [discriminate|].
  fold (keysOf l). destruct (String.eqb k k') eqn:E.
  - apply String.eqb_eq in E. auto.
  - auto.
Qed.

(** A [get] of any key leaves the value of every key as it was. *)
Lemma find_get {V : Type} (k k' : string) (c : LRUCache.t V) :
  LRUCache.find k (LRUCache.entries (snd (LRUCache.get k' c)))
  = LRUCache.find k (LRUCache.entries c).
Proof.
  unfold LRUCache.get.
  destruct (LRUCache.find k' (LRUCache.entries c)) as [v'|] eqn:Hf;
    cbn [snd LRUCache.entries]; [|reflexivity].
  destruct (String.eqb_spec k k') as [->|Hne].
  - rewrite Hf. apply find_snoc_absent. rewrite in_keys_without. tauto.
  - rewrite find_app, (find_without_other _ _ _ Hne).
    destruct (LRUCache.find k (LRUCache.entries c)); [reflexivity|].
    cbn [LRUCache.find]. apply String.eqb_neq in Hne. now rewrite Hne.
Qed.

(** A [set] of another key leaves the value of a key as it was, when it
    does not evict it. *)
Lemma find_set_other {V : Type} (k k' : string) (v u : V) (c : LRUCache.t V) :
  wellFormed c -> k <> k' ->
  LRUCache.find k (LRUCache.entries (LRUCache.set k' v c)) = Some u ->
  LRUCache.find k (LRUCache.entries c) = Some u.
Proof.
  intros [Hnd _] Hne. unfold LRUCache.set. cbn [LRUCache.entries].
  pose proof (NoDup_keys_snoc k' v _ Hnd) as Hnd'.
  assert (Hall : LRUCache.find k (LRUCache.without k' (LRUCache.entries c) ++ [(k', v)])
                 = LRUCache.find k (LRUCache.entries c)).
  { rewrite find_app, (find_without_other _ _ _ Hne).
    destruct (LRUCache.find k (LRUCache.entries c)); [reflexivity|].
    cbn [LRUCache.find]. apply String.eqb_neq in Hne. now rewrite Hne. }
  destruct (_ <? _)%nat; [|now rewrite Hall].
  rewrite <- Hall.
  destruct (LRUCache.without k' (LRUCache.entries c) ++ [(k', v)])
    as [|[k0 v0] rest]; cbn [tail LRUCache.find]; [trivial|].
  intros Hf. destruct (String.eqb k k0) eqn:E; [|exact Hf].
  apply String.eqb_eq in E. subst k0. exfalso.
  cbn [keysOf map fst] in Hnd'. apply NoDup_cons in Hnd' as [Hk _].
  apply Hk, list_elem_of_In. fold (keysOf rest).
  now apply (find_Some_in k u).
Qed.

Lemma framed_refl (w : CortexManager.State) : framed w w.
Proof. unfold framed. auto. Qed.

Lemma is_Some_insert {A : Type} (m : gmap string A) (x y : string) (a : A) :
  is_Some (m !! y) -> is_Some (<[x := a]> m !! y).
Proof.
  intros Hy. destruct (decide (x = y)) as [->|Hne].
  - rewrite lookup_insert_eq. now eexists.
  - now rewrite lookup_insert_ne.
Qed.

Lemma getEntity_frame (x : string) (w : CortexManager.State) (n : nat) :
  framed w (state (CortexManager.getEntity x w n))
  /\ cacheStep x w (state (CortexManager.getEntity x w n))
  /\ (LRUCache.has (cacheKey x) (CortexManager.cache w) = true ->
      CortexManager.cache (state (CortexManager.getEntity x w n))
      = CortexManager.cache w
      \/ CortexManager.cache (state (CortexManager.getEntity x w n))
         = snd (LRUCache.get (cacheKey x) (CortexManager.cache w))).
Proof.
  destruct (CortexManager.initialized w) eqn:Hi;
    [|rewrite (getEntity_uninitialized _ _ _ Hi);
      unfold state, cacheStep; cbn [fst snd]; auto using framed_refl].
  destruct (l0_initialized (CortexManager.l0Bootstrap w)) eqn:Hl0;
    [|rewrite (getEntity_catalog_uninitialized _ _ _ Hi Hl0);
      unfold state, cacheStep; cbn [fst snd]; auto using framed_refl].
  destruct (lightweightReferences (CortexManager.l0Bootstrap w) !! x)
    as [r|] eqn:Hr.
  - destruct (lookup_present x r _ n Hl0 Hr) as (t & _ & Hrefs & Hinit).
    assert (Hframe : forall w',
              CortexManager.initialized w' = CortexManager.initialized w ->
              CortexManager.l0Bootstrap w'
              = state (L0Bootstrap.getLightweightReference x
                         (CortexManager.l0Bootstrap w) n) ->
              framed w w').
    { intros w' Hi' Hl0'. unfold framed. rewrite Hl0', Hrefs, Hinit, Hi'.
      repeat split; auto. intros y. apply is_Some_insert. }
    destruct (LRUCache.find (cacheKey x) (LRUCache.entries (CortexManager.cache w)))
      as [v|] eqn:Hf.
    + rewrite (getEntity_hit _ r v _ _ Hi Hl0 Hr Hf).
      unfold state at 1 3 5, cacheStep. cbn [fst snd].
      split; [apply Hframe; reflexivity|]. auto.
    + assert (Hmiss : LRUCache.has (cacheKey x) (CortexManager.cache w) = false)
        by (unfold LRUCache.has; now rewrite Hf).
      rewrite (getEntity_miss _ r _ _ Hi Hl0 Hr Hmiss). cbv zeta.
      rewrite Hmiss.
      destruct (result (L1Repository.getEntity _ _ _)) as [e|msg];
        unfold state at 1 3 5, cacheStep; cbn [fst snd];
        (split; [apply Hframe; reflexivity|]);
        (split; [|discriminate]); eauto.
  - destruct (lookup_absent x _ n Hl0 Hr) as (_ & Hrefs & Hinit).
    rewrite (getEntity_unknown _ _ _ Hi Hl0 Hr). cbv zeta.
    unfold state at 1 3 5, cacheStep, framed. cbn [fst snd].
    cbn [CortexManager.with_l0 CortexManager.initialized
         CortexManager.l0Bootstrap CortexManager.cache].
    rewrite Hrefs, Hinit. repeat split; auto.
Qed.

Lemma putEntity_frame (x : string) (e : Entity) (w : CortexManager.State) (n : nat) :
  framed w (state (CortexManager.putEntity x e w n))
  /\ (CortexManager.cache (state (CortexManager.putEntity x e w n))
      = CortexManager.cache w
      \/ CortexManager.cache (state (CortexManager.putEntity x e w n))
         = LRUCache.set (cacheKey x) e (CortexManager.cache w)).
Proof.
  destruct (CortexManager.putEntity x e w n) as [[res w'] n'] eqn:Hput.
  unfold state. cbn [fst snd]. revert Hput.
  unfold CortexManager.putEntity.
  unfold bind at 1, CortexManager.onL1, lift at 1.
  destruct (connected (CortexManager.l1Repository w)) eqn:Hc.
  2:{ rewrite (storeEntity_disconnected _ _ _ _ Hc).
      intros Heq. injection Heq as <- <- <-. unfold framed. cbn. auto. }
  destruct (validShape e) eqn:Hv.
  2:{ rewrite (storeEntity_invalid _ _ _ _ Hc Hv).
      intros Heq. injection Heq as <- <- <-. unfold framed. cbn. auto. }
  destruct (storeEntity_valid x e _ n Hc Hv) as (stored & Hloc & ->).
  unfold bind at 1, CortexManager.onL0, lift at 1.
  cbn [CortexManager.with_l1 CortexManager.l0Bootstrap].
  destruct (l0_initialized (CortexManager.l0Bootstrap w)) eqn:Hl0.
  2:{ rewrite (createLightweightReference_uninitialized _ _ _ _ _ Hl0).
      intros Heq. injection Heq as <- <- <-. unfold framed. cbn.
      rewrite Hl0. auto. }
  destruct (createLightweightReference_initialized x e
              (L1Repository.stored_fileReference stored)
              (CortexManager.l0Bootstrap w) (n + 3) Hl0)
    as (ref & s' & -> & Hfile & Hrefs & Hinit).
  js_unfold. intros Heq. injection Heq as <- <- <-.
  unfold framed, cacheKey.
  cbn [fst snd CortexManager.with_cache CortexManager.with_l0 CortexManager.with_l1
       CortexManager.l0Bootstrap CortexManager.l1Repository
       CortexManager.cache CortexManager.initialized].
  rewrite Hrefs, Hinit. repeat split; auto.
  intros y. apply is_Some_insert.
Qed.

Lemma holds_read (entityName : string) (e : Entity)
    (w : CortexManager.State) (n : nat) :
  holds entityName e w ->
  result (CortexManager.getEntity entityName w n) = Ok (Some e).
Proof.
  intros (Hi & Hl0 & [r Hr] & _ & Hf).
  now rewrite (getEntity_hit _ r e _ _ Hi Hl0 Hr Hf).
Qed.

Lemma has_find {V : Type} (k : string) (c : LRUCache.t V) :
  LRUCache.has k c = true -> exists v, LRUCache.find k (LRUCache.entries c) = Some v.
Proof.
  unfold LRUCache.has. destruct (LRUCache.find k (LRUCache.entries c)) as [v|];
    [eauto | discriminate].
Qed.

Lemma holds_call (entityName : string) (e : Entity) (c : ManagerCall)
    (sn : CortexManager.State * nat) :
  noRewrite entityName [c] = true ->
  LRUCache.has (cacheKey entityName)
    (CortexManager.cache (fst (managerCall c sn))) = true ->
  holds entityName e (fst sn) ->
  holds entityName e (fst (managerCall c sn)).
Proof.
  destruct sn as [w n]. cbn [fst snd].
  intros Hc Hkept (Hi & Hl0 & Hname & Hwf & Hf).
  apply has_find in Hkept as [u Hu].
  assert (Hhas : LRUCache.has (cacheKey entityName) (CortexManager.cache w) = true)
    by (unfold LRUCache.has; now rewrite Hf).
  destruct c as [x|x e']; cbn [managerCall forget fst snd] in *.
  - destruct (getEntity_frame x w n) as ((Hi' & Hl0' & Hdom) & Hstep & Hhit).
    unfold holds. rewrite Hi'.
    split; [exact Hi|]. split; [auto|]. split; [auto|]. split.
    + destruct Hstep as [->|[->|[v ->]]]; auto using get_wellFormed, set_wellFormed.
    + destruct (String.eqb_spec x entityName) as [->|Hne].
      * destruct (Hhit Hhas) as [Hs|Hs]; rewrite Hs;
          [exact Hf | now rewrite find_get].
      * destruct Hstep as [Hs|[Hs|[v Hs]]]; rewrite Hs in *;
          [exact Hf | now rewrite find_get |].
        rewrite Hu. f_equal.
        assert (Hkey : cacheKey entityName <> cacheKey x)
          by (intros Heq; apply cacheKey_inj in Heq; congruence).
        apply (find_set_other _ _ _ _ _ Hwf Hkey) in Hu. congruence.
  - cbn [noRewrite forallb] in Hc. rewrite andb_true_r in Hc.
    apply negb_true_iff, String.eqb_neq in Hc.
    destruct (putEntity_frame x e' w n) as ((Hi' & Hl0' & Hdom) & Hstep).
    unfold holds. rewrite Hi'.
    split; [exact Hi|]. split; [auto|]. split; [auto|]. split.
    + destruct Hstep as [->| ->]; auto using set_wellFormed.
    + destruct Hstep as [Hs|Hs]; rewrite Hs in *; [exact Hf|].
      rewrite Hu. f_equal.
      assert (Hkey : cacheKey entityName <> cacheKey x)
        by (intros Heq; apply cacheKey_inj in Heq; congruence).
      apply (find_set_other _ _ _ _ _ Hwf Hkey) in Hu. congruence.
Qed.

Lemma holds_calls (entityName : string) (e : Entity) (cs : list ManagerCall)
    (sn : CortexManager.State * nat) :
  noRewrite entityName cs = true ->
  keptThroughout (cacheKey entityName) cs sn = true ->
  holds entityName e (fst sn) ->
  holds entityName e (fst (managerCalls cs sn)).
Proof.
  revert sn. induction cs as [|c cs IH]; intros sn Hno Hkept Hh;
    cbn [managerCalls fold_left]; [exact Hh|].
  fold (managerCalls cs (managerCall c sn)).
  cbn [noRewrite forallb] in Hno. apply andb_true_iff in Hno as [Hc Hno].
  cbn [keptThroughout] in Hkept. apply andb_true_iff in Hkept as [_ Hkept].
  apply IH; [exact Hno | exact Hkept |].
  apply holds_call; [cbn [noRewrite forallb]; now rewrite Hc | | exact Hh].
  destruct cs; cbn [keptThroughout] in Hkept;
    now apply andb_true_iff in Hkept as [Hk _].
Qed.

(** C1.  Round trip.  On an initialized manager whose bounded cache is well
    formed, let the write path succeed for an entity under a name (the body
    persisted through the backing store client, the catalog reference put,
    the entity inserted in the bounded cache).  Then the entity has a valid
    shape; a [getEntity] of the name issued next returns the entity written;
    and so does a [getEntity] issued after any further reads, and writes
    under other names, as long as the entry written has not been evicted
    in between. *)
Theorem putEntity_getEntity_round_trip (entityName : string) (e : Entity)
    (locator : string) (w w1 : CortexManager.State) (n n1 : nat)
    (cs : list ManagerCall) :
  CortexManager.initialized w = true ->
  wellFormed (CortexManager.cache w) ->
  CortexManager.putEntity entityName e w n = (Ok locator, w1, n1) ->
  validShape e = true
  /\ result (CortexManager.getEntity entityName w1 n1) = Ok (Some e)
  /\ (noRewrite entityName cs = true ->
      keptThroughout (cacheKey entityName) cs (w1, n1) = true ->
      result (CortexManager.getEntity entityName
                (fst (managerCalls cs (w1, n1)))
                (snd (managerCalls cs (w1, n1)))) = Ok (Some e)).
Proof.
  intros Hi Hwf Hput.
  destruct (putEntity_success _ _ _ _ _ _ _ Hput)
    as (Hv & (ref & Href & Hfile) & Hl0 & Hc & Hbody & Hcache & Hinit).
  split; [exact Hv|].
  split; [exact (read_after_write _ _ _ _ _ _ _ Hi Hput)|].
  intros Hno Hkept. apply holds_read.
  apply holds_calls; [exact Hno | exact Hkept |].
  cbn [fst]. unfold holds. rewrite Hinit, Hi.
  split; [reflexivity|]. split; [exact Hl0|].
  split; [rewrite Href; now eexists|].
  split; [rewrite Hcache; now apply set_wellFormed|].
  assert (Hk : LRUCache.has (cacheKey entityName) (CortexManager.cache w1) = true).
  { destruct cs; cbn [keptThroughout fst] in Hkept;
      now apply andb_true_iff in Hkept as [Hk _]. }
  apply has_find in Hk as [u Hu]. rewrite Hu. f_equal.
  rewrite Hcache in Hu.
  destruct (find_after_set (cacheKey entityName) e (CortexManager.cache w))
    as [Hs|Hs]; congruence.
Qed.

End RoundTrip.

Lemma putEntity_getEntity_round_trip_witness :
  let later := @managerCalls demoRuntime callsAfterAlpha
                 (state alphaWritten, readings alphaWritten) in
  result (@CortexManager.getEntity demoRuntime "Alpha"
            (state alphaWritten) (readings alphaWritten))
  = Ok (Some entityT1thenT2)
  /\ result (@CortexManager.getEntity demoRuntime "Alpha" (fst later) (snd later))
     = Ok (Some entityT1thenT2).
Proof.
  pose proof (@putEntity_getEntity_round_trip demoRuntime "Alpha" entityT1thenT2
                "cortex/entities/alpha.json"
                (fst readyManager) (state alphaWritten)
                (snd readyManager) (readings alphaWritten) callsAfterAlpha)
    as Hround.
  destruct Hround as (_ & Hnext & Hlater).
  - reflexivity.
  - split; [constructor | cbn; lia].
  - vm_compute. reflexivity.
  - split; [exact Hnext|]. apply Hlater; vm_compute; reflexivity.
Defined.

(** ** Life cycle *)

Section Lifecycle.
Context `{Runtime}.

Lemma L0_initialize_ok (s : L0State) (n : nat) :
  exists r s', L0Bootstrap.initialize s n = (Ok r, s', n + 2)
               /\ l0_initialized s' = true.
Proof.
  unfold L0Bootstrap.initialize, L0Bootstrap.loadLightweightReferences,
    L0Bootstrap.initializeAccessPatterns, L0Bootstrap.calculateMetrics.
  cbn [L0Bootstrap.sampleReferences L0Bootstrap.forEachSample].
  js_unfold. cbn.
  replace (n + 1 + 1) with (n + 2) by lia. eauto.
Qed.

Lemma L1_connect_ok (s : L1State) (n : nat) :
  exists r s', L1Repository.connect s n = (Ok r, s', n + 4)
               /\ connected s' = true.
Proof.
  unfold L1Repository.connect, L1Repository.validateRepositoryAccess,
    L1Repository.initializeSchemaValidation, L1Repository.loadRepositoryMetadata.
  js_unfold. cbn.
  replace (n + 1 + 1 + 1 + 1) with (n + 4) by lia. eauto.
Qed.

(** [initialize] sets the manager's flag when it runs to its end, and leaves
    it alone when it throws. *)
Lemma initialize_flag (w : CortexManager.State) (n : nat) :
  CortexManager.initialized (state (CortexManager.initialize w n))
  = match result (CortexManager.initialize w n) with
    | Ok _ => true
    | Throw _ => CortexManager.initialized w
    end.
Proof.
  destruct (CortexManager.initialize w n) as [[res w'] n'] eqn:Hrun.
  unfold state, result. cbn [fst snd]. revert Hrun.
  unfold CortexManager.initialize.
  unfold bind at 1, Date_now at 1. unfold tryCatch.
  unfold bind at 1, CortexManager.onL0, lift at 1.
  destruct (L0_initialize_ok (CortexManager.l0Bootstrap w) (n + 1))
    as (r0 & s0 & -> & _).
  unfold bind at 1, CortexManager.onL1, lift at 1.
  cbn [CortexManager.with_l0 CortexManager.l1Repository].
  destruct (L1_connect_ok (CortexManager.l1Repository w) (n + 1 + 2))
    as (r1 & s1 & -> & _).
  unfold bind at 1, lift at 1.
  cbn [CortexManager.with_l0 CortexManager.with_l1 CortexManager.l0Bootstrap
       CortexManager.l1Repository].
  destruct (entityManagerInitialize (s0, s1)) as [[[]|msg] [s0' s1']].
  2:{ unfold throw. intros Heq. injection Heq as <- <- <-. reflexivity. }
  unfold bind at 1, lift at 1.
  cbn [CortexManager.with_l0 CortexManager.with_l1 CortexManager.healthMonitor fst snd].
  destruct (healthMonitorStart (CortexManager.healthMonitor w)) as [[[]|msg] h'].
  2:{ unfold throw. intros Heq. injection Heq as <- <- <-. reflexivity. }
  js_unfold. intros Heq. injection Heq as <- <- <-. reflexivity.
Qed.

Lemma lifecycleCall_flag (c : LifecycleCall) (sn : CortexManager.State * nat) :
  completesInitialize c sn = false ->
  CortexManager.initialized (fst (lifecycleCall c sn))
  = CortexManager.initialized (fst sn).
Proof.
  destruct sn as [w n]. destruct c as [|x|x e];
    cbn [lifecycleCall completesInitialize forget fst snd].
  - rewrite initialize_flag.
    now destruct (result (CortexManager.initialize w n)).
  - intros _. now destruct (getEntity_frame x w n) as ((Hi & _) & _).
  - intros _. now destruct (putEntity_frame x e w n) as ((Hi & _) & _).
Qed.

Lemma lifecycleCalls_flag (cs : list LifecycleCall) (sn : CortexManager.State * nat) :
  noInitializeCompleted cs sn = true ->
  CortexManager.initialized (fst (lifecycleCalls cs sn))
  = CortexManager.initialized (fst sn).
Proof.
  revert sn. induction cs as [|c cs IH]; intros sn;
    cbn [lifecycleCalls fold_left noInitializeCompleted]; [reflexivity|].
  fold (lifecycleCalls cs (lifecycleCall c sn)).
  intros Hno. apply andb_true_iff in Hno as [Hc Hno].
  apply negb_true_iff in Hc.
  now rewrite (IH _ Hno), (lifecycleCall_flag _ _ Hc).
Qed.

(** C10.  Before [initialize] has completed successfully, [getEntity] throws
    for every entity name and leaves the whole state as it was: no catalog
    mutation, no access recorded, no cache entry, no backing-store request,
    not even a clock reading.  This holds in every state whose [initialized]
    flag is unset, and the flag is unset after any sequence of calls on a
    freshly constructed manager in which no [initialize] ran to its end.  The
    catalog's own lookup has the same guard on its own flag. *)
Theorem getEntity_before_initialize (entityName : string)
    (w : CortexManager.State) (n : nat)
    (config : CortexManager.Config) (cs : list LifecycleCall) :
  (CortexManager.initialized w = false ->
   CortexManager.getEntity entityName w n
   = (Throw "Cortex not initialized. Call initialize() first.", w, n))
  /\ (noInitializeCompleted cs (CortexManager.new config, n) = true ->
      let sn := lifecycleCalls cs (CortexManager.new config, n) in
      CortexManager.getEntity entityName (fst sn) (snd sn)
      = (Throw "Cortex not initialized. Call initialize() first.", fst sn, snd sn))
  /\ (l0_initialized (CortexManager.l0Bootstrap w) = false ->
      L0Bootstrap.getLightweightReference entityName (CortexManager.l0Bootstrap w) n
      = (Throw "L0 Bootstrap not initialized. Call initialize() first.",
         CortexManager.l0Bootstrap w, n)).
Proof.
  split; [apply getEntity_uninitialized|].
  split; [|apply getLightweightReference_uninitialized].
  intros Hno. cbv zeta. apply getEntity_uninitialized.
  now rewrite (lifecycleCalls_flag _ _ Hno).
Qed.

End Lifecycle.

Lemma getEntity_before_initialize_witness :
  let sn := @lifecycleCalls failingRuntime
              [TryRead "Alpha"; TryInitialize; TryWrite "Alpha" entityT1thenT2]
              (CortexManager.new demoConfig, 0) in
  @CortexManager.getEntity failingRuntime "Alpha" (CortexManager.new demoConfig) 0
  = (Throw "Cortex not initialized. Call initialize() first.",
     CortexManager.new demoConfig, 0)
  /\ @CortexManager.getEntity failingRuntime "Alpha" (fst sn) (snd sn)
     = (Throw "Cortex not initialized. Call initialize() first.", fst sn, snd sn)
  /\ @L0Bootstrap.getLightweightReference failingRuntime "Alpha" L0Bootstrap.new 0
     = (Throw "L0 Bootstrap not initialized. Call initialize() first.",
        L0Bootstrap.new, 0).
Proof.
  pose proof (@getEntity_before_initialize failingRuntime "Alpha"
                (CortexManager.new demoConfig) 0 demoConfig
                [TryRead "Alpha"; TryInitialize; TryWrite "Alpha" entityT1thenT2])
    as (Hstate & Hhistory & Hcatalog).
  split; [apply Hstate; reflexivity|].
  split; [apply Hhistory; vm_compute; reflexivity|].
  apply Hcatalog. reflexivity.
Defined.


(** * Further properties of the sources *)

(** ** File references *)

Section FileReferences.

Lemma isFileChar_underscore : JsString.isFileChar JsString.underscore = true.
Proof. reflexivity. Qed.

Lemma allFileChars_replaceUnsafe (s : string) :
  allFileChars (JsString.replaceUnsafe s) = true.
Proof.
  induction s as [|c s IH]; cbn [JsString.replaceUnsafe allFileChars]; [reflexivity|].
  rewrite IH, andb_true_r.
  destruct (JsString.isFileChar c) eqn:E; [exact E | apply isFileChar_underscore].
Qed.

Lemma collapse_head (s : string) :
  headIsUnderscore (JsString.collapseUnderscores s) = headIsUnderscore s.
Proof.
  induction s as [|c s IH]; [reflexivity|].
  cbn [JsString.collapseUnderscores].
  destruct (Ascii.eqb c JsString.underscore) eqn:Ec.
  - destruct s as [|d s']; [reflexivity|].
    destruct (Ascii.eqb d JsString.underscore) eqn:Ed.
    + rewrite IH. cbn [headIsUnderscore]. now rewrite Ec, Ed.
    + cbn [headIsUnderscore]. reflexivity.
  - cbn [headIsUnderscore]. reflexivity.
Qed.

Lemma allFileChars_collapse (s : string) :
  allFileChars s = true -> allFileChars (JsString.collapseUnderscores s) = true.
Proof.
  induction s as [|c s IH]; [trivial|].
  cbn [allFileChars]. intros Hs. apply andb_true_iff in Hs as [Hc Hs].
  cbn [JsString.collapseUnderscores].
  destruct (Ascii.eqb c JsString.underscore).
  - destruct s as [|d s']; [cbn [allFileChars]; now rewrite Hc|].
    destruct (Ascii.eqb d JsString.underscore); [now apply IH|].
    cbn [allFileChars]. rewrite Hc. now apply IH.
  - cbn [allFileChars]. rewrite Hc. now apply IH.
Qed.

Lemma noDouble_collapse (s : string) :
  noDoubleUnderscore (JsString.collapseUnderscores s) = true.
Proof.
  induction s as [|c s IH]; [reflexivity|].
  cbn [JsString.collapseUnderscores].
  destruct (Ascii.eqb c JsString.underscore) eqn:Ec.
  - destruct s as [|d s']; [cbn; now rewrite Ec|].
    destruct (Ascii.eqb d JsString.underscore) eqn:Ed; [exact IH|].
    cbn [noDoubleUnderscore]. rewrite IH, collapse_head.
    cbn [headIsUnderscore]. now rewrite Ed, andb_false_r.
  - cbn [noDoubleUnderscore]. now rewrite IH, Ec.
Qed.

Lemma allFileChars_dropLast (s : string) :
  allFileChars s = true -> allFileChars (JsString.dropLastUnderscore s) = true.
Proof.
  induction s as [|c s IH]; [trivial|].
  cbn [allFileChars]. intros Hs. apply andb_true_iff in Hs as [Hc Hs].
  cbn [JsString.dropLastUnderscore]. destruct s as [|d s'].
  - destruct (Ascii.eqb c JsString.underscore); cbn [allFileChars];
      [reflexivity | now rewrite Hc].
  - cbn [allFileChars]. rewrite Hc. now apply IH.
Qed.

Lemma dropLast_head (s : string) :
  headIsUnderscore s = false ->
  headIsUnderscore (JsString.dropLastUnderscore s) = false.
Proof.
  destruct s as [|c s]; [trivial|].
  cbn [JsString.dropLastUnderscore headIsUnderscore]. intros Hc.
  destruct s; [now rewrite Hc | exact Hc].
Qed.

Lemma noDouble_dropLast (s : string) :
  noDoubleUnderscore s = true ->
  noDoubleUnderscore (JsString.dropLastUnderscore s) = true.
Proof.
  induction s as [|c s IH]; [trivial|].
  cbn [noDoubleUnderscore]. intros Hs. apply andb_true_iff in Hs as [Hc Hs].
  cbn [JsString.dropLastUnderscore]. destruct s as [|d s'].
  - destruct (Ascii.eqb c JsString.underscore) eqn:Ec; [reflexivity|].
    cbn [noDoubleUnderscore headIsUnderscore]. now rewrite Ec.
  - cbn [noDoubleUnderscore]. rewrite (IH Hs), andb_true_r.
    apply negb_true_iff in Hc. apply negb_true_iff.
    apply andb_false_iff in Hc as [Hc|Hc]; [now rewrite Hc|].
    now rewrite (dropLast_head _ Hc), andb_false_r.
Qed.

Lemma dropLast_last (s : string) :
  noDoubleUnderscore s = true ->
  lastIsUnderscore (JsString.dropLastUnderscore s) = false.
Proof.
  induction s as [|c s IH]; [trivial|].
  cbn [noDoubleUnderscore]. intros Hs. apply andb_true_iff in Hs as [Hc Hs].
  cbn [JsString.dropLastUnderscore]. destruct s as [|d s'].
  - destruct (Ascii.eqb c JsString.underscore) eqn:Ec; cbn [lastIsUnderscore];
      [reflexivity | exact Ec].
  - specialize (IH Hs).
    destruct (JsString.dropLastUnderscore (String d s')) as [|x rest] eqn:Ed.
    + (* the tail was a single underscore: [c] is the new last character *)
      cbn [lastIsUnderscore].
      apply negb_true_iff, andb_false_iff in Hc as [Hc|Hc]; [exact Hc|].
      cbn [JsString.dropLastUnderscore] in Ed. destruct s' as [|y s''].
      * cbn [headIsUnderscore] in Hc. now rewrite Hc in Ed.
      * discriminate Ed.
    + exact IH.
Qed.

(** The sanitized name of any entity name is in normal form. *)
Lemma sanitizedName_pathSafe (entityName : string) :
  pathSafe (sanitizedName entityName) = true.
Proof.
  unfold sanitizedName, pathSafe.
  set (u := JsString.collapseUnderscores
              (JsString.replaceUnsafe (JsString.toLowerCase entityName))).
  assert (Hall : allFileChars u = true)
    by apply allFileChars_collapse, allFileChars_replaceUnsafe.
  assert (Hnd : noDoubleUnderscore u = true) by apply noDouble_collapse.
  clearbody u. unfold JsString.stripEnds.
  destruct u as [|c s]; [reflexivity|].
  cbn [allFileChars noDoubleUnderscore] in Hall, Hnd.
  apply andb_true_iff in Hall as [Hc Hs].
  apply andb_true_iff in Hnd as [Hcd Hnd].
  destruct (Ascii.eqb c JsString.underscore) eqn:Ec.
  - cbn [andb negb] in Hcd. apply negb_true_iff in Hcd.
    rewrite (allFileChars_dropLast _ Hs), (noDouble_dropLast _ Hnd),
      (dropLast_head _ Hcd), (dropLast_last _ Hnd). reflexivity.
  - assert (Hall : allFileChars (String c s) = true)
      by (cbn [allFileChars]; now rewrite Hc, Hs).
    assert (Hnd' : noDoubleUnderscore (String c s) = true)
      by (cbn [noDoubleUnderscore]; now rewrite Ec, Hnd).
    assert (Hh : headIsUnderscore (String c s) = false) by exact Ec.
    rewrite (allFileChars_dropLast _ Hall), (noDouble_dropLast _ Hnd'),
      (dropLast_head _ Hh), (dropLast_last _ Hnd'). reflexivity.
Qed.

(** X1.  Whatever the entity name, the file reference is the base path, a
    slash, a sanitized name and ".json", and the sanitized name is made of
    lower-case letters, digits and underscores only, with no two underscores
    in a row and none at either end. *)
Theorem generateFileReference_pathSafe (s : L1State) (entityName : string) :
  L1Repository.generateFileReference s entityName
  = basePath s +:+ "/" +:+ sanitizedName entityName +:+ ".json"
  /\ pathSafe (sanitizedName entityName) = true.
Proof. split; [reflexivity | apply sanitizedName_pathSafe]. Qed.

End FileReferences.

Section FileReferenceCollisions.

Lemma lowerChar_idem (c : ascii) :
  JsString.lowerChar (JsString.lowerChar c) = JsString.lowerChar c.
Proof. destruct c as [[] [] [] [] [] [] [] []]; reflexivity. Qed.

Lemma toLowerCase_idem (s : string) :
  JsString.toLowerCase (JsString.toLowerCase s) = JsString.toLowerCase s.
Proof.
  induction s as [|c s IH]; cbn [JsString.toLowerCase]; [reflexivity|].
  now rewrite lowerChar_idem, IH.
Qed.

(** X2.  File references ignore the case of letters: an entity name and its
    lower-case form get the same file reference, so two names that differ
    only in case address the same body. *)
Theorem generateFileReference_ignores_case (s : L1State) (entityName : string) :
  L1Repository.generateFileReference s (JsString.toLowerCase entityName)
  = L1Repository.generateFileReference s entityName.
Proof.
  unfold L1Repository.generateFileReference. now rewrite toLowerCase_idem.
Qed.

Lemma fileChar_lower (c : ascii) :
  JsString.isFileChar c = true -> JsString.lowerChar c = c.
Proof.
  destruct c as [[] [] [] [] [] [] [] []]; intros Hc;
    try reflexivity; discriminate Hc.
Qed.

Lemma allFileChars_toLowerCase (s : string) :
  allFileChars s = true -> JsString.toLowerCase s = s.
Proof.
  induction s as [|c s IH]; [trivial|].
  cbn [allFileChars JsString.toLowerCase]. intros Hs.
  apply andb_true_iff in Hs as [Hc Hs].
  now rewrite (fileChar_lower _ Hc), (IH Hs).
Qed.

Lemma allFileChars_replaceUnsafe_id (s : string) :
  allFileChars s = true -> JsString.replaceUnsafe s = s.
Proof.
  induction s as [|c s IH]; [trivial|].
  cbn [allFileChars JsString.replaceUnsafe]. intros Hs.
  apply andb_true_iff in Hs as [Hc Hs].
  now rewrite Hc, (IH Hs).
Qed.

Lemma noDouble_collapse_id (s : string) :
  noDoubleUnderscore s = true -> JsString.collapseUnderscores s = s.
Proof.
  induction s as [|c s IH]; [trivial|].
  cbn [noDoubleUnderscore]. intros Hs. apply andb_true_iff in Hs as [Hc Hs].
  cbn [JsString.collapseUnderscores]. rewrite (IH Hs).
  destruct (Ascii.eqb c JsString.underscore); [|reflexivity].
  destruct s as [|d s']; [reflexivity|].
  cbn [headIsUnderscore andb] in Hc. apply negb_true_iff in Hc.
  now rewrite Hc.
Qed.

Lemma dropLast_id (s : string) :
  lastIsUnderscore s = false -> JsString.dropLastUnderscore s = s.
Proof.
  induction s as [|c s IH]; [trivial|].
  cbn [lastIsUnderscore JsString.dropLastUnderscore]. destruct s as [|d s'].
  - intros Hc. now rewrite Hc.
  - intros Hs. now rewrite (IH Hs).
Qed.

Lemma sanitizedName_normal (entityName : string) :
  pathSafe entityName = true -> sanitizedName entityName = entityName.
Proof.
  unfold pathSafe, sanitizedName. intros Hs.
  apply andb_true_iff in Hs as [Hs Hlast].
  apply andb_true_iff in Hs as [Hs Hhead].
  apply andb_true_iff in Hs as [Hall Hnd].
  apply negb_true_iff in Hlast, Hhead.
  rewrite (allFileChars_toLowerCase _ Hall), (allFileChars_replaceUnsafe_id _ Hall),
    (noDouble_collapse_id _ Hnd).
  unfold JsString.stripEnds. destruct entityName as [|c s]; [reflexivity|].
  cbn [headIsUnderscore] in Hhead. rewrite Hhead. now apply dropLast_id.
Qed.

(** X3.  A name already in normal form (lower-case letters, digits and single
    underscores, none leading or trailing) is its own sanitized name: its
    file reference is the base path, a slash, the name itself and ".json".
    Hence sanitizing twice is sanitizing once. *)
Theorem generateFileReference_normal_form (s : L1State) (entityName : string) :
  (pathSafe entityName = true ->
   L1Repository.generateFileReference s entityName
   = basePath s +:+ "/" +:+ entityName +:+ ".json")
  /\ sanitizedName (sanitizedName entityName) = sanitizedName entityName.
Proof.
  split.
  - intros Hs. unfold L1Repository.generateFileReference.
    fold (sanitizedName entityName). now rewrite (sanitizedName_normal _ Hs).
  - apply sanitizedName_normal, sanitizedName_pathSafe.
Qed.

Lemma length_append (a b : string) :
  String.length (a +:+ b) = String.length a + String.length b.
Proof. induction a as [|c a IH]; simpl; [reflexivity | now f_equal]. Qed.

Lemma append_cancel_l (s a b : string) : s +:+ a = s +:+ b -> a = b.
Proof.
  induction s as [|c s IH]; cbn; [trivial|].
  intros Heq. injection Heq as Heq. auto.
Qed.

Lemma append_cancel_r (t a b : string) : a +:+ t = b +:+ t -> a = b.
Proof.
  revert b. induction a as [|c a IH]; intros [|d b] Heq; cbn in Heq.
  - reflexivity.
  - apply (f_equal String.length) in Heq.
    rewrite !length_append in Heq. cbn in Heq. lia.
  - apply (f_equal String.length) in Heq.
    rewrite !length_append in Heq. cbn in Heq. lia.
  - injection Heq as -> Heq. f_equal. auto.
Qed.

(** X4.  Among names in normal form the file reference is injective: two
    different such names never get the same file reference. *)
Theorem generateFileReference_injective (s : L1State) (a b : string) :
  pathSafe a = true -> pathSafe b = true -> a <> b ->
  L1Repository.generateFileReference s a <> L1Repository.generateFileReference s b.
Proof.
  intros Ha Hb Hne. unfold L1Repository.generateFileReference.
  fold (sanitizedName a). fold (sanitizedName b).
  rewrite (sanitizedName_normal _ Ha), (sanitizedName_normal _ Hb).
  intros Heq. apply Hne.
  apply append_cancel_l, append_cancel_l in Heq.
  now apply append_cancel_r in Heq.
Qed.

End FileReferenceCollisions.

Lemma generateFileReference_normal_form_witness :
  L1Repository.generateFileReference (L1Repository.new None None) "alpha_2"
  = "cortex/entities/alpha_2.json".
Proof.
  apply (proj1 (generateFileReference_normal_form
                  (L1Repository.new None None) "alpha_2")).
  reflexivity.
Defined.

Lemma generateFileReference_injective_witness :
  L1Repository.generateFileReference (L1Repository.new None None) "alpha_2"
  <> L1Repository.generateFileReference (L1Repository.new None None) "alpha_3".
Proof.
  apply (generateFileReference_injective (L1Repository.new None None)
           "alpha_2" "alpha_3"); [reflexivity | reflexivity | discriminate].
Defined.

(** ** Backing store client: fetch, persist and the client's cache *)

Section ClientCache.
Context `{Runtime}.

Lemma loadedEntity_valid (fileReference : string) (n : nat) :
  validShape (loadedEntity fileReference n)
  = negb (String.eqb (loadedName fileReference) "").
Proof.
  unfold validShape, loadedEntity. cbn [name entityType observations].
  now destruct (loadedName fileReference).
Qed.

(** The outcome of a fetch that has to read the repository. *)
Lemma getEntity_fetch (fileReference : string) (s : L1State) (n : nat) :
  connected s = true ->
  entityCache s !! fileReference = None ->
  L1Repository.getEntity fileReference s n
  = if String.eqb (loadedName fileReference) ""
    then (Throw "Failed to load entity from L1: Entity must have a valid name",
          L1Repository.with_connectionMetrics
            (L1Repository.updateMetrics (clock (n + 3) - clock n) false)
            (L1Repository.with_connectionMetrics L1Repository.countRequest s),
          n + 4)
    else (Ok (loadedEntity fileReference (n + 1)),
          L1Repository.with_connectionMetrics
            (L1Repository.updateMetrics (clock (n + 3) - clock n) true)
            (L1Repository.with_entityCache
               (insert fileReference (loadedEntity fileReference (n + 1)))
               (L1Repository.with_connectionMetrics L1Repository.countRequest s)),
          n + 4).
Proof.
  intros Hc He. unfold L1Repository.getEntity, loadedEntity.
  unfold L1Repository.loadEntityFromRepository, L1Repository.validateEntitySchema.
  fold (loadedName fileReference).
  js_unfold. rewrite Hc. cbn. rewrite He. cbn.
  replace (n + 1 + 1 + 1) with (n + 3) by lia.
  replace (n + 1 + 1) with (n + 2) by lia.
  destruct (loadedName fileReference) as [|c rest]; cbn [String.eqb];
    (f_equal; lia).
Qed.


(** X6.  A persist of an entity that fails the shape check throws
    "Failed to store entity in L1: " followed by the message of the first
    check that failed; the client's cache is left as it was and the request
    is counted once, as a failure. *)
Theorem storeEntity_rejects_invalid (entityName : string) (e : Entity)
    (s : L1State) (n : nat) :
  connected s = true -> validShape e = false ->
  let out := L1Repository.storeEntity entityName e s n in
  result out = Throw ("Failed to store entity in L1: " +:+ shapeError e)
  /\ entityCache (state out) = entityCache s
  /\ totalRequests (connectionMetrics (state out))
     = totalRequests (connectionMetrics s) + 1
  /\ failedRequests (connectionMetrics (state out))
     = failedRequests (connectionMetrics s) + 1
  /\ successfulRequests (connectionMetrics (state out))
     = successfulRequests (connectionMetrics s).
Proof.
  intros Hc Hv. cbv zeta. rewrite (storeEntity_invalid _ _ _ _ Hc Hv).
  unfold result, state. cbn. auto.
Qed.


(** X8.  A fetch that has to read the repository (connected client, reference
    not in the client's cache) succeeds exactly when the last path segment of
    the reference, ".json" removed, is not empty.  On success the entity is
    named by that segment, has a valid shape and is put in the client's
    cache under the reference; on failure nothing is cached.  Either way the
    request is classified once. *)
Theorem getEntity_reads_repository (fileReference : string) (s : L1State) (n : nat) :
  connected s = true ->
  entityCache s !! fileReference = None ->
  let out := L1Repository.getEntity fileReference s n in
  match result out with
  | Ok e =>
      loadedName fileReference <> ""
      /\ name e = Some (loadedName fileReference)
      /\ validShape e = true
      /\ entityCache (state out) = <[fileReference := e]> (entityCache s)
      /\ successfulRequests (connectionMetrics (state out))
         = successfulRequests (connectionMetrics s) + 1
  | Throw message =>
      loadedName fileReference = ""
      /\ message = "Failed to load entity from L1: Entity must have a valid name"
      /\ entityCache (state out) = entityCache s
      /\ failedRequests (connectionMetrics (state out))
         = failedRequests (connectionMetrics s) + 1
  end.
Proof.
  intros Hc He. cbv zeta. rewrite (getEntity_fetch _ _ _ Hc He).
  destruct (String.eqb_spec (loadedName fileReference) "") as [Hn|Hn];
    unfold result, state; cbn [fst snd].
  - cbn. auto.
  - split; [exact Hn|]. split; [reflexivity|].
    split; [rewrite loadedEntity_valid; now apply negb_true_iff, String.eqb_neq|].
    cbn. auto.
Qed.

(** X9.  At most one load per reference.  When a fetch of a reference
    succeeds, whether it was served by the cache or read from the repository,
    a second fetch of the same reference returns the same entity, is served by
    the client's cache and only adds one to [totalRequests]. *)
Theorem getEntity_twice (fileReference : string) (e : Entity) (s : L1State) (n : nat) :
  result (L1Repository.getEntity fileReference s n) = Ok e ->
  let first := L1Repository.getEntity fileReference s n in
  L1Repository.getEntity fileReference (state first) (readings first)
  = (Ok e,
     L1Repository.with_connectionMetrics L1Repository.countRequest (state first),
     readings first + 1).
Proof.
  cbv zeta. destruct (connected s) eqn:Hc;
    [|rewrite (getEntity_disconnected _ _ _ Hc); discriminate].
  destruct (entityCache s !! fileReference) as [e0|] eqn:He.
  - rewrite (getEntity_cached _ e0 _ _ Hc He).
    unfold result, state, readings. cbn [fst snd].
    intros Heq. injection Heq as ->.
    now apply getEntity_cached.
  - rewrite (getEntity_fetch _ _ _ Hc He).
    destruct (String.eqb (loadedName fileReference) ""); [discriminate|].
    unfold result, state, readings. cbn [fst snd].
    intros Heq. injection Heq as <-.
    apply getEntity_cached; [exact Hc|]. cbn. apply lookup_insert_eq.
Qed.

End ClientCache.

Section ClientInvariants.
Context `{Runtime}.

Lemma connect_cache (s : L1State) (n : nat) :
  entityCache (state (L1Repository.connect s n)) = entityCache s.
Proof. reflexivity. Qed.

(** What one call may do to the client's cache: leave it, or put a valid
    entity under one reference. *)
Lemma l1Call_cache (c : L1Call) (s : L1State) (n : nat) :
  entityCache (fst (l1Call c (s, n))) = entityCache s
  \/ exists fileReference e,
       validShape e = true
       /\ entityCache (fst (l1Call c (s, n))) = <[fileReference := e]> (entityCache s).
Proof.
  destruct c as [|fileReference|entityName e]; unfold l1Call, forget; cbn [fst snd].
  - left. apply connect_cache.
  - destruct (connected s) eqn:Hc;
      [|left; now rewrite (getEntity_disconnected _ _ _ Hc)].
    destruct (entityCache s !! fileReference) as [e|] eqn:He;
      [left; now rewrite (getEntity_cached _ e _ _ Hc He)|].
    rewrite (getEntity_fetch _ _ _ Hc He).
    destruct (String.eqb (loadedName fileReference) "") eqn:E; [now left|].
    right. exists fileReference, (loadedEntity fileReference (n + 1)).
    split; [|reflexivity]. rewrite loadedEntity_valid. now rewrite E.
  - destruct (connected s) eqn:Hc;
      [|left; now rewrite (storeEntity_disconnected _ _ _ _ Hc)].
    destruct (validShape e) eqn:Hv;
      [|left; now rewrite (storeEntity_invalid _ _ _ _ Hc Hv)].
    destruct (storeEntity_valid entityName e s n Hc Hv) as (stored & _ & ->).
    right. exists (L1Repository.generateFileReference s entityName), e.
    split; [exact Hv | reflexivity].
Qed.

Lemma allValid_insert (cache : gmap string Entity) (fileReference : string) (e : Entity) :
  allValid cache -> validShape e = true -> allValid (<[fileReference := e]> cache).
Proof.
  intros Hall Hv r e' Hr. destruct (decide (fileReference = r)) as [->|Hne].
  - rewrite lookup_insert_eq in Hr. now injection Hr as <-.
  - rewrite lookup_insert_ne in Hr by exact Hne. eauto.
Qed.

Lemma l1Calls_allValid (cs : list L1Call) (sn : L1State * nat) :
  allValid (entityCache (fst sn)) ->
  allValid (entityCache (fst (l1Calls cs sn))).
Proof.
  revert sn. induction cs as [|c cs IH]; intros [s n] Hall;
    cbn [l1Calls fold_left]; [exact Hall|].
  fold (l1Calls cs (l1Call c (s, n))). apply IH.
  destruct (l1Call_cache c s n) as [->|(r & e & Hv & ->)];
    [exact Hall | now apply allValid_insert].
Qed.

Lemma getEntity_valid (fileReference : string) (e : Entity) (s : L1State) (n : nat) :
  allValid (entityCache s) ->
  result (L1Repository.getEntity fileReference s n) = Ok e ->
  validShape e = true.
Proof.
  intros Hall. destruct (connected s) eqn:Hc;
    [|rewrite (getEntity_disconnected _ _ _ Hc); discriminate].
  destruct (entityCache s !! fileReference) as [e0|] eqn:He.
  - rewrite (getEntity_cached _ e0 _ _ Hc He). unfold result. cbn [fst].
    intros Heq. injection Heq as <-. eauto.
  - rewrite (getEntity_fetch _ _ _ Hc He).
    destruct (String.eqb (loadedName fileReference) "") eqn:E; [discriminate|].
    unfold result. cbn [fst]. intros Heq. injection Heq as <-.
    rewrite loadedEntity_valid. now rewrite E.
Qed.

(** X10.  Whatever calls a freshly constructed client has served, every
    entity in its cache has the minimal shape (a non-empty name, a non-empty
    entity type, an observations array), and so has every entity that a fetch
    returns. *)
Theorem client_serves_valid_entities (basePath compression : option string)
    (cs : list L1Call) (start : nat) (fileReference : string) (e : Entity) (n : nat) :
  let s := fst (l1Calls cs (L1Repository.new basePath compression, start)) in
  (entityCache s !! fileReference = Some e -> validShape e = true)
  /\ (result (L1Repository.getEntity fileReference s n) = Ok e ->
      validShape e = true).
Proof.
  cbv zeta.
  assert (Hall : allValid (entityCache
            (fst (l1Calls cs (L1Repository.new basePath compression, start))))).
  { apply l1Calls_allValid. intros r e' Hr. cbn in Hr.
    rewrite lookup_empty in Hr. discriminate. }
  split; [apply Hall | now apply getEntity_valid].
Qed.

(** X11.  The client's cache never drops a reference: a reference it holds
    is still held after any sequence of calls. *)
Theorem client_cache_never_evicts (cs : list L1Call) (s : L1State) (n : nat)
    (fileReference : string) :
  is_Some (entityCache s !! fileReference) ->
  is_Some (entityCache (fst (l1Calls cs (s, n))) !! fileReference).
Proof.
  revert s n. induction cs as [|c cs IH]; intros s n Hs;
    cbn [l1Calls fold_left]; [exact Hs|].
  fold (l1Calls cs (l1Call c (s, n))).
  destruct (l1Call c (s, n)) as [s1 n1] eqn:Hcall. apply IH.
  pose proof (l1Call_cache c s n) as Hstep. rewrite Hcall in Hstep.
  cbn [fst] in Hstep.
  destruct Hstep as [->|(r & e & _ & ->)]; [exact Hs|].
  destruct (decide (r = fileReference)) as [->|Hne].
  - rewrite lookup_insert_eq. now eexists.
  - now rewrite lookup_insert_ne.
Qed.

End ClientInvariants.

(** ** Reference catalog and access tracker: further properties *)

Section CatalogCalls.
Context `{Runtime}.

(** The outcome of [createLightweightReference] on an initialized catalog. *)
Lemma createLightweightReference_outcome (entityName : string) (e : Entity)
    (locator : string) (s : L0State) (n : nat) :
  l0_initialized s = true ->
  L0Bootstrap.createLightweightReference entityName e locator s n
  = (Ok (createdReference entityName e locator n),
     L0Bootstrap.with_metrics
       (fun m => {| entitiesTransferred := entitiesTransferred m + 1;
                    m_accessCount := m_accessCount m |})
       (L0Bootstrap.with_references
          (insert entityName (createdReference entityName e locator n)) s),
     n + 3).
Proof.
  intros Hi. unfold L0Bootstrap.createLightweightReference, createdReference.
  unfold bind at 1, read at 1. rewrite Hi. cbn [negb].
  js_unfold. cbn beta iota.
  replace (n + 1 + 1 + 1) with (n + 3) by lia.
  replace (n + 1 + 1) with (n + 2) by lia.
  reflexivity.
Qed.

(** The state after [initialize]: the sample reference is written anew and
    the flag is set. *)
Lemma initialize_state (s : L0State) (n : nat) :
  exists sample,
    accessCount sample = 0
    /\ state (L0Bootstrap.initialize s n)
       = L0Bootstrap.with_initialized true
           (L0Bootstrap.with_references
              (insert "Cortex_Access_Protocol_v3_0" sample) s).
Proof.
  unfold L0Bootstrap.initialize, L0Bootstrap.loadLightweightReferences,
    L0Bootstrap.initializeAccessPatterns, L0Bootstrap.calculateMetrics.
  cbn [L0Bootstrap.sampleReferences L0Bootstrap.forEachSample].
  js_unfold. cbn. eexists. split; [|reflexivity]. reflexivity.
Qed.

(** X12.  Round trip through the catalog.  A reference created for an entity
    under a name is what a lookup of the name issued next returns: the given
    locator, the summary, priority, size and quality tag derived from the
    entity, and an access count of one, for this first lookup. *)
Theorem createLightweightReference_lookup (entityName : string) (e : Entity)
    (locator : string) (s : L0State) (n : nat) :
  l0_initialized s = true ->
  let made := L0Bootstrap.createLightweightReference entityName e locator s n in
  exists v,
    result (L0Bootstrap.getLightweightReference entityName (state made) (readings made))
    = Ok (Some v)
    /\ v_entityName v = entityName
    /\ v_fileReference v = locator
    /\ v_summary v = L0Bootstrap.generateSummary e
    /\ v_priority v = L0Bootstrap.calculatePriority e
    /\ v_size v = L0Bootstrap.calculateSize e
    /\ v_evidenceQuality v = L0Bootstrap.extractEvidenceQuality e
    /\ v_accessCount v = 1.
Proof.
  intros Hi. cbv zeta.
  rewrite (createLightweightReference_outcome _ _ _ _ _ Hi).
  unfold state at 1, readings at 1. cbn [fst snd].
  rewrite (getLightweightReference_present entityName
             (createdReference entityName e locator n)).
  - eexists. unfold result. cbn [fst]. split; [reflexivity|].
    cbn. auto 10.
  - exact Hi.
  - cbn. apply lookup_insert_eq.
Qed.

(** X13.  A lookup of a name that the catalog does not hold returns null and
    leaves the references as they were, and yet is recorded by the access
    tracker: the count kept for the name goes up by one and one more access
    is counted in the metrics. *)
Theorem getLightweightReference_unknown_is_tracked (entityName : string)
    (s : L0State) (n : nat) :
  l0_initialized s = true ->
  lightweightReferences s !! entityName = None ->
  let out := L0Bootstrap.getLightweightReference entityName s n in
  result out = Ok None
  /\ lightweightReferences (state out) = lightweightReferences s
  /\ trackedCount (state out) entityName = trackedCount s entityName + 1
  /\ m_accessCount (metrics (state out)) = m_accessCount (metrics s) + 1.
Proof.
  intros Hi Hr. cbv zeta.
  rewrite (getLightweightReference_absent _ _ _ Hi Hr).
  destruct (recordAccess_state entityName s n) as [_ Hs].
  rewrite Hs. unfold result, state, trackedCount. cbn.
  rewrite lookup_insert_eq. auto.
Qed.

End CatalogCalls.

Section CatalogInvariants.
Context `{Runtime}.

Lemma sumCounts_from (patterns : list AccessRecord) (a : nat) :
  fold_left (fun sum p => sum + count p) patterns a
  = a + sum_list_with count patterns.
Proof.
  revert a. induction patterns as [|p patterns IH]; intros a; cbn; [lia|].
  rewrite IH. lia.
Qed.

Lemma totalAccesses_trackedTotal (s : L0State) :
  L0Bootstrap.totalAccesses (L0Bootstrap.getAccessPatternStats s)
  = trackedTotal (accessPatterns s).
Proof.
  unfold L0Bootstrap.getAccessPatternStats, L0Bootstrap.sumCounts,
    L0Bootstrap.patternValues, trackedTotal.
  cbn [L0Bootstrap.totalAccesses]. now rewrite sumCounts_from.
Qed.

Lemma trackedTotal_fresh (patterns : gmap string AccessRecord)
    (entityName : string) (rec : AccessRecord) :
  patterns !! entityName = None ->
  trackedTotal (<[entityName := rec]> patterns) = count rec + trackedTotal patterns.
Proof.
  intros Hnone. unfold trackedTotal.
  rewrite (map_to_list_insert patterns entityName rec Hnone). reflexivity.
Qed.

(** Writing a record over a name changes the total by the difference of the
    counts. *)
Lemma trackedTotal_insert (patterns : gmap string AccessRecord)
    (entityName : string) (rec : AccessRecord) :
  trackedTotal (<[entityName := rec]> patterns)
  + from_option count 0 (patterns !! entityName)
  = trackedTotal patterns + count rec.
Proof.
  destruct (patterns !! entityName) as [old|] eqn:Hold; cbn [from_option].
  - rewrite <- (insert_delete_eq patterns entityName rec).
    rewrite <- (insert_delete_id patterns entityName old Hold) at 2.
    rewrite !trackedTotal_fresh by apply lookup_delete_eq. lia.
  - rewrite (trackedTotal_fresh _ _ _ Hold). lia.
Qed.

Lemma trackedCount_insert (s : L0State) (entityName k : string) (rec : AccessRecord) :
  count rec = trackedCount s entityName + 1 ->
  trackedCount (L0Bootstrap.with_accessPatterns (insert entityName rec) s) k
  = if decide (entityName = k) then trackedCount s k + 1 else trackedCount s k.
Proof.
  intros Hc. unfold trackedCount. cbn [L0Bootstrap.with_accessPatterns accessPatterns].
  destruct (decide (entityName = k)) as [->|Hne].
  - rewrite lookup_insert_eq. cbn. exact Hc.
  - now rewrite lookup_insert_ne.
Qed.

(** [recordAccess] keeps the catalog and its tracker in step. *)
Lemma recordAccess_inStep (entityName : string) (s : L0State) (n : nat) :
  inStep s ->
  inStep (state (L0Bootstrap.recordAccess entityName s n))
  /\ trackedCount (state (L0Bootstrap.recordAccess entityName s n)) entityName
     = trackedCount s entityName + 1.
Proof.
  intros [Htotal Hrefs].
  destruct (recordAccess_state entityName s n) as [_ ->].
  set (rec := {| count := trackedCount s entityName + 1;
                 lastAccess := Some (clock n);
                 frequency := _ |}).
  assert (Hcount : forall k,
            trackedCount
              (L0Bootstrap.with_metrics
                 (fun m => {| entitiesTransferred := entitiesTransferred m;
                              m_accessCount := m_accessCount m + 1 |})
                 (L0Bootstrap.with_accessPatterns (insert entityName rec) s)) k
            = if decide (entityName = k) then trackedCount s k + 1
              else trackedCount s k).
  { intros k. apply (trackedCount_insert s entityName k rec). reflexivity. }
  split; [split|].
  - cbn. pose proof (trackedTotal_insert (accessPatterns s) entityName rec) as Hsum.
    fold (trackedCount s entityName) in Hsum.
    change (count rec) with (trackedCount s entityName + 1) in Hsum. lia.
  - intros k r Hr. cbn in Hr. specialize (Hrefs k r Hr).
    rewrite Hcount. destruct (decide (entityName = k)); lia.
  - rewrite Hcount. now rewrite decide_True.
Qed.

Lemma inStep_insert (s : L0State) (entityName : string) (r : LightweightRef) :
  inStep s -> accessCount r <= trackedCount s entityName ->
  inStep (L0Bootstrap.with_references (insert entityName r) s).
Proof.
  intros [Htotal Hrefs] Hr. split; [exact Htotal|].
  intros k r' Hk. cbn in Hk. unfold trackedCount. cbn.
  fold (trackedCount s k).
  destruct (decide (entityName = k)) as [->|Hne].
  - rewrite lookup_insert_eq in Hk. injection Hk as <-. exact Hr.
  - rewrite lookup_insert_ne in Hk by exact Hne. eauto.
Qed.

Lemma l0Call_inStep (c : L0Call) (s : L0State) (n : nat) :
  inStep s -> inStep (fst (l0Call c (s, n))).
Proof.
  intros Hin. destruct c as [|entityName|entityName e locator|entityName];
    unfold l0Call, forget; cbn [fst snd].
  - destruct (initialize_state s n) as (sample & Hzero & ->).
    destruct (inStep_insert s "Cortex_Access_Protocol_v3_0" sample Hin)
      as [Ht Hr]; [lia|].
    split; [exact Ht | exact Hr].
  - destruct (l0_initialized s) eqn:Hi;
      [|now rewrite (getLightweightReference_uninitialized _ _ _ Hi)].
    destruct (recordAccess_inStep entityName s n Hin) as [Hin' Hcount].
    destruct (recordAccess_frame entityName s n) as (_ & Hrefs & _).
    destruct (lightweightReferences s !! entityName) as [r|] eqn:Hr.
    + rewrite (getLightweightReference_present _ r _ _ Hi Hr). cbv zeta.
      unfold state at 1. cbn [fst snd].
      apply inStep_insert; [exact Hin'|].
      cbn [L0Bootstrap.touch accessCount]. rewrite Hcount.
      destruct Hin as [_ Hle]. specialize (Hle _ _ Hr). lia.
    + rewrite (getLightweightReference_absent _ _ _ Hi Hr).
      unfold state at 1. cbn [fst snd]. exact Hin'.
  - destruct (l0_initialized s) eqn:Hi;
      [|now rewrite (createLightweightReference_uninitialized _ _ _ _ _ Hi)].
    rewrite (createLightweightReference_outcome _ _ _ _ _ Hi).
    unfold state. cbn [fst snd].
    destruct (inStep_insert s entityName (createdReference entityName e locator n) Hin)
      as [Ht Hr]; [cbn; lia|].
    split; [exact Ht | exact Hr].
  - now apply recordAccess_inStep.
Qed.

Lemma l0Calls_inStep (cs : list L0Call) (sn : L0State * nat) :
  inStep (fst sn) -> inStep (fst (l0Calls cs sn)).
Proof.
  revert sn. induction cs as [|c cs IH]; intros [s n] Hin;
    cbn [l0Calls fold_left]; [exact Hin|].
  fold (l0Calls cs (l0Call c (s, n))). apply IH.
  destruct (l0Call c (s, n)) as [s1 n1] eqn:Hcall.
  pose proof (l0Call_inStep c s n Hin) as Hstep. now rewrite Hcall in Hstep.
Qed.

Lemma new_inStep : inStep L0Bootstrap.new.
Proof.
  split; [reflexivity|]. intros k r Hr. cbn in Hr.
  rewrite lookup_empty in Hr. discriminate.
Qed.

(** X14.  Whatever calls a freshly constructed catalog has served
    (initialize, lookups, creations, recorded accesses), the total of
    accesses that [getAccessPatternStats] reports, the sum of the counts of
    all tracked names, equals the access count of the metrics; and the
    number of unique entities it reports is the number of tracked names. *)
Theorem tracker_total_matches_metrics (cs : list L0Call) (start : nat) :
  let s := fst (l0Calls cs (L0Bootstrap.new, start)) in
  L0Bootstrap.totalAccesses (L0Bootstrap.getAccessPatternStats s)
  = m_accessCount (metrics s)
  /\ L0Bootstrap.uniqueEntities (L0Bootstrap.getAccessPatternStats s)
     = size (accessPatterns s).
Proof.
  cbv zeta. split.
  - rewrite totalAccesses_trackedTotal.
    apply (l0Calls_inStep cs (L0Bootstrap.new, start)), new_inStep.
  - unfold L0Bootstrap.getAccessPatternStats, L0Bootstrap.patternValues.
    cbn [L0Bootstrap.uniqueEntities]. rewrite length_map.
    apply length_map_to_list.
Qed.

(** X15.  Whatever calls a freshly constructed catalog has served, the
    access count of a reference never exceeds the count that the access
    tracker keeps for its name: creating a reference anew resets the former
    and not the latter. *)
Theorem reference_accessCount_bounded (cs : list L0Call) (start : nat)
    (entityName : string) (r : LightweightRef) :
  let s := fst (l0Calls cs (L0Bootstrap.new, start)) in
  lightweightReferences s !! entityName = Some r ->
  accessCount r <= trackedCount s entityName.
Proof.
  cbv zeta.
  destruct (l0Calls_inStep cs (L0Bootstrap.new, start) new_inStep) as [_ Hrefs].
  apply Hrefs.
Qed.

End CatalogInvariants.

Section CatalogContents.
Context `{Runtime}.

(** What one call may do to the references: leave them, or write one. *)
Lemma l0Call_references (c : L0Call) (s : L0State) (n : nat) :
  lightweightReferences (fst (l0Call c (s, n))) = lightweightReferences s
  \/ exists entityName r,
       lightweightReferences (fst (l0Call c (s, n)))
       = <[entityName := r]> (lightweightReferences s).
Proof.
  destruct c as [|entityName|entityName e locator|entityName];
    unfold l0Call, forget; cbn [fst snd].
  - destruct (initialize_state s n) as (sample & _ & ->). right. now eexists _, _.
  - destruct (l0_initialized s) eqn:Hi;
      [|left; now rewrite (getLightweightReference_uninitialized _ _ _ Hi)].
    destruct (recordAccess_frame entityName s n) as (_ & Hrefs & _).
    destruct (lightweightReferences s !! entityName) as [r|] eqn:Hr.
    + rewrite (getLightweightReference_present _ r _ _ Hi Hr). cbv zeta.
      right. exists entityName. eexists.
      unfold state at 1. cbn [fst snd L0Bootstrap.with_references
        lightweightReferences]. now rewrite Hrefs.
    + rewrite (getLightweightReference_absent _ _ _ Hi Hr). left. exact Hrefs.
  - destruct (l0_initialized s) eqn:Hi;
      [|left; now rewrite (createLightweightReference_uninitialized _ _ _ _ _ Hi)].
    rewrite (createLightweightReference_outcome _ _ _ _ _ Hi).
    right. now eexists _, _.
  - left. now destruct (recordAccess_frame entityName s n) as (_ & Hrefs & _).
Qed.

(** X16.  The catalog never drops a reference: a name it holds is still held
    after any sequence of calls (initialize, lookups, creations, recorded
    accesses), so the number of references never goes down. *)
Theorem catalog_never_drops (cs : list L0Call) (s : L0State) (n : nat)
    (entityName : string) :
  is_Some (lightweightReferences s !! entityName) ->
  is_Some (lightweightReferences (fst (l0Calls cs (s, n))) !! entityName).
Proof.
  revert s n. induction cs as [|c cs IH]; intros s n Hs;
    cbn [l0Calls fold_left]; [exact Hs|].
  fold (l0Calls cs (l0Call c (s, n))).
  destruct (l0Call c (s, n)) as [s1 n1] eqn:Hcall. apply IH.
  pose proof (l0Call_references c s n) as Hstep. rewrite Hcall in Hstep.
  cbn [fst] in Hstep.
  destruct Hstep as [->|(k & r & ->)]; [exact Hs|].
  destruct (decide (k = entityName)) as [->|Hne].
  - rewrite lookup_insert_eq. now eexists.
  - now rewrite lookup_insert_ne.
Qed.

Lemma substring0_length (n : nat) (s : string) :
  String.length (JsString.substring0 n s) = Nat.min n (String.length s).
Proof.
  unfold JsString.substring0. revert s.
  induction n as [|n IH]; intros [|c s]; simpl; try reflexivity.
  f_equal. apply IH.
Qed.

Lemma substring0_short (n : nat) (s : string) :
  String.length s <= n -> JsString.substring0 n s = s.
Proof.
  unfold JsString.substring0. revert s.
  induction n as [|n IH]; intros [|c s]; simpl; try reflexivity; try lia.
  intros Hs. rewrite IH; [reflexivity | lia].
Qed.

Lemma asciiText_append (a b : string) :
  asciiText a = true -> asciiText b = true -> asciiText (a +:+ b) = true.
Proof.
  intros Ha Hb. induction a as [|c a IH]; [exact Hb|].
  change (asciiChar c && asciiText (a +:+ b) = true).
  cbn [asciiText] in Ha. apply andb_true_iff in Ha as [Hc Ha].
  rewrite Hc. cbn [andb]. now apply IH.
Qed.

Lemma asciiText_substring0 (n : nat) (s : string) :
  asciiText s = true -> asciiText (JsString.substring0 n s) = true.
Proof.
  unfold JsString.substring0. revert s.
  induction n as [|n IH]; intros [|c s] Hs; cbn [String.substring asciiText];
    try reflexivity.
  cbn [asciiText] in Hs. apply andb_true_iff in Hs as [Hc Hs].
  rewrite Hc. cbn [andb]. now apply IH.
Qed.

(** X17.  On ASCII text, where a character of the model is a UTF-16 code
    unit of the source, the summary of an entity with a first observation is
    that observation when it has at most 100 characters, and otherwise its
    first 100 characters followed by "...": 103 characters, never more.  The
    summary is ASCII text as well, so that its length here is its length in
    the source. *)
Theorem generateSummary_bounds (e : Entity) (firstObs : string) (rest : list string) :
  observations e = Some (firstObs :: rest) ->
  asciiText firstObs = true ->
  asciiText (L0Bootstrap.generateSummary e) = true
  /\ String.length (L0Bootstrap.generateSummary e) <= 103
  /\ (String.length firstObs <= 100 -> L0Bootstrap.generateSummary e = firstObs)
  /\ (100 < String.length firstObs ->
      L0Bootstrap.generateSummary e = JsString.substring0 100 firstObs +:+ "..."
      /\ String.length (L0Bootstrap.generateSummary e) = 103).
Proof.
  intros Hobs Hascii. unfold L0Bootstrap.generateSummary. rewrite Hobs.
  split.
  { apply asciiText_append; [now apply asciiText_substring0|].
    now destruct (100 <? String.length firstObs)%nat. }
  destruct (Nat.ltb_spec 100 (String.length firstObs)) as [Hlong|Hshort].
  - rewrite length_append, substring0_length. cbn [String.length].
    split; [lia|]. split; [intros; lia|]. intros _. split; [reflexivity | lia].
  - rewrite (substring0_short _ _ Hshort).
    assert (Heq : firstObs +:+ "" = firstObs).
    { clear. induction firstObs as [|c s IH]; [reflexivity|].
      change (String c (s +:+ "") = String c s). now f_equal. }
    rewrite Heq. split; [lia|]. split; [reflexivity | intros; lia].
Qed.

End CatalogContents.

(** ** Tiered orchestrator: further properties *)

Section RepeatedReads.
Context `{Runtime}.

(** After a fetch that succeeded, any later fetch of the same reference is
    served by the client's cache with the same entity. *)
Lemma getEntity_again (fileReference : string) (e : Entity) (s : L1State) (n n' : nat) :
  result (L1Repository.getEntity fileReference s n) = Ok e ->
  L1Repository.getEntity fileReference
    (state (L1Repository.getEntity fileReference s n)) n'
  = (Ok e,
     L1Repository.with_connectionMetrics L1Repository.countRequest
       (state (L1Repository.getEntity fileReference s n)),
     n' + 1).
Proof.
  destruct (connected s) eqn:Hc;
    [|rewrite (getEntity_disconnected _ _ _ Hc); discriminate].
  destruct (entityCache s !! fileReference) as [e0|] eqn:He.
  - rewrite (getEntity_cached _ e0 _ _ Hc He).
    unfold result, state. cbn [fst snd].
    intros Heq. injection Heq as ->.
    now apply getEntity_cached.
  - rewrite (getEntity_fetch _ _ _ Hc He).
    destruct (String.eqb (loadedName fileReference) ""); [discriminate|].
    unfold result, state. cbn [fst snd].
    intros Heq. injection Heq as <-.
    apply getEntity_cached; [exact Hc|]. cbn. apply lookup_insert_eq.
Qed.

Lemma getEntity_counts_request (fileReference : string) (e : Entity)
    (s : L1State) (n : nat) :
  result (L1Repository.getEntity fileReference s n) = Ok e ->
  totalRequests (connectionMetrics (state (L1Repository.getEntity fileReference s n)))
  = totalRequests (connectionMetrics s) + 1.
Proof.
  destruct (connected s) eqn:Hc;
    [|rewrite (getEntity_disconnected _ _ _ Hc); discriminate].
  destruct (entityCache s !! fileReference) as [e0|] eqn:He.
  - now rewrite (getEntity_cached _ e0 _ _ Hc He).
  - rewrite (getEntity_fetch _ _ _ Hc He).
    now destruct (String.eqb (loadedName fileReference) "").
Qed.

(** X18.  Repeatable read.  When [getEntity] returns an entity for a name, a
    [getEntity] of the same name issued next returns the same entity,
    whether the first read was served by the bounded cache or fetched, and
    whether or not the bounded cache kept the entry. *)
Theorem getEntity_repeatable (entityName : string) (x : option Entity)
    (w : CortexManager.State) (n : nat) :
  result (CortexManager.getEntity entityName w n) = Ok x ->
  let first := CortexManager.getEntity entityName w n in
  result (CortexManager.getEntity entityName (state first) (readings first)) = Ok x.
Proof.
  cbv zeta.
  destruct (CortexManager.initialized w) eqn:Hi;
    [|rewrite (getEntity_uninitialized _ _ _ Hi); discriminate].
  destruct (l0_initialized (CortexManager.l0Bootstrap w)) eqn:Hl0;
    [|rewrite (getEntity_catalog_uninitialized _ _ _ Hi Hl0); discriminate].
  destruct (lightweightReferences (CortexManager.l0Bootstrap w) !! entityName)
    as [r|] eqn:Hr;
    [|rewrite (getEntity_unknown _ _ _ Hi Hl0 Hr); discriminate].
  destruct (lookup_present entityName r _ n Hl0 Hr) as (t & _ & Hrefs & Hinit).
  assert (Hr' : forall l0', lightweightReferences l0'
                  = <[entityName := L0Bootstrap.touch r t]>
                      (lightweightReferences (CortexManager.l0Bootstrap w)) ->
                lightweightReferences l0' !! entityName
                = Some (L0Bootstrap.touch r t))
    by (intros l0' ->; apply lookup_insert_eq).
  destruct (LRUCache.find (cacheKey entityName)
              (LRUCache.entries (CortexManager.cache w))) as [v|] eqn:Hf.
  - rewrite (getEntity_hit _ r v _ _ Hi Hl0 Hr Hf).
    unfold result at 1, state, readings. cbn [fst snd].
    intros Heq. injection Heq as <-.
    rewrite (getEntity_hit _ (L0Bootstrap.touch r t) v); try reflexivity.
    + exact Hi.
    + exact Hinit.
    + now apply Hr'.
    + cbn [CortexManager.with_cache CortexManager.cache]. now rewrite find_get.
  - assert (Hmiss : LRUCache.has (cacheKey entityName) (CortexManager.cache w) = false)
      by (unfold LRUCache.has; now rewrite Hf).
    rewrite (getEntity_miss _ r _ _ Hi Hl0 Hr Hmiss). cbv zeta.
    destruct (result (L1Repository.getEntity (fileReference r)
                        (CortexManager.l1Repository w) _)) as [e|msg] eqn:Hfetch;
      [|discriminate].
    unfold result at 1, state at 1 3, readings at 1. cbn [fst snd].
    intros Heq. injection Heq as <-.
    destruct (find_after_set (cacheKey entityName) e (CortexManager.cache w))
      as [Hkept|Hgone].
    + rewrite (getEntity_hit _ (L0Bootstrap.touch r t) e); try reflexivity.
      * exact Hi.
      * exact Hinit.
      * now apply Hr'.
      * exact Hkept.
    + rewrite (getEntity_miss _ (L0Bootstrap.touch r t)).
      * cbv zeta. cbn [L0Bootstrap.touch fileReference CortexManager.with_health
          CortexManager.with_cache CortexManager.with_l1 CortexManager.l1Repository].
        now rewrite (getEntity_again _ e _ _ _ Hfetch).
      * exact Hi.
      * exact Hinit.
      * now apply Hr'.
      * unfold LRUCache.has.
        cbn [CortexManager.with_health CortexManager.with_cache CortexManager.cache].
        now rewrite Hgone.
Qed.

(** X19.  What a read counts.  A [getEntity] that returns was either served
    by the bounded cache, and then it adds one cache hit, no miss, and leaves
    the backing store client untouched, or it was fetched, and then it adds
    one cache miss, no hit, and one request to the client.  A [getEntity]
    that throws changes neither health counter and leaves the bounded cache
    as it was. *)
Theorem getEntity_accounting (entityName : string) (w : CortexManager.State) (n : nat) :
  let out := CortexManager.getEntity entityName w n in
  let h := CortexManager.healthMonitor w in
  let h' := CortexManager.healthMonitor (state out) in
  match result out with
  | Ok _ =>
      (LRUCache.has (cacheKey entityName) (CortexManager.cache w) = true
       /\ cacheHits h' = cacheHits h + 1 /\ cacheMisses h' = cacheMisses h
       /\ CortexManager.l1Repository (state out) = CortexManager.l1Repository w)
      \/ (LRUCache.has (cacheKey entityName) (CortexManager.cache w) = false
          /\ cacheHits h' = cacheHits h /\ cacheMisses h' = cacheMisses h + 1
          /\ totalRequests (connectionMetrics (CortexManager.l1Repository (state out)))
             = totalRequests (connectionMetrics (CortexManager.l1Repository w)) + 1)
  | Throw _ => h' = h /\ CortexManager.cache (state out) = CortexManager.cache w
  end.
Proof.
  cbv zeta.
  destruct (CortexManager.initialized w) eqn:Hi;
    [|rewrite (getEntity_uninitialized _ _ _ Hi); now split].
  destruct (l0_initialized (CortexManager.l0Bootstrap w)) eqn:Hl0;
    [|rewrite (getEntity_catalog_uninitialized _ _ _ Hi Hl0); now split].
  destruct (lightweightReferences (CortexManager.l0Bootstrap w) !! entityName)
    as [r|] eqn:Hr;
    [|rewrite (getEntity_unknown _ _ _ Hi Hl0 Hr); now split].
  destruct (LRUCache.find (cacheKey entityName)
              (LRUCache.entries (CortexManager.cache w))) as [v|] eqn:Hf.
  - rewrite (getEntity_hit _ r v _ _ Hi Hl0 Hr Hf).
    unfold result, state. cbn [fst snd]. left.
    unfold LRUCache.has. rewrite Hf. cbn. auto.
  - assert (Hmiss : LRUCache.has (cacheKey entityName) (CortexManager.cache w) = false)
      by (unfold LRUCache.has; now rewrite Hf).
    rewrite (getEntity_miss _ r _ _ Hi Hl0 Hr Hmiss). cbv zeta.
    destruct (result (L1Repository.getEntity (fileReference r)
                        (CortexManager.l1Repository w) _)) as [e|msg] eqn:Hfetch.
    + unfold result, state at 1 2 3. cbn [fst snd]. right.
      split; [exact Hmiss|]. cbn.
      split; [reflexivity|]. split; [reflexivity|].
      now apply (getEntity_counts_request _ e).
    + unfold result, state at 1 2. cbn [fst snd]. now split.
Qed.

End RepeatedReads.

Section ManagerInitialize.
Context `{Runtime}.

(** X20.  [initialize] of the manager fails only through its collaborators:
    the catalog's [initialize] and the client's [connect] always succeed, so
    the call returns, with the flag set and the time between its first and
    last clock reading, exactly when the entity manager's [initialize] and
    the health monitor's [start] both return; otherwise it throws
    "Cortex initialization failed: " followed by the collaborator's message
    and leaves the manager's flag as it was. *)
Theorem initialize_outcome (w : CortexManager.State) (n : nat) :
  let l0 := state (L0Bootstrap.initialize (CortexManager.l0Bootstrap w) (n + 1)) in
  let l1 := state (L1Repository.connect (CortexManager.l1Repository w) (n + 1 + 2)) in
  let manager := fst (entityManagerInitialize (l0, l1)) in
  let monitor := fst (healthMonitorStart (CortexManager.healthMonitor w)) in
  let out := CortexManager.initialize w n in
  match result out with
  | Ok r =>
      manager = Ok tt /\ monitor = Ok tt
      /\ CortexManager.initialized (state out) = true
      /\ CortexManager.initializationTime r = (clock (n + 7) - clock n)%Z
  | Throw message =>
      CortexManager.initialized (state out) = CortexManager.initialized w
      /\ exists cause,
           message = "Cortex initialization failed: " +:+ cause
           /\ (manager = Throw cause
               \/ (manager = Ok tt /\ monitor = Throw cause))
  end.
Proof.
  cbv zeta.
  destruct (CortexManager.initialize w n) as [[res w'] n'] eqn:Hrun.
  unfold result at 1, state at 1 2. cbn [fst snd]. revert Hrun.
  unfold CortexManager.initialize.
  unfold bind at 1, Date_now at 1. unfold tryCatch.
  unfold bind at 1, CortexManager.onL0, lift at 1.
  destruct (L0_initialize_ok (CortexManager.l0Bootstrap w) (n + 1))
    as (r0 & s0 & E0 & _).
  rewrite E0.
  unfold bind at 1, CortexManager.onL1, lift at 1.
  cbn [CortexManager.with_l0 CortexManager.l1Repository].
  destruct (L1_connect_ok (CortexManager.l1Repository w) (n + 1 + 2))
    as (r1 & s1 & E1 & _).
  rewrite E1.
  unfold bind at 1, lift at 1.
  cbn [CortexManager.with_l0 CortexManager.with_l1 CortexManager.l0Bootstrap
       CortexManager.l1Repository].
  unfold state. cbn [fst snd].
  destruct (entityManagerInitialize (s0, s1)) as [[[]|cause] [s0' s1']].
  2:{ unfold throw. intros Heq. injection Heq as <- <- <-.
      split; [reflexivity|]. exists cause. cbn. auto. }
  unfold bind at 1, lift at 1.
  cbn [CortexManager.with_l0 CortexManager.with_l1 CortexManager.healthMonitor fst snd].
  destruct (healthMonitorStart (CortexManager.healthMonitor w)) as [[[]|cause] h'].
  2:{ unfold throw. intros Heq. injection Heq as <- <- <-.
      split; [reflexivity|]. exists cause. cbn. auto. }
  js_unfold. intros Heq. injection Heq as <- <- <-.
  cbn. repeat split.
  replace (n + 1 + 2 + 4) with (n + 7) by lia. reflexivity.
Qed.

End ManagerInitialize.

Section Priorities.

(** X21.  The priority depends on the entity type and the number of
    observations only, and more observations never lower it: of two entities
    of the same type, the one with at least as many observations has at least
    as high a priority. *)
Theorem calculatePriority_monotone (e1 e2 : Entity) :
  entityType e1 = entityType e2 ->
  observationCount e1 <= observationCount e2 ->
  priorityRank (L0Bootstrap.calculatePriority e1)
  <= priorityRank (L0Bootstrap.calculatePriority e2).
Proof.
  unfold L0Bootstrap.calculatePriority, observationCount. intros -> Hle.
  destruct (bool_decide (entityType e2 = Some "System_Bootstrap_Protocol"));
    [reflexivity|].
  destruct (observations e1) as [obs1|], (observations e2) as [obs2|];
    cbn [from_option] in Hle.
  - destruct (Nat.ltb_spec 10 (length obs1)), (Nat.ltb_spec 10 (length obs2)),
      (Nat.ltb_spec 5 (length obs1)), (Nat.ltb_spec 5 (length obs2));
      cbn [priorityRank]; lia.
  - destruct (Nat.ltb_spec 10 (length obs1)), (Nat.ltb_spec 5 (length obs1));
      cbn [priorityRank]; lia.
  - cbn [priorityRank]. lia.
  - reflexivity.
Qed.

End Priorities.

(** ** The properties above on concrete clients, catalogs and managers *)


Lemma storeEntity_rejects_invalid_witness :
  result (@L1Repository.storeEntity demoRuntime "Alpha" entityNoName
            (fst connectedClient) (snd connectedClient))
  = Throw "Failed to store entity in L1: Entity must have a valid name".
Proof.
  exact (proj1 (@storeEntity_rejects_invalid demoRuntime "Alpha" entityNoName
                  (fst connectedClient) (snd connectedClient) eq_refl eq_refl)).
Defined.


Lemma getEntity_reads_repository_witness :
  let out := @L1Repository.getEntity demoRuntime "cortex/entities/alpha.json"
               (fst connectedClient) (snd connectedClient) in
  match result out with
  | Ok e => name e = Some "alpha" /\ validShape e = true
  | Throw _ => False
  end.
Proof.
  pose proof (@getEntity_reads_repository demoRuntime "cortex/entities/alpha.json"
                (fst connectedClient) (snd connectedClient) eq_refl eq_refl) as Hread.
  cbv zeta in *.
  destruct (result (@L1Repository.getEntity demoRuntime "cortex/entities/alpha.json"
                      (fst connectedClient) (snd connectedClient))) as [e|message].
  - destruct Hread as (_ & Hname & Hvalid & _). split; [exact Hname | exact Hvalid].
  - destruct Hread as (Hempty & _). discriminate Hempty.
Defined.

Lemma getEntity_twice_witness :
  let first := @L1Repository.getEntity demoRuntime "cortex/entities/alpha.json"
                 (fst connectedClient) (snd connectedClient) in
  result (@L1Repository.getEntity demoRuntime "cortex/entities/alpha.json"
            (state first) (readings first))
  = Ok (@loadedEntity demoRuntime "cortex/entities/alpha.json" 5).
Proof.
  cbv zeta.
  rewrite (@getEntity_twice demoRuntime "cortex/entities/alpha.json"
             (@loadedEntity demoRuntime "cortex/entities/alpha.json" 5)
             (fst connectedClient) (snd connectedClient) eq_refl).
  reflexivity.
Defined.

Lemma client_serves_valid_entities_witness :
  validShape (@loadedEntity demoRuntime "cortex/entities/alpha.json" 5) = true.
Proof.
  apply (proj1 (@client_serves_valid_entities demoRuntime None None
                  [CallConnect; CallGetEntity "cortex/entities/alpha.json"] 0
                  "cortex/entities/alpha.json"
                  (@loadedEntity demoRuntime "cortex/entities/alpha.json" 5) 0)).
  reflexivity.
Defined.

Lemma client_cache_never_evicts_witness :
  is_Some
    (entityCache
       (fst (@l1Calls demoRuntime
               [CallGetEntity "cortex/entities/beta.json";
                CallStoreEntity "Gamma" entityT2thenT1;
                CallConnect]
               (@l1Call demoRuntime (CallStoreEntity "Alpha" entityT1thenT2)
                  connectedClient)))
     !! "cortex/entities/alpha.json").
Proof.
  pose proof (@client_cache_never_evicts demoRuntime
                [CallGetEntity "cortex/entities/beta.json";
                 CallStoreEntity "Gamma" entityT2thenT1;
                 CallConnect]
                (fst (@l1Call demoRuntime (CallStoreEntity "Alpha" entityT1thenT2)
                        connectedClient))
                (snd (@l1Call demoRuntime (CallStoreEntity "Alpha" entityT1thenT2)
                        connectedClient))
                "cortex/entities/alpha.json") as Hkept.
  rewrite <- surjective_pairing in Hkept.
  apply Hkept. eexists. reflexivity.
Defined.

Lemma createLightweightReference_lookup_witness :
  let made := @L0Bootstrap.createLightweightReference demoRuntime "Study"
                entityT1thenT2 "cortex/entities/study.json"
                (fst readyCatalog) (snd readyCatalog) in
  exists v,
    result (@L0Bootstrap.getLightweightReference demoRuntime "Study"
              (state made) (readings made))
    = Ok (Some v)
    /\ v_fileReference v = "cortex/entities/study.json"
    /\ v_evidenceQuality v = T1
    /\ v_accessCount v = 1.
Proof.
  destruct (@createLightweightReference_lookup demoRuntime "Study" entityT1thenT2
              "cortex/entities/study.json" (fst readyCatalog) (snd readyCatalog)
              eq_refl)
    as (v & Hv & _ & Hloc & _ & _ & _ & Hq & Hcount).
  exists v. split; [exact Hv|]. split; [exact Hloc|]. split; [|exact Hcount].
  rewrite Hq. reflexivity.
Defined.

Lemma getLightweightReference_unknown_is_tracked_witness :
  let out := @L0Bootstrap.getLightweightReference demoRuntime "Nobody"
               (fst readyCatalog) (snd readyCatalog) in
  result out = Ok None /\ trackedCount (state out) "Nobody" = 1.
Proof.
  destruct (@getLightweightReference_unknown_is_tracked demoRuntime "Nobody"
              (fst readyCatalog) (snd readyCatalog) eq_refl eq_refl)
    as (Hres & _ & Hcount & _).
  split; [exact Hres | exact Hcount].
Defined.

Lemma reference_accessCount_bounded_witness :
  1 <= trackedCount
         (fst (@l0Calls demoRuntime
                 [CatalogInitialize; CatalogLookup "Cortex_Access_Protocol_v3_0"]
                 (L0Bootstrap.new, 0)))
         "Cortex_Access_Protocol_v3_0".
Proof.
  apply (@reference_accessCount_bounded demoRuntime
           [CatalogInitialize; CatalogLookup "Cortex_Access_Protocol_v3_0"] 0
           "Cortex_Access_Protocol_v3_0"
           {| entityName := "Cortex_Access_Protocol_v3_0";
              fileReference := "cortex/entities/cortex_access_protocol_v3_0.json";
              summary := "Revolutionary AGI Memory Bootstrap Protocol";
              priority := critical;
              sizeText := "2.1KB";
              evidenceQuality := T1;
              createdAt := 0;
              lastAccessed := 3000;
              accessCount := 1;
              transferredAt := None |}).
  reflexivity.
Defined.

Lemma catalog_never_drops_witness :
  is_Some
    (lightweightReferences
       (fst (@l0Calls demoRuntime
               [CatalogCreate "Study" entityT1thenT2 "cortex/entities/study.json";
                CatalogInitialize;
                CatalogLookup "Nobody"]
               readyCatalog))
     !! "Cortex_Access_Protocol_v3_0").
Proof.
  pose proof (@catalog_never_drops demoRuntime
                [CatalogCreate "Study" entityT1thenT2 "cortex/entities/study.json";
                 CatalogInitialize;
                 CatalogLookup "Nobody"]
                (fst readyCatalog) (snd readyCatalog)
                "Cortex_Access_Protocol_v3_0") as Hkept.
  rewrite <- surjective_pairing in Hkept.
  apply Hkept. eexists. reflexivity.
Defined.

Lemma generateSummary_bounds_witness :
  L0Bootstrap.generateSummary entityT1thenT2 = "No tier here"
  /\ String.length
       (L0Bootstrap.generateSummary (entityWith "Fact" [repeatString 101 "a"]))
     = 103.
Proof.
  split.
  - apply (proj1 (proj2 (proj2 (generateSummary_bounds entityT1thenT2 "No tier here"
                                  ["Peer reviewed (T1)"; "Replicated once (T2)"]
                                  eq_refl eq_refl)))).
    cbn. lia.
  - apply (proj2 (proj2 (proj2 (generateSummary_bounds
                                  (entityWith "Fact" [repeatString 101 "a"])
                                  (repeatString 101 "a") [] eq_refl eq_refl)))).
    vm_compute. lia.
Defined.

Lemma getEntity_repeatable_witness :
  let first := @CortexManager.getEntity demoRuntime "Cortex_Access_Protocol_v3_0"
                 (fst readyManager) (snd readyManager) in
  result (@CortexManager.getEntity demoRuntime "Cortex_Access_Protocol_v3_0"
            (state first) (readings first))
  = Ok (Some (@loadedEntity demoRuntime
                "cortex/entities/cortex_access_protocol_v3_0.json" 11)).
Proof.
  apply (@getEntity_repeatable demoRuntime "Cortex_Access_Protocol_v3_0"
           (Some (@loadedEntity demoRuntime
                    "cortex/entities/cortex_access_protocol_v3_0.json" 11))
           (fst readyManager) (snd readyManager)).
  vm_compute. reflexivity.
Defined.

Lemma calculatePriority_monotone_witness :
  priorityRank (L0Bootstrap.calculatePriority (entityWith "Fact" ["o1"]))
  <= priorityRank
       (L0Bootstrap.calculatePriority
          (entityWith "Fact" ["o1"; "o2"; "o3"; "o4"; "o5"; "o6"])).
Proof.
  apply (calculatePriority_monotone (entityWith "Fact" ["o1"])
           (entityWith "Fact" ["o1"; "o2"; "o3"; "o4"; "o5"; "o6"])).
  - reflexivity.
  - cbn. lia.
Defined.
